(** * train_single_gpu.py: the training driver, embedded and verified

    The script orchestrates calls into PyTorch and into the repository's
    [datasets], [models] and [utils] packages.  Those collaborators are
    taken as the fields of the class [Framework]; everything the script
    itself does (the control flow, the globals it mutates, the files it
    writes, the lines it logs, the exceptions it runs into) is modelled by
    executable definitions.

    Modelling conventions.
    - A Python float is [pyfloat]: the rational a finite double denotes, the
      two infinities, or NaN.  Comparisons follow IEEE 754 (every comparison
      with NaN is false).  Where the script makes a float out of an exact
      number (the quotient [statistics.mean] ends with, [.item()], an [int]
      operand of [%]) the number is rounded to the nearest double, ties to
      even, by [round_double].  Signed zeros are not told apart.
    - A string is the sequence of its bytes in UTF-8.
    - The configuration is a YAML mapping: an association list in insertion
      order, as a Python dict keeps it.  YAML anchors (two keys bound to one
      shared object) are not modelled: the configuration is a tree.
    - Mutable objects live in a state record threaded through a state and
      exception monad; an exception leaves the effects made so far in place.
    - A state dict that [save_model] stores under ['sd'] is recorded with
      the content it has when it is stored.  In the program that object
      shares its tensors with the model and the optimizer, so what it shows
      follows them through the training that comes after the save.  The
      record and the program agree whenever no optimization step was made
      since the last save, as at the end of every completed iteration of
      the epoch loop; the statements below speak of the content of an
      ['sd'] entry at such moments only.
    - Output on stdout and the tqdm progress bar are not modelled. *)

From Stdlib Require Import ZArith QArith Qround Qabs Qpower List Lia Lqa.
From stdpp Require Import base strings gmap list pretty.

Local Open Scope Z_scope.
Local Open Scope string_scope.

(** ** Python values *)

Inductive pyfloat : Type :=
| Fin (q : Q)
| PInf
| NInf
| NaN.

(** [a < b] on floats. *)
Definition flt (a b : pyfloat) : bool :=
  match a, b with
  | NaN, _ | _, NaN => false
  | Fin x, Fin y => match Qcompare x y with Lt => true | _ => false end
  | Fin _, PInf => true
  | Fin _, NInf => false
  | PInf, _ => false
  | NInf, NInf => false
  | NInf, _ => true
  end.

(** [a > b] is [b < a]. *)
Definition fgt (a b : pyfloat) : bool := flt b a.

Definition float_of_Z (z : Z) : pyfloat := Fin (inject_Z z).

(** The literals [-1e18] and [1e8]. *)
Definition neg_1e18 : pyfloat := float_of_Z (- 10 ^ 18).
Definition pos_1e8 : pyfloat := float_of_Z (10 ^ 8).

(** *** Rounding to a double

    A double is [m * 2^e] with [|m| < 2^53] and [-1074 <= e <= 971].  The
    double nearest to a rational [x] has the exponent of the last place of
    [x] (52 below the exponent of its leading bit, and never below
    [-1074]) and, for significand, the integer nearest to [x / 2^e], the
    even one of the two in a tie. *)

Section Doubles.
Local Open Scope Q_scope.

Definition pow2 (e : Z) : Q := Qpower 2 e.

(** [floor (log2 x)], for a positive [x] *)
Definition ilog2 (x : Q) : Z :=
  let e := (Z.log2 (Qnum x) - Z.log2 (Zpos (Qden x)))%Z in
  if Qle_bool (pow2 e) x then e else (e - 1)%Z.

(** The integer nearest to [x], the even one in a tie. *)
Definition rne (x : Q) : Z :=
  let f := Qfloor x in
  match Qcompare (x - inject_Z f) (1 # 2) with
  | Lt => f
  | Gt => (f + 1)%Z
  | Eq => if Z.even f then f else (f + 1)%Z
  end.

(** The exponent of the last place of the doubles around a positive [x]. *)
Definition ulp_exp (x : Q) : Z := Z.max (ilog2 x - 52) (-1074).

Definition round_pos (x : Q) : Q :=
  inject_Z (rne (x / pow2 (ulp_exp x))) * pow2 (ulp_exp x).

Definition round_double (x : Q) : Q :=
  match Qcompare x 0 with
  | Eq => 0
  | Gt => round_pos x
  | Lt => - round_pos (- x)
  end.

(** The largest double, [(2^53 - 1) * 2^971]. *)
Definition max_double : Q := inject_Z ((2 ^ 53 - 1) * 2 ^ 971).

(** The rationals that are doubles. *)
Definition is_double (q : Q) : bool :=
  Qeq_bool (round_double q) q && Qle_bool (Qabs q) max_double.

(** [tensor.item()] on a tensor that holds one number: the Python float of
    that value.  The value of a tensor of floats is a double already, which
    the rounding leaves as it is; a value past the largest double, which no
    such tensor holds, is taken to the infinity of its sign. *)
Definition item (f : pyfloat) : pyfloat :=
  match f with
  | Fin q =>
      let r := round_double q in
      if Qle_bool (Qabs r) max_double then Fin (Qred r)
      else if Qle_bool 0 r then PInf else NInf
  | _ => f
  end.
End Doubles.

(** Values a YAML document or a checkpoint can hold.  [SD] is the type of
    the state dicts the framework produces. *)
#[warnings="-register-all"]
Inductive pyval (SD : Type) : Type :=
| PNone
| PBool (b : bool)
| PInt (z : Z)
| PFloat (f : pyfloat)
| PStr (s : string)
| PList (l : list (pyval SD))
| PDict (d : list (string * pyval SD))
| PStateDict (sd : SD).

Arguments PNone {SD}.
Arguments PBool {SD} b.
Arguments PInt {SD} z.
Arguments PFloat {SD} f.
Arguments PStr {SD} s.
Arguments PList {SD} l.
Arguments PDict {SD} d.
Arguments PStateDict {SD} sd.

(** ** Exceptions *)

Inductive exn : Type :=
| KeyError (key : string)
| TypeError (what : string)
| ZeroDivisionError
| UnboundLocalError (var : string)
| StatisticsError
| OverflowError
| RuntimeError (what : string)
| FileNotFoundError (path : string)
| UnpicklingError (path : string)
| ExternalError (what : string).

Inductive result (A : Type) : Type :=
| Ok (a : A)
| Raise (e : exn).

Arguments Ok {A} a.
Arguments Raise {A} e.

Definition is_ok {A} (r : result A) : bool :=
  match r with Ok _ => true | Raise _ => false end.

(** [float(x)] for an exact [x], an [int] or a [Fraction]: the nearest
    double, or OverflowError when that is past the largest double. *)
Definition to_float (x : Q) : result pyfloat :=
  let r := round_double x in
  if Qle_bool (Qabs r) max_double then Ok (Fin (Qred r))
  else Raise OverflowError.

(** ** Dicts with string keys, in insertion order *)

Section Dict.
Context {V : Type}.

Fixpoint dict_get (k : string) (d : list (string * V)) : option V :=
  match d with
  | [] => None
  | (k', v) :: d' => if String.eqb k k' then Some v else dict_get k d'
  end.

(** [d[k] = v]: overwrite in place, or append a new key at the end. *)
Fixpoint dict_set (k : string) (v : V) (d : list (string * V))
  : list (string * V) :=
  match d with
  | [] => [(k, v)]
  | (k', v') :: d' =>
      if String.eqb k k' then (k, v) :: d' else (k', v') :: dict_set k v d'
  end.

(** [k in d] *)
Definition dict_mem (k : string) (d : list (string * V)) : bool :=
  match dict_get k d with Some _ => true | None => false end.

(** [d[k]], which raises KeyError on a missing key. *)
Definition getitem (k : string) (d : list (string * V)) : result V :=
  match dict_get k d with
  | Some v => Ok v
  | None => Raise (KeyError k)
  end.
End Dict.

(** [config.get(k)]: [None] for a missing key. *)
Definition dict_get_or_none {SD} (k : string) (d : list (string * pyval SD))
  : pyval SD :=
  match dict_get k d with Some v => v | None => PNone end.

(** [x is None] *)
Definition is_none {SD} (v : pyval SD) : bool :=
  match v with PNone => true | _ => false end.

(** [v == s] for a string literal [s]. *)
Definition str_eq {SD} (v : pyval SD) (s : string) : bool :=
  match v with PStr s' => String.eqb s' s | _ => false end.

(** [spec['sd'] = sd]: item assignment works on a dict only. *)
Definition set_sd {SD} (spec : pyval SD) (sd : SD) : result (pyval SD) :=
  match spec with
  | PDict d => Ok (PDict (dict_set "sd" (PStateDict sd) d))
  | _ => Raise (TypeError "object does not support item assignment")
  end.

(** [os.path.join(a, b)] for a relative [b]. *)
Fixpoint ends_with_slash (a : string) : bool :=
  match a with
  | EmptyString => false
  | String c EmptyString => String.eqb (String c EmptyString) "/"
  | String _ a' => ends_with_slash a'
  end.

Definition path_join (a b : string) : string :=
  if String.eqb a "" then b
  else if ends_with_slash a then a ++ b
  else a ++ "/" ++ b.

(** [l.append(x)] *)
Definition append {A} (l : list A) (x : A) : list A := (l ++ [x])%list.

Definition str_join (sep : string) (l : list string) : string :=
  match l with
  | [] => ""
  | x :: xs => fold_left (fun acc y => acc ++ sep ++ y) xs x
  end.

(** ** [statistics.mean] on floats

    The library sums the data as exact fractions, divides by the count and
    converts the quotient to a float; when an infinity or a NaN occurs,
    only those are added up, as floats. *)

Definition is_finite (f : pyfloat) : bool :=
  match f with Fin _ => true | _ => false end.

Definition special_add (a b : pyfloat) : pyfloat :=
  match a, b with
  | NaN, _ | _, NaN => NaN
  | PInf, NInf | NInf, PInf => NaN
  | PInf, _ | _, PInf => PInf
  | NInf, _ | _, NInf => NInf
  | Fin x, Fin y => Fin (x + y)
  end.

Definition exact_sum (l : list pyfloat) : Q :=
  fold_left (fun acc f => match f with Fin q => (acc + q)%Q | _ => acc end)
            l 0%Q.

Definition special_sum (l : list pyfloat) : pyfloat :=
  fold_left special_add (List.filter (fun f => negb (is_finite f)) l) (Fin 0).

(** The sum of rationals, for the statement of what [mean] computes. *)
Definition Qsum (qs : list Q) : Q := fold_right Qplus 0%Q qs.

Definition mean (data : list pyfloat) : result pyfloat :=
  match data with
  | [] => Raise StatisticsError
  | _ :: _ =>
      if forallb is_finite data
      then to_float (exact_sum data / inject_Z (Z.of_nat (length data)))
      else Ok (special_sum data)
  end.

(** ** The state and exception monad *)

Definition M (S A : Type) : Type := S -> result A * S.

Definition ret {S A} (a : A) : M S A := fun s => (Ok a, s).

Definition bind {S A B} (m : M S A) (k : A -> M S B) : M S B :=
  fun s => match m s with
           | (Ok a, s') => k a s'
           | (Raise e, s') => (Raise e, s')
           end.

Definition raise {S A} (e : exn) : M S A := fun s => (Raise e, s).

Definition lift {S A} (r : result A) : M S A := fun s => (r, s).

Definition gets {S A} (f : S -> A) : M S A := fun s => (Ok (f s), s).

Definition modify {S} (f : S -> S) : M S unit := fun s => (Ok tt, f s).

Notation "x <- m ;; k" := (bind m (fun x => k))
  (at level 100, m at next level, right associativity).
Notation "m ;;; k" := (bind m (fun _ => k))
  (at level 100, right associativity).

(** A [for] loop that threads an accumulator through its body. *)
Fixpoint foldM {S A B} (body : B -> A -> M S B) (l : list A) (acc : B)
  : M S B :=
  match l with
  | [] => ret acc
  | x :: xs => acc' <- body acc x ;; foldM body xs acc'
  end.

(** ** The collaborators *)

Class Framework : Type := {
  tensor : Type;
  state_dict : Type;
  Model : Type;
  Optimizer : Type;
  Scheduler : Type;
  DataLoader : Type;
  (* torch *)
  cuda : tensor -> tensor;
  sigmoid : tensor -> tensor;
  (* torch.cat(l, 0) of a non-empty list, and the exception it raises on
     an empty one, whose class depends on the version of torch *)
  cat : list tensor -> tensor;
  cat_error : exn;
  (* the model object and the optimizer attached to it *)
  model_train : Model -> Model;
  model_eval : Model -> Model;
  set_input : tensor -> tensor -> Model -> Model;
  optimize_parameters : Model -> Optimizer -> Model * Optimizer;
  (* the number the tensor model.loss_G holds *)
  loss_G : Model -> pyfloat;
  infer : Model -> tensor -> tensor;
  model_state_dict : Model -> state_dict;
  load_state_dict : pyval state_dict -> Model -> result Model;
  requires_grad_all : Model -> Model;
  optimizer_state_dict : Optimizer -> state_dict;
  optimizer_lr : Optimizer -> pyfloat;
  (* models.make(spec), model.cuda() and utils.make_optimizer *)
  models_make : pyval state_dict -> result Model;
  model_cuda : Model -> Model;
  make_optimizer : Model -> pyval state_dict -> result Optimizer;
  (* CosineAnnealingLR(optimizer, T_max, eta_min), and its step(): the
     outcome, and the scheduler and the optimizer as the call leaves them
     (a scheduler built with an eta_min that is no number is one whose
     step() raises a TypeError) *)
  CosineAnnealingLR :
    Optimizer -> pyval state_dict -> pyval state_dict -> Scheduler * Optimizer;
  scheduler_step :
    Scheduler -> Optimizer -> result unit * (Scheduler * Optimizer);
  (* datasets.make twice and DataLoader(..., shuffle=True); the batches
     the shuffled loader yields during the pass made in a given epoch *)
  build_loader : pyval state_dict -> result DataLoader;
  loader_pass : DataLoader -> Z -> list (list (string * tensor));
  (* utils.calc_* *)
  calc_f1 : tensor -> tensor -> pyfloat * pyfloat * pyfloat * pyfloat;
  calc_fmeasure : tensor -> tensor -> pyfloat * pyfloat * pyfloat * pyfloat;
  calc_ber : tensor -> tensor -> pyfloat * pyfloat * pyfloat * pyfloat;
  calc_cod : tensor -> tensor -> pyfloat * pyfloat * pyfloat * pyfloat;
  (* '{:.4f}'.format(x) *)
  fmt4 : pyfloat -> string;
  (* the '{} {}/{}' item of the log line, built from utils.Timer readings
     for (epoch, epoch_start, epoch_max); wall-clock time is not modelled *)
  time_info : Z -> Z -> Z -> string;
}.

Section Program.
Context `{F : Framework}.

Abbreviation value := (pyval state_dict).
Abbreviation dict := (list (string * value)).
Abbreviation batch := (list (string * tensor)).

(** *** Files, effects, state *)

Inductive file : Type :=
| YamlFile (doc : dict)
| TorchFile (obj : value).

Inductive event : Type :=
| EvWrite (path : string) (f : file)
| EvLoad (path : string)
| EvScalar (tag : string) (v : pyfloat) (step : Z)
| EvScalars (main_tag sub_tag : string) (v : pyfloat) (step : Z)
| EvLog (line : string)
| EvFlush.

(** The process-wide state: the global [config], the file system, and
    everything sent to the log and to the summary writer so far. *)
Record env : Type := Env {
  config : dict;
  fs : gmap string file;
  out : list event;
}.

(** [env] plus the objects [main] builds.  [optimizer] is the one
    optimizer object: the local [optimizer], [model.optimizer] and the
    scheduler all refer to it. *)
Record world : Type := World {
  genv : env;
  model : Model;
  optimizer : Optimizer;
  lr_scheduler : Scheduler;
}.

Definition set_config (c : dict) (e : env) : env :=
  Env c (fs e) (out e).
Definition emit_env (ev : event) (e : env) : env :=
  Env (config e) (fs e) (append (out e) ev).
Definition write_env (path : string) (f : file) (e : env) : env :=
  Env (config e) (<[path := f]> (fs e)) (append (out e) (EvWrite path f)).

Definition set_genv (e : env) (w : world) : world :=
  World e (model w) (optimizer w) (lr_scheduler w).
Definition set_model (m : Model) (w : world) : world :=
  World (genv w) m (optimizer w) (lr_scheduler w).
Definition set_optimizer (o : Optimizer) (w : world) : world :=
  World (genv w) (model w) o (lr_scheduler w).
Definition set_lr_scheduler (s : Scheduler) (w : world) : world :=
  World (genv w) (model w) (optimizer w) s.

Definition on_env (f : env -> env) : M world unit :=
  modify (fun w => set_genv (f (genv w)) w).
Definition emit (ev : event) : M world unit := on_env (emit_env ev).

(** [torch.save(obj, path)] *)
Definition torch_save (obj : value) (path : string) : M world unit :=
  on_env (write_env path (TorchFile obj)).

(** [torch.load(path, weights_only=True)] *)
Definition torch_load (path : value) : M env value :=
  match path with
  | PStr p =>
      modify (emit_env (EvLoad p)) ;;;
      files <- gets fs ;;
      match files !! p with
      | Some (TorchFile obj) => ret obj
      | Some (YamlFile _) => raise (UnpicklingError p)
      | None => raise (FileNotFoundError p)
      end
  | _ => raise (ExternalError "torch.load")
  end.

(** *** Numbers read from the configuration *)

(** An [int] (a [bool] is one). *)
Definition as_int (v : value) : option Z :=
  match v with
  | PInt z => Some z
  | PBool b => Some (Z.b2z b)
  | _ => None
  end.

(** [str(v)] for an [int] *)
Definition str_int (v : value) : string :=
  match v with
  | PInt z => pretty z
  | PBool true => "True"
  | PBool false => "False"
  | _ => ""
  end.

(** [v + 1] *)
Definition add1 (v : value) : result value :=
  match v with
  | PInt z => Ok (PInt (z + 1))
  | PBool b => Ok (PInt (Z.b2z b + 1))
  | PFloat (Fin q) => Ok (PFloat (Fin (q + 1)))
  | PFloat f => Ok (PFloat f)
  | _ => Raise (TypeError "unsupported operand type(s) for +")
  end.

(** [range(a, b)] over [int]s *)
Definition range (a b : Z) : list Z :=
  map (fun i => a + Z.of_nat i) (seq 0 (Z.to_nat (b - a))).

(** [range(epoch_start, epoch_max + 1)] *)
Definition epoch_range (epoch_start epoch_max : value) : result (list Z) :=
  match add1 epoch_max with
  | Raise e => Raise e
  | Ok stop =>
      match as_int epoch_start, as_int stop with
      | Some a, Some b => Ok (range a b)
      | _, _ =>
          Raise (TypeError "object cannot be interpreted as an integer")
      end
  end.

(** [epoch % epoch_val == 0] *)
Definition epoch_divides (epoch : Z) (epoch_val : value) : result bool :=
  match epoch_val with
  | PInt z =>
      if (z =? 0)%Z then Raise ZeroDivisionError
    else Ok (epoch mod z =? 0)%Z
  | PBool b => if b then Ok true else Raise ZeroDivisionError
  | PFloat (Fin q) =>
      (* the epoch is converted to a float first *)
      match to_float (inject_Z epoch) with
      | Raise e => Raise e
      | Ok x =>
          if (Qnum q =? 0)%Z then Raise ZeroDivisionError
          else Ok (match x with
                   | Fin x => (Qden (Qred (x / q)) =? 1)%positive
                   | _ => false
                   end)
      end
  | PFloat NaN => Ok false
  | PFloat _ => Ok (epoch =? 0)%Z
  | _ => Raise (TypeError "unsupported operand type(s) for %")
  end.

(** [(epoch_val is not None) and (epoch % epoch_val == 0)] *)
Definition is_val_epoch (epoch_val : value) (epoch : Z) : result bool :=
  if is_none epoch_val then Ok false else epoch_divides epoch epoch_val.

(** *** make_data_loader, make_data_loaders *)

Definition make_data_loader (spec : value) : result (option DataLoader) :=
  if is_none spec then Ok None
  else match build_loader spec with
       | Ok l => Ok (Some l)
       | Raise e => Raise e
       end.

Definition make_data_loaders
  : M env (option DataLoader * option DataLoader) :=
  cfg <- gets config ;;
  train_loader <- lift (make_data_loader (dict_get_or_none "train_dataset" cfg)) ;;
  val_loader <- lift (make_data_loader (dict_get_or_none "val_dataset" cfg)) ;;
  ret (train_loader, val_loader).

(** *** eval_psnr *)

Record metrics : Type := Metrics {
  result1 : pyfloat; result2 : pyfloat; result3 : pyfloat; result4 : pyfloat;
  metric1 : string; metric2 : string; metric3 : string; metric4 : string;
}.

Definition metric_fn_t : Type :=
  tensor -> tensor -> pyfloat * pyfloat * pyfloat * pyfloat.

(** The [if]/[elif] chain: the bindings it makes, or [None] when no
    branch is taken and the five names stay unbound. *)
Definition metric_bundle (eval_type : value)
  : option (metric_fn_t * (string * string * string * string)) :=
  if str_eq eval_type "f1" then
    Some (calc_f1, ("f1", "auc", "none", "none"))
  else if str_eq eval_type "fmeasure" then
    Some (calc_fmeasure, ("f_mea", "mae", "none", "none"))
  else if str_eq eval_type "ber" then
    Some (calc_ber, ("shadow", "non_shadow", "ber", "none"))
  else if str_eq eval_type "cod" then
    Some (calc_cod, ("sm", "em", "wfm", "mae"))
  else None.

(** [for k, v in batch.items(): batch[k] = v.cuda()] *)
Definition batch_cuda (b : batch) : batch :=
  map (fun kv => (fst kv, cuda (snd kv))) b.

(** [len(loader)], then the batches of one pass *)
Definition loader_len {S} (loader : option (list batch)) : M S (list batch) :=
  match loader with
  | Some batches => ret batches
  | None => raise (TypeError "object of type 'NoneType' has no len()")
  end.

Definition torch_cat {S} (l : list tensor) : M S tensor :=
  match l with
  | [] => raise cat_error
  | _ :: _ => ret (cat l)
  end.

Definition eval_batch (acc : list tensor * list tensor) (b : batch)
  : M world (list tensor * list tensor) :=
  let b := batch_cuda b in
  inp <- lift (getitem "inp" b) ;;
  m <- gets model ;;
  let pred := sigmoid (infer m inp) in
  gt <- lift (getitem "gt" b) ;;
  ret (append (fst acc) pred, append (snd acc) gt).

Definition eval_psnr (loader : option (list batch)) (eval_type : value)
  : M world metrics :=
  modify (fun w => set_model (model_eval (model w)) w) ;;;
  let bundle := metric_bundle eval_type in
  batches <- loader_len loader ;;
  lists <- foldM eval_batch batches ([], []) ;;
  pred_list <- torch_cat (fst lists) ;;
  gt_list <- torch_cat (snd lists) ;;
  match bundle with
  | None => raise (UnboundLocalError "metric_fn")
  | Some (metric_fn, (n1, n2, n3, n4)) =>
      let '(r1, r2, r3, r4) := metric_fn pred_list gt_list in
      ret (Metrics r1 r2 r3 r4 n1 n2 n3 n4)
  end.

(** *** train *)

Definition train_batch (loss_list : list pyfloat) (b : batch)
  : M world (list pyfloat) :=
  let b := batch_cuda b in
  inp <- lift (getitem "inp" b) ;;
  gt <- lift (getitem "gt" b) ;;
  modify (fun w => set_model (set_input inp gt (model w)) w) ;;;
  modify (fun w =>
    let mo := optimize_parameters (model w) (optimizer w) in
    set_optimizer (snd mo) (set_model (fst mo) w)) ;;;
  loss <- gets (fun w => item (loss_G (model w))) ;;
  ret (append loss_list loss).

Definition train (train_loader : option (list batch)) : M world pyfloat :=
  modify (fun w => set_model (model_train (model w)) w) ;;;
  batches <- loader_len train_loader ;;
  loss_list <- foldM train_batch batches [] ;;
  lift (mean loss_list).

(** *** save_model *)

Definition save_model (save_path name : string) : M world unit :=
  cfg <- gets (fun w => config (genv w)) ;;
  model_spec <- lift (getitem "model" cfg) ;;
  sd <- gets (fun w => model_state_dict (model w)) ;;
  model_spec <- lift (set_sd model_spec sd) ;;
  (* [model_spec] is the object [config['model']]: the assignment above
     is visible through [config] *)
  on_env (set_config (dict_set "model" model_spec cfg)) ;;;
  cfg <- gets (fun w => config (genv w)) ;;
  optimizer_spec <- lift (getitem "optimizer" cfg) ;;
  sd <- gets (fun w => optimizer_state_dict (optimizer w)) ;;
  optimizer_spec <- lift (set_sd optimizer_spec sd) ;;
  on_env (set_config (dict_set "optimizer" optimizer_spec cfg)) ;;;
  let save_file := path_join save_path ("model_" ++ name ++ ".pth") in
  torch_save
    (PDict [("model_spec", model_spec); ("optimizer_spec", optimizer_spec)])
    save_file.
(** *** prepare_training *)

Definition prepare_training
  : M env (Model * Optimizer * value * Scheduler) :=
  cfg <- gets config ;;
  built <-
    (if negb (is_none (dict_get_or_none "resume" cfg)) then
       model_spec <- lift (getitem "model" cfg) ;;
       m <- lift (models_make model_spec) ;;
       optimizer_spec <- lift (getitem "optimizer" cfg) ;;
       o <- lift (make_optimizer (model_cuda m) optimizer_spec) ;;
       epoch_start <- lift (add1 (dict_get_or_none "resume" cfg)) ;;
       ret (model_cuda m, o, epoch_start)
     else
       model_spec <- lift (getitem "model" cfg) ;;
       m <- lift (models_make model_spec) ;;
       optimizer_spec <- lift (getitem "optimizer" cfg) ;;
       o <- lift (make_optimizer (model_cuda m) optimizer_spec) ;;
       ret (model_cuda m, o, PInt 1)) ;;
  let '(m, o, epoch_start) := built in
  let max_epoch := dict_get_or_none "epoch_max" cfg in
  let so := CosineAnnealingLR o max_epoch (dict_get_or_none "lr_min" cfg) in
  ret (m, snd so, epoch_start, fst so).

(** *** main *)

Definition data_norm_default : value :=
  PDict [("inp", PDict [("sub", PList [PInt 0]); ("div", PList [PInt 1])]);
         ("gt", PDict [("sub", PList [PInt 0]); ("div", PList [PInt 1])])].

(** [config['data_norm'] = {...}] when [config.get('data_norm') is None] *)
Definition inject_data_norm (cfg : dict) : dict :=
  if is_none (dict_get_or_none "data_norm" cfg)
  then dict_set "data_norm" data_norm_default cfg
  else cfg.

(** Lines 119-131: up to and including the call of [prepare_training].
    [utils.set_save_path] makes the run directory and returns [log] and
    [writer], whose calls are the events [EvLog], [EvScalar], [EvScalars]
    and [EvFlush]. *)
Definition main_setup (save_path : string)
  : M env (option DataLoader * option DataLoader
           * (Model * Optimizer * value * Scheduler)) :=
  cfg <- gets config ;;
  modify (write_env (path_join save_path "config.yaml") (YamlFile cfg)) ;;;
  loaders <- make_data_loaders ;;
  modify (fun e => set_config (inject_data_norm (config e)) e) ;;;
  prepared <- prepare_training ;;
  ret (loaders, prepared).

(** [max_val_v = -1e18 if config['eval_type'] != 'ber' else 1e8] *)
Definition init_max_val_v (eval_type : value) : pyfloat :=
  if negb (str_eq eval_type "ber") then neg_1e18 else pos_1e8.

(** Lines 184-191: the comparison with the tracker and the "best" save.
    Returns the new value of [max_val_v]. *)
Definition update_best (save_path : string) (eval_type : value)
    (r : metrics) (max_val_v : pyfloat) : M world pyfloat :=
  if negb (str_eq eval_type "ber") then
    if fgt (result1 r) max_val_v then
      save_model save_path "best" ;;; ret (result1 r)
    else ret max_val_v
  else
    if flt (result3 r) max_val_v then
      save_model save_path "best" ;;; ret (result3 r)
    else ret max_val_v.

Definition val_item (name : string) (v : pyfloat) : string :=
  "val: " ++ name ++ "=" ++ fmt4 v.

(** Lines 172-200: the body of the validation [if]. *)
Definition validate (save_path : string) (val_loader : option DataLoader)
    (epoch_start : Z) (epoch_max : value) (log_info : list string)
    (max_val_v : pyfloat) (epoch : Z) : M world pyfloat :=
  cfg <- gets (fun w => config (genv w)) ;;
  r <- eval_psnr (option_map (fun l => loader_pass l epoch) val_loader)
                 (dict_get_or_none "eval_type" cfg) ;;
  let log_info := append log_info (val_item (metric1 r) (result1 r)) in
  emit (EvScalars (metric1 r) "val" (result1 r) epoch) ;;;
  let log_info := append log_info (val_item (metric2 r) (result2 r)) in
  emit (EvScalars (metric2 r) "val" (result2 r) epoch) ;;;
  let log_info := append log_info (val_item (metric3 r) (result3 r)) in
  emit (EvScalars (metric3 r) "val" (result3 r) epoch) ;;;
  let log_info := append log_info (val_item (metric4 r) (result4 r)) in
  emit (EvScalars (metric4 r) "val" (result4 r) epoch) ;;;
  eval_type <- lift (getitem "eval_type" cfg) ;;
  max_val_v <- update_best save_path eval_type r max_val_v ;;
  let epoch_max_z := default 0 (as_int epoch_max) in
  let log_info :=
    append log_info (time_info epoch epoch_start epoch_max_z) in
  emit (EvLog (str_join ", " log_info)) ;;;
  emit EvFlush ;;;
  ret max_val_v.

(** [lr_scheduler.step()] *)
Definition lr_scheduler_step : M world unit :=
  fun w =>
    let (r, so) := scheduler_step (lr_scheduler w) (optimizer w) in
    (r, set_optimizer (snd so) (set_lr_scheduler (fst so) w)).

(** Lines 160-200: one iteration of the epoch loop.  The accumulator is
    [max_val_v]. *)
Definition epoch_body (save_path : string)
    (train_loader val_loader : option DataLoader)
    (epoch_start : Z) (epoch_max epoch_val : value)
    (max_val_v : pyfloat) (epoch : Z) : M world pyfloat :=
  train_loss_G <-
    train (option_map (fun l => loader_pass l epoch) train_loader) ;;
  lr_scheduler_step ;;;
  let log_info := ["epoch " ++ pretty epoch ++ "/" ++ str_int epoch_max] in
  lr <- gets (fun w => optimizer_lr (optimizer w)) ;;
  emit (EvScalar "lr" lr epoch) ;;;
  let log_info := append log_info ("train G: loss=" ++ fmt4 train_loss_G) in
  emit (EvScalars "loss" "train G" train_loss_G epoch) ;;;
  save_model save_path "last" ;;;
  do_val <- lift (is_val_epoch epoch_val epoch) ;;
  if (do_val : bool) then
    validate save_path val_loader epoch_start epoch_max log_info
             max_val_v epoch
  else ret max_val_v.

(** Lines 132-200: from [model.optimizer = optimizer] to the end of the
    epoch loop.  Returns the final [max_val_v]. *)
Definition main_loop (save_path : string)
    (train_loader val_loader : option DataLoader) (epoch_start : value)
  : M world pyfloat :=
  cfg <- gets (fun w => config (genv w)) ;;
  epoch_max <- lift (getitem "epoch_max" cfg) ;;
  modify (fun w =>
    let so := CosineAnnealingLR (optimizer w) epoch_max
                (dict_get_or_none "lr_min" cfg) in
    set_optimizer (snd so) (set_lr_scheduler (fst so) w)) ;;;
  modify (fun w => set_model (model_cuda (model w)) w) ;;;
  (if dict_mem "sam_checkpoint" cfg then
     path <- lift (getitem "sam_checkpoint" cfg) ;;
     sam_checkpoint <-
       (fun w => let (r, e) := torch_load path (genv w) in (r, set_genv e w)) ;;
     m <- gets model ;;
     m <- lift (load_state_dict sam_checkpoint m) ;;
     modify (set_model m)
   else ret tt) ;;;
  modify (fun w => set_model (requires_grad_all (model w)) w) ;;;
  epoch_max <- lift (getitem "epoch_max" cfg) ;;
  let epoch_val := dict_get_or_none "epoch_val" cfg in
  eval_type <- lift (getitem "eval_type" cfg) ;;
  let max_val_v := init_max_val_v eval_type in
  epochs <- lift (epoch_range epoch_start epoch_max) ;;
  let epoch_start_z := default 0 (as_int epoch_start) in
  foldM (epoch_body save_path train_loader val_loader epoch_start_z
                    epoch_max epoch_val)
        epochs max_val_v.

(** [main(config_, save_path)], run on the files in [disk]. *)
Definition main (config_ : dict) (save_path : string)
    (disk : gmap string file) : result pyfloat * env :=
  match main_setup save_path (Env config_ disk []) with
  | (Raise e, g) => (Raise e, g)
  | (Ok (train_loader, val_loader, (m, o, epoch_start, s)), g) =>
      let (r, w) :=
        main_loop save_path train_loader val_loader epoch_start
                  (World g m o s) in
      (r, genv w)
  end.
(** *** Observations the statements are written with *)

(** A spec with its ['sd'] entry set (a spec that is no dict is left as
    it is: [save_model] raises on it). *)
Definition with_sd (spec : value) (sd : state_dict) : value :=
  match spec with
  | PDict d => PDict (dict_set "sd" (PStateDict sd) d)
  | _ => spec
  end.

(** The checkpoint record: the model spec paired with the model's
    serialized parameters, the optimizer spec paired with the optimizer's
    serialized state. *)
Definition checkpoint_of (cfg : dict) (m : Model) (o : Optimizer) : value :=
  PDict [("model_spec",
          with_sd (dict_get_or_none "model" cfg) (model_state_dict m));
         ("optimizer_spec",
          with_sd (dict_get_or_none "optimizer" cfg)
                  (optimizer_state_dict o))].

(** The configuration once a checkpoint of [m] and [o] has been saved. *)
Definition saved_config (cfg : dict) (m : Model) (o : Optimizer) : dict :=
  dict_set "optimizer"
    (with_sd (dict_get_or_none "optimizer" cfg) (optimizer_state_dict o))
    (dict_set "model"
       (with_sd (dict_get_or_none "model" cfg) (model_state_dict m)) cfg).

Definition ckpt_path (save_path name : string) : string :=
  path_join save_path ("model_" ++ name ++ ".pth").

(** The world after a successful [save_model]. *)
Definition saved (save_path name : string) (w : world) : world :=
  let cfg := config (genv w) in
  set_genv
    (write_env (ckpt_path save_path name)
       (TorchFile (checkpoint_of cfg (model w) (optimizer w)))
       (set_config (saved_config cfg (model w) (optimizer w)) (genv w)))
    w.

(** Both specs are present in the configuration and are mappings. *)
Definition has_specs (cfg : dict) : bool :=
  match dict_get "model" cfg, dict_get "optimizer" cfg with
  | Some (PDict _), Some (PDict _) => true
  | _, _ => false
  end.

(** Both specs carry a state dict under ['sd']. *)
Definition carries_sd (cfg : dict) : bool :=
  match dict_get "model" cfg, dict_get "optimizer" cfg with
  | Some (PDict dm), Some (PDict dop) =>
      match dict_get "sd" dm, dict_get "sd" dop with
      | Some (PStateDict _), Some (PStateDict _) => true
      | _, _ => false
      end
  | _, _ => false
  end.

(** The two tensors of a batch, once moved to the device. *)
Definition fields (b : batch) : option (tensor * tensor) :=
  match dict_get "inp" (batch_cuda b), dict_get "gt" (batch_cuda b) with
  | Some inp, Some gt => Some (inp, gt)
  | _, _ => None
  end.

Definition batch_ok (b : batch) : bool :=
  match fields b with Some _ => true | None => false end.

(** One optimization step on one batch. *)
Definition step (mo : Model * Optimizer) (b : batch) : Model * Optimizer :=
  match fields b with
  | Some (inp, gt) => optimize_parameters (set_input inp gt (fst mo)) (snd mo)
  | None => mo
  end.

(** The model and optimizer after each batch of a pass, in order. *)
Fixpoint trajectory (mo : Model * Optimizer) (bs : list batch)
  : list (Model * Optimizer) :=
  match bs with
  | [] => []
  | b :: bs' => step mo b :: trajectory (step mo b) bs'
  end.

(** The loss recorded after each step. *)
Definition losses (mo : Model * Optimizer) (bs : list batch) : list pyfloat :=
  map (fun s => item (loss_G (fst s))) (trajectory mo bs).

(** The world after a pass of [train] over [bs]. *)
Definition trained (bs : list batch) (w : world) : world :=
  let mo := fold_left step bs (model_train (model w), optimizer w) in
  set_optimizer (snd mo) (set_model (fst mo) w).

Definition pred_list_of (m : Model) (bs : list batch) : list tensor :=
  flat_map (fun b => match fields b with
                     | Some (inp, _) => [sigmoid (infer m inp)]
                     | None => []
                     end) bs.

Definition gt_list_of (bs : list batch) : list tensor :=
  flat_map (fun b => match fields b with
                     | Some (_, gt) => [gt]
                     | None => []
                     end) bs.

Definition known_eval_type (eval_type : value) : bool :=
  str_eq eval_type "f1" || str_eq eval_type "fmeasure"
  || str_eq eval_type "ber" || str_eq eval_type "cod".

(** The metric the tracker follows, and whether it beats the tracker. *)
Definition active_metric (eval_type : value) (r : metrics) : pyfloat :=
  if negb (str_eq eval_type "ber") then result1 r else result3 r.

Definition improved (eval_type : value) (r : metrics) (max_val_v : pyfloat)
  : bool :=
  if negb (str_eq eval_type "ber") then fgt (result1 r) max_val_v
  else flt (result3 r) max_val_v.
Definition mk_metrics (rs : pyfloat * pyfloat * pyfloat * pyfloat)
    (ns : string * string * string * string) : metrics :=
  let '(r1, r2, r3, r4) := rs in
  let '(n1, n2, n3, n4) := ns in
  Metrics r1 r2 r3 r4 n1 n2 n3 n4.

(** The world [eval_psnr] leaves behind: the model is in evaluation mode. *)
Definition evaluated (w : world) : world :=
  set_model (model_eval (model w)) w.

(** The world after [lr_scheduler.step()], and whether the call returned. *)
Definition stepped (w : world) : world :=
  let so := snd (scheduler_step (lr_scheduler w) (optimizer w)) in
  set_optimizer (snd so) (set_lr_scheduler (fst so) w).

Definition step_ok (w : world) : bool :=
  is_ok (fst (scheduler_step (lr_scheduler w) (optimizer w))).

(** What every iteration of the epoch loop sends out: the two scalars and
    the "last" checkpoint.  [w] is the world once the scheduler stepped. *)
Definition head_events (save_path : string) (epoch : Z) (loss : pyfloat)
    (w : world) : list event :=
  [EvScalar "lr" (optimizer_lr (optimizer w)) epoch;
   EvScalars "loss" "train G" loss epoch;
   EvWrite (ckpt_path save_path "last")
     (TorchFile (checkpoint_of (config (genv w)) (model w) (optimizer w)))].

(** The world right after the "last" checkpoint of an epoch was saved. *)
Definition after_last (save_path : string) (epoch : Z) (loss : pyfloat)
    (w : world) : world :=
  saved save_path "last"
    (set_genv
       (emit_env (EvScalars "loss" "train G" loss epoch)
          (emit_env (EvScalar "lr" (optimizer_lr (optimizer w)) epoch)
             (genv w)))
       w).

(** The four scalars of a validation. *)
Definition val_events (r : metrics) (epoch : Z) : list event :=
  [EvScalars (metric1 r) "val" (result1 r) epoch;
   EvScalars (metric2 r) "val" (result2 r) epoch;
   EvScalars (metric3 r) "val" (result3 r) epoch;
   EvScalars (metric4 r) "val" (result4 r) epoch].

(** The progress line of a validation epoch. *)
Definition log_line (epoch epoch_start : Z) (epoch_max : value)
    (loss : pyfloat) (r : metrics) : string :=
  str_join ", "
    ["epoch " ++ pretty epoch ++ "/" ++ str_int epoch_max;
     "train G: loss=" ++ fmt4 loss;
     val_item (metric1 r) (result1 r);
     val_item (metric2 r) (result2 r);
     val_item (metric3 r) (result3 r);
     val_item (metric4 r) (result4 r);
     time_info epoch epoch_start (default 0 (as_int epoch_max))].

(** The "best" checkpoint, when the validation improved on the tracker.
    [w] is the world the validation left behind. *)
Definition best_events (save_path : string) (eval_type : value)
    (r : metrics) (max_val_v : pyfloat) (w : world) : list event :=
  if improved eval_type r max_val_v then
    [EvWrite (ckpt_path save_path "best")
       (TorchFile (checkpoint_of (config (genv w)) (model w) (optimizer w)))]
  else [].

Definition is_log (ev : event) : bool :=
  match ev with EvLog _ => true | _ => false end.

Definition is_load (ev : event) : bool :=
  match ev with EvLoad _ => true | _ => false end.

Definition writes_to (path : string) (ev : event) : bool :=
  match ev with EvWrite p _ => String.eqb p path | _ => false end.

(** The steps at which the learning rate was recorded. *)
Definition lr_steps (evs : list event) : list Z :=
  flat_map (fun ev => match ev with
                      | EvScalar _ _ step => [step]
                      | _ => []
                      end) evs.
(** *** Relations between the process-wide state before and after *)

(** Whatever its outcome, [m] takes the process-wide state to one related
    to it by [R]. *)
Definition preserves (R : env -> env -> Prop) {A} (m : M world A) : Prop :=
  forall w, R (genv w) (genv (snd (m w))).

(** Only events that satisfy [P] were sent out. *)
Definition sent_only (P : event -> Prop) (e e' : env) : Prop :=
  exists tail, out e' = (out e ++ tail)%list /\ Forall P tail.

(** The entries of the configuration other than the two specs are as they
    were. *)
Definition config_frame (e e' : env) : Prop :=
  forall k, k <> "model" -> k <> "optimizer" ->
    dict_get k (config e') = dict_get k (config e).

(** A spec that was a mapping is one still, the same but for ['sd']. *)
Definition spec_frame (e e' : env) : Prop :=
  forall k d, k = "model" \/ k = "optimizer" ->
    dict_get k (config e) = Some (PDict d) ->
    exists d', dict_get k (config e') = Some (PDict d') /\
               forall j, j <> "sd" -> dict_get j d' = dict_get j d.

(** The file at [path] is as it was. *)
Definition file_kept (path : string) (e e' : env) : Prop :=
  forall f, fs e !! path = Some f -> fs e' !! path = Some f.
(** *** What [prepare_training] builds *)

(** The model, optimizer and scheduler made from the configuration's
    specs. *)
Definition fresh (cfg : dict) : result (Model * Optimizer * Scheduler) :=
  match getitem "model" cfg with
  | Raise x => Raise x
  | Ok model_spec =>
  match models_make model_spec with
  | Raise x => Raise x
  | Ok m =>
  match getitem "optimizer" cfg with
  | Raise x => Raise x
  | Ok optimizer_spec =>
  match make_optimizer (model_cuda m) optimizer_spec with
  | Raise x => Raise x
  | Ok o =>
      let so := CosineAnnealingLR o (dict_get_or_none "epoch_max" cfg)
                  (dict_get_or_none "lr_min" cfg) in
      Ok (model_cuda m, snd so, fst so)
  end end end end.

(** The epoch the loop starts at. *)
Definition first_epoch (cfg : dict) : result value :=
  if is_none (dict_get_or_none "resume" cfg) then Ok (PInt 1)
  else add1 (dict_get_or_none "resume" cfg).

Definition is_write (ev : event) : bool :=
  match ev with EvWrite _ _ => true | _ => false end.
End Program.

(** ** A small concrete framework, to run the model on *)

Module Toy.

Definition toy_batch (v : pyval Z) : list (string * Z) :=
  match v with
  | PInt z => [("inp", z); ("gt", 0)]
  | _ => []
  end.

Definition four (a b c d : Z) : pyfloat * pyfloat * pyfloat * pyfloat :=
  (float_of_Z a, float_of_Z b, float_of_Z c, float_of_Z d).

(** A scheduler counts its steps, when it was built with a number for
    [eta_min]; built with anything else it is [None], and its step raises. *)
Definition toy_scheduler (eta_min : pyval Z) : option Z :=
  match eta_min with
  | PInt _ | PFloat _ | PBool _ => Some 0
  | _ => None
  end.

Definition toy_step (s : option Z) : result unit * option Z :=
  match s with
  | Some n => (Ok tt, Some (n + 1))
  | None =>
      (Raise (TypeError "unsupported operand type(s) for -: 'float' and 'NoneType'"),
       None)
  end.

(** Tensors and state dicts are integers; a model is the list of the
    residuals it was stepped on, latest first; an optimizer counts its
    steps; a loader yields the same batches in every pass. *)
#[export] Instance toy : Framework := {|
  tensor := Z;
  state_dict := Z;
  Model := list Z;
  Optimizer := Z;
  Scheduler := option Z;
  DataLoader := list (list (string * Z));
  cuda := fun t => t;
  sigmoid := fun t => t;
  cat := fun l => fold_right Z.add 0 l;
  cat_error := RuntimeError "torch.cat(): expected a non-empty list of Tensors";
  model_train := fun m => m;
  model_eval := fun m => m;
  set_input := fun inp gt m => (inp - gt) :: m;
  optimize_parameters := fun m o => (m, o + 1);
  loss_G := fun m => float_of_Z (hd 0 m);
  infer := fun m x => x + Z.of_nat (length m);
  model_state_dict := fun m => fold_right Z.add 0 m;
  load_state_dict := fun v m =>
    match v with
    | PStateDict sd => Ok [sd]
    | _ => Raise (ExternalError "load_state_dict")
    end;
  requires_grad_all := fun m => m;
  optimizer_state_dict := fun o => o;
  optimizer_lr := fun o => float_of_Z o;
  models_make := fun spec =>
    match spec with
    | PDict _ => Ok []
    | _ => Raise (ExternalError "models.make")
    end;
  model_cuda := fun m => m;
  make_optimizer := fun _ _ => Ok 0;
  CosineAnnealingLR := fun o _ eta_min => (toy_scheduler eta_min, o);
  scheduler_step := fun s o => (fst (toy_step s), (snd (toy_step s), o));
  build_loader := fun spec =>
    match spec with
    | PList l => Ok (map toy_batch l)
    | _ => Raise (ExternalError "datasets.make")
    end;
  loader_pass := fun l _ => l;
  calc_f1 := fun p g => four p g 0 0;
  calc_fmeasure := fun p g => four g p 0 0;
  calc_ber := fun p g => four 0 0 (p - g) 0;
  calc_cod := fun p g => four p g p g;
  fmt4 := fun f => match f with Fin q => pretty (Qnum q) | _ => "nan" end;
  time_info := fun _ _ _ => "0s 0s/0s";
|}.

Definition cfg (epoch_val eval_type : pyval Z) : list (string * pyval Z) :=
  [("train_dataset", PList [PInt 3; PInt 5]);
   ("val_dataset", PList [PInt 2]);
   ("model", PDict [("name", PStr "sam")]);
   ("optimizer", PDict [("name", PStr "adamw")]);
   ("epoch_max", PInt 3);
   ("lr_min", PInt 0);
   ("epoch_val", epoch_val);
   ("eval_type", eval_type)].

(** The batches of the training loader of [cfg]. *)
Definition batches : list (list (string * Z)) :=
  [[("inp", 3); ("gt", 0)]; [("inp", 5); ("gt", 0)]].

(** The batches of the validation loader of [cfg]. *)
Definition val_batches : list (list (string * Z)) := [[("inp", 2); ("gt", 0)]].

Definition run_dir : string := "./save/run".

(** A configuration that resumes after epoch 1, and a disk that holds the
    checkpoint of epoch 1. *)
Definition resumed : list (string * pyval Z) :=
  ("resume", PInt 1) :: cfg (PInt 2) (PStr "f1").

Definition disk : gmap string (file (F := toy)) :=
  {[ "./save/run/model_last.pth" :=
       TorchFile (F := toy)
         (PDict [("model_spec",
                  PDict [("name", PStr "sam"); ("sd", PStateDict 8)]);
                 ("optimizer_spec",
                  PDict [("name", PStr "adamw"); ("sd", PStateDict 2)])]) ]}.

(** A validation result whose ['ber'] value is [2e8]. *)
Definition poor : metrics :=
  Metrics (Fin 0) (Fin 0) (float_of_Z (2 * 10 ^ 8)) (Fin 0)
    "shadow" "non_shadow" "ber" "none".

(** The world [main] enters the epoch loop with, on an empty disk. *)
Definition w0 (epoch_val eval_type : pyval Z) : world :=
  World (Env (cfg epoch_val eval_type) ∅ []) [] 0 (Some 0).

Definition start : world := w0 (PInt 2) (PStr "f1").

(** A world whose configuration has lost its optimizer spec. *)
Definition no_optimizer : world :=
  World (Env [("model", PDict [("name", PStr "sam")])] ∅ []) [] 0 (Some 0).

(** A configuration with no training dataset, resumed after its last
    epoch. *)
Definition idle : list (string * pyval Z) :=
  [("val_dataset", PList [PInt 2]);
   ("model", PDict [("name", PStr "sam")]);
   ("optimizer", PDict [("name", PStr "adamw")]);
   ("epoch_max", PInt 3);
   ("lr_min", PInt 0);
   ("eval_type", PStr "f1");
   ("resume", PInt 3)].

(** A ['ber'] configuration that validates in every epoch, with values
    above [2e8]. *)
Definition far : list (string * pyval Z) :=
  [("train_dataset", PList [PInt 3; PInt 5]);
   ("val_dataset", PList [PInt (2 * 10 ^ 8)]);
   ("model", PDict [("name", PStr "sam")]);
   ("optimizer", PDict [("name", PStr "adamw")]);
   ("epoch_max", PInt 3);
   ("lr_min", PInt 0);
   ("epoch_val", PInt 1);
   ("eval_type", PStr "ber")].

Definition train_loader : option (DataLoader (Framework := toy)) :=
  Some batches.

Definition val_loader : option (DataLoader (Framework := toy)) :=
  Some val_batches.

End Toy.


(** ** The script's entry point, and more observations *)

(** [c == '/'] *)
Definition is_slash (c : Ascii.ascii) : bool :=
  String.eqb (String c EmptyString) "/".

Fixpoint has_slash (s : string) : bool :=
  match s with
  | EmptyString => false
  | String c s' => is_slash c || has_slash s'
  end.

(** [s.split('/')[-1]] *)
Fixpoint last_component (s : string) : string :=
  match s with
  | EmptyString => EmptyString
  | String c s' =>
      if has_slash s' then last_component s'
      else if is_slash c then s'
      else String c s'
  end.

(** A continuation byte of UTF-8, [10xxxxxx]: a character is one byte that
    is no continuation byte, and the continuation bytes that follow it. *)
Definition is_continuation (c : Ascii.ascii) : bool :=
  match c with
  | Ascii.Ascii _ _ _ _ _ _ b6 b7 => b7 && negb b6
  end.

(** [s[:-1]] on the bytes of [s] in reverse: the continuation bytes of the
    last character go, and the byte before them. *)
Fixpoint drop_char (rev_bytes : list Ascii.ascii) : list Ascii.ascii :=
  match rev_bytes with
  | [] => []
  | c :: rest => if is_continuation c then drop_char rest else rest
  end.

(** Every byte of [s] is below 128. *)
Fixpoint is_ascii (s : string) : bool :=
  match s with
  | EmptyString => true
  | String (Ascii.Ascii _ _ _ _ _ _ _ b7) s' => negb b7 && is_ascii s'
  end.

(** [s[:-n]] for a positive [n], on well-formed UTF-8 *)
Definition drop_last (n : nat) (s : string) : string :=
  String.string_of_list_ascii
    (rev (Nat.iter n drop_char (rev (String.list_ascii_of_string s)))).

Definition starts_with_slash (s : string) : bool :=
  match s with
  | EmptyString => false
  | String c _ => is_slash c
  end.

(** [os.path.join(a, b)]: an absolute [b] replaces [a]. *)
Definition os_path_join (a b : string) : string :=
  if starts_with_slash b then b else path_join a b.

(** The parsed command line: [--config], [--name], [--tag]. *)
Record args : Type := Args {
  arg_config : string;
  arg_name : option string;
  arg_tag : option string;
}.

Definition default_args : args := Args "configs/demo.yaml" None None.

(** The suffix [--tag] adds to the run name. *)
Definition tag_suffix (tag : option string) : string :=
  match tag with
  | Some t => "_" ++ t
  | None => ""
  end.

(** Lines 213-217 *)
Definition save_name (a : args) : string :=
  let save_name :=
    match arg_name a with
    | Some n => n
    | None => "_" ++ drop_last 5 (last_component (arg_config a))
    end in
  match arg_tag a with
  | Some t => save_name ++ "_" ++ t
  | None => save_name
  end.

(** Line 218 *)
Definition save_path_of (a : args) : string :=
  os_path_join "./save" (save_name a).

Section Script.
Context `{F : Framework}.

(** Lines 209-220: the configuration file is opened and parsed, then
    [main] runs.  Returns the outcome, the files and the events.  The
    global [config] does not exist before the file is parsed. *)
Definition script (a : args) (disk : gmap string file)
  : result pyfloat * (gmap string file * list event) :=
  match disk !! arg_config a with
  | None => (Raise (FileNotFoundError (arg_config a)), (disk, []))
  | Some (TorchFile _) => (Raise (ExternalError "yaml.load"), (disk, []))
  | Some (YamlFile doc) =>
      let (r, e) := main doc (save_path_of a) disk in
      (r, (fs e, out e))
  end.

(** What a run that never enters the epoch loop leaves behind: the dumped
    configuration and, at most, the load of the pretrained weights. *)
Definition only_setup (config_ : list (string * pyval state_dict)) (save_path : string)
    (disk : gmap string file) (e : env) : Prop :=
  fs e = <[path_join save_path "config.yaml" := YamlFile config_]> disk
  /\ exists pre,
       out e = EvWrite (path_join save_path "config.yaml") (YamlFile config_)
               :: pre
       /\ Forall (fun ev => is_load ev = true) pre.

(** Whether validation runs in an epoch. *)
Definition validated (epoch_val : pyval state_dict) (epoch : Z) : bool :=
  match is_val_epoch epoch_val epoch with
  | Ok true => true
  | _ => false
  end.

(** [v] is strictly better than [w] for the evaluation type. *)
Definition better (eval_type : pyval state_dict) (v w : pyfloat) : bool :=
  if str_eq eval_type "ber" then flt v w else flt w v.

(** The number of events that satisfy [f]. *)
Definition count (f : event -> bool) (evs : list event) : nat :=
  length (List.filter f evs).

Definition is_flush (ev : event) : bool :=
  match ev with EvFlush => true | _ => false end.
End Script.

(** * Properties *)

(** ** Doubles *)

Section DoubleFacts.
Local Open Scope Q_scope.

Lemma pow2_pos e : 0 < pow2 e.
Proof. apply Qpower_0_lt. reflexivity. Qed.

Lemma pow2_add a b : pow2 (a + b) == pow2 a * pow2 b.
Proof. apply Qpower_plus. discriminate. Qed.

Lemma pow2_le a b : (a <= b)%Z -> pow2 a <= pow2 b.
Proof. intros H. apply Qpower_le_compat_l; [exact H | discriminate]. Qed.

Lemma pow2_lt a b : (a < b)%Z -> pow2 a < pow2 b.
Proof. intros H. apply Qpower_lt_compat_l; [exact H | reflexivity]. Qed.

Lemma pow2_lt_inv a b : pow2 a < pow2 b -> (a < b)%Z.
Proof. intros H. apply (Qpower_lt_compat_l_inv 2); [exact H | reflexivity]. Qed.

Lemma pow2_Z n : (0 <= n)%Z -> pow2 n == inject_Z (2 ^ n).
Proof. intros H. unfold pow2. by rewrite Zpower_Qpower. Qed.

Lemma pow2_succ a : pow2 (a + 1) == 2 * pow2 a.
Proof. rewrite pow2_add. change (pow2 1) with 2. ring. Qed.

Lemma ilog2_spec x : 0 < x -> pow2 (ilog2 x) <= x /\ x < pow2 (ilog2 x + 1).
Proof.
  intros Hx. destruct x as [n d]. unfold ilog2. cbn [Qnum Qden].
  assert (Hn : (0 < n)%Z) by (unfold Qlt in Hx; simpl in Hx; lia).
  set (a := Z.log2 n). set (b := Z.log2 (Z.pos d)).
  assert (Ha : (0 <= a)%Z) by apply Z.log2_nonneg.
  assert (Hb : (0 <= b)%Z) by apply Z.log2_nonneg.
  destruct (Z.log2_spec n Hn) as [Ha1 Ha2]. fold a in Ha1, Ha2.
  destruct (Z.log2_spec (Z.pos d) ltac:(lia)) as [Hb1 Hb2]. fold b in Hb1, Hb2.
  assert (Hxd : n # d == inject_Z n / inject_Z (Z.pos d)) by apply Qmake_Qdiv.
  assert (Hd : 0 < inject_Z (Z.pos d)) by reflexivity.
  assert (Hmul : (n # d) * inject_Z (Z.pos d) == inject_Z n).
  { rewrite Hxd. field. discriminate. }
  (* x < 2^(a-b+1) *)
  assert (Hup : n # d < pow2 (a - b + 1)).
  { apply (Qmult_lt_r _ _ (inject_Z (Z.pos d))); [exact Hd|].
    rewrite Hmul.
    apply Qlt_le_trans with (pow2 (a - b + 1) * pow2 b).
    - rewrite <- pow2_add. replace (a - b + 1 + b)%Z with (Z.succ a) by lia.
      rewrite pow2_Z by lia. rewrite <- Zlt_Qlt. exact Ha2.
    - apply Qmult_le_l; [apply pow2_pos|].
      rewrite pow2_Z by lia. rewrite <- Zle_Qle. exact Hb1. }
  assert (Hlo : pow2 (a - b - 1) <= n # d).
  { apply (Qmult_le_r _ _ (inject_Z (Z.pos d))); [exact Hd|].
    rewrite Hmul.
    apply Qle_trans with (pow2 (a - b - 1) * pow2 (b + 1)).
    - apply Qmult_le_l; [apply pow2_pos|].
      rewrite pow2_Z by lia. rewrite <- Zle_Qle. unfold Z.succ in Hb2. lia.
    - rewrite <- pow2_add. replace (a - b - 1 + (b + 1))%Z with a by lia.
      rewrite pow2_Z by lia. rewrite <- Zle_Qle. exact Ha1. }
  destruct (Qle_bool (pow2 (a - b)) (n # d)) eqn:E.
  - apply Qle_bool_iff in E. split; [exact E | exact Hup].
  - split; [exact Hlo|].
    replace (a - b - 1 + 1)%Z with (a - b)%Z by lia.
    apply Qnot_le_lt. intros H. apply Qle_bool_iff in H. congruence.
Qed.

Lemma ilog2_unique x e : pow2 e <= x -> x < pow2 (e + 1) -> ilog2 x = e.
Proof.
  intros H1 H2.
  assert (Hx : 0 < x) by (eapply Qlt_le_trans; [apply pow2_pos | exact H1]).
  destruct (ilog2_spec x Hx) as [H3 H4].
  assert (ilog2 x < e + 1)%Z
    by (apply pow2_lt_inv; eapply Qle_lt_trans; [exact H3 | exact H2]).
  assert (e < ilog2 x + 1)%Z
    by (apply pow2_lt_inv; eapply Qle_lt_trans; [exact H1 | exact H4]).
  lia.
Qed.

Lemma ilog2_mono x y : 0 < x -> x <= y -> (ilog2 x <= ilog2 y)%Z.
Proof.
  intros Hx Hxy.
  assert (Hy : 0 < y) by (eapply Qlt_le_trans; eassumption).
  destruct (ilog2_spec x Hx) as [H1 _].
  destruct (ilog2_spec y Hy) as [_ H2].
  assert (ilog2 x < ilog2 y + 1)%Z; [|lia].
  apply pow2_lt_inv. eapply Qle_lt_trans; [exact H1|].
  eapply Qle_lt_trans; [exact Hxy | exact H2].
Qed.

Lemma ilog2_comp x y : 0 < x -> x == y -> ilog2 x = ilog2 y.
Proof.
  intros Hx Hxy. symmetry.
  destruct (ilog2_spec x Hx) as [H1 H2].
  apply ilog2_unique; rewrite <- Hxy; assumption.
Qed.

(** *** The nearest integer *)

Lemma rne_spec x :
  (x - inject_Z (Qfloor x) < 1 # 2 /\ rne x = Qfloor x)
  \/ (1 # 2 < x - inject_Z (Qfloor x) /\ rne x = (Qfloor x + 1)%Z)
  \/ (x - inject_Z (Qfloor x) == 1 # 2 /\
      rne x = if Z.even (Qfloor x) then Qfloor x else (Qfloor x + 1)%Z).
Proof.
  unfold rne.
  destruct (Qcompare_spec (x - inject_Z (Qfloor x)) (1 # 2)) as [H|H|H]; auto.
Qed.

Lemma rne_bounds x : (Qfloor x <= rne x <= Qfloor x + 1)%Z.
Proof.
  destruct (rne_spec x) as [[_ ->]|[[_ ->]|[_ ->]]];
    [| |destruct (Z.even _)]; lia.
Qed.

#[global] Instance rne_comp : Proper (Qeq ==> eq) rne.
Proof.
  intros x y H. unfold rne. rewrite (Qfloor_comp x y H).
  by rewrite H.
Qed.

Lemma rne_Z k : rne (inject_Z k) = k.
Proof.
  destruct (rne_spec (inject_Z k)) as [[_ H]|[[H _]|[H _]]];
    rewrite Qfloor_Z in *; [done|exfalso; lra..].
Qed.

Lemma rne_mono x y : x <= y -> (rne x <= rne y)%Z.
Proof.
  intros Hxy. pose proof (Qfloor_resp_le x y Hxy) as Hf.
  pose proof (rne_bounds x) as Bx. pose proof (rne_bounds y) as By.
  destruct (Z.eq_dec (Qfloor x) (Qfloor y)) as [E|NE]; [|lia].
  destruct (rne_spec x) as [[Hx ->]|[[Hx ->]|[Hx ->]]];
    destruct (rne_spec y) as [[Hy ->]|[[Hy ->]|[Hy ->]]];
    rewrite <- E in *;
    try lia; try (destruct (Z.even (Qfloor x)); lia); exfalso; lra.
Qed.


Lemma rne_ge k x : inject_Z k <= x -> (k <= rne x)%Z.
Proof. intros H. rewrite <- (rne_Z k). by apply rne_mono. Qed.

Lemma rne_le k x : x <= inject_Z k -> (rne x <= k)%Z.
Proof. intros H. rewrite <- (rne_Z k). by apply rne_mono. Qed.

(** *** Rounding a positive number *)

Lemma ulp_exp_mono x y : 0 < x -> x <= y -> (ulp_exp x <= ulp_exp y)%Z.
Proof.
  intros Hx Hxy. unfold ulp_exp.
  pose proof (ilog2_mono x y Hx Hxy). lia.
Qed.

Lemma div_pow2_le x y e : x <= y -> x / pow2 e <= y / pow2 e.
Proof.
  intros H. apply Qmult_le_compat_r; [exact H|].
  apply Qinv_le_0_compat, Qlt_le_weak, pow2_pos.
Qed.

Lemma div_pow2_lt x e k : x < pow2 (e + k) -> x / pow2 e < pow2 k.
Proof.
  intros H. apply Qlt_shift_div_r; [apply pow2_pos|].
  rewrite <- pow2_add. by replace (k + e)%Z with (e + k)%Z by lia.
Qed.

Lemma div_pow2_ge x e k : pow2 (e + k) <= x -> pow2 k <= x / pow2 e.
Proof.
  intros H. apply Qle_shift_div_l; [apply pow2_pos|].
  rewrite <- pow2_add. by replace (k + e)%Z with (e + k)%Z by lia.
Qed.

(** The significand and the exponent of a rounded positive number. *)
Lemma round_pos_form x :
  0 < x ->
  (0 <= rne (x / pow2 (ulp_exp x)) <= 2 ^ 53)%Z
  /\ (-1074 <= ulp_exp x)%Z
  /\ (ulp_exp x = (-1074)%Z \/ (2 ^ 52 <= rne (x / pow2 (ulp_exp x)))%Z).
Proof.
  intros Hx. destruct (ilog2_spec x Hx) as [H1 H2].
  assert (He : (-1074 <= ulp_exp x)%Z) by (unfold ulp_exp; lia).
  split; [split|split; [exact He|]].
  - apply rne_ge. change (inject_Z 0) with 0.
    apply Qle_shift_div_l; [apply pow2_pos|]. lra.
  - apply rne_le. rewrite <- pow2_Z by lia.
    apply Qlt_le_weak, div_pow2_lt.
    eapply Qlt_le_trans; [exact H2|]. apply pow2_le. unfold ulp_exp. lia.
  - destruct (Z.eq_dec (ulp_exp x) (-1074)%Z) as [E|NE]; [by left|right].
    apply rne_ge. rewrite <- pow2_Z by lia. apply div_pow2_ge.
    eapply Qle_trans; [|exact H1]. apply pow2_le. unfold ulp_exp in *. lia.
Qed.

Lemma round_pos_nonneg x : 0 < x -> 0 <= round_pos x.
Proof.
  intros Hx. destruct (round_pos_form x Hx) as ([H _] & _).
  unfold round_pos. apply Qmult_le_0_compat.
  - change 0 with (inject_Z 0). by rewrite <- Zle_Qle.
  - apply Qlt_le_weak, pow2_pos.
Qed.

Lemma round_pos_mono x y : 0 < x -> x <= y -> round_pos x <= round_pos y.
Proof.
  intros Hx Hxy.
  assert (Hy : 0 < y) by (eapply Qlt_le_trans; eassumption).
  pose proof (ulp_exp_mono x y Hx Hxy) as He.
  unfold round_pos.
  destruct (Z.eq_dec (ulp_exp x) (ulp_exp y)) as [E|NE].
  - rewrite E. apply Qmult_le_compat_r; [|apply Qlt_le_weak, pow2_pos].
    rewrite <- Zle_Qle. apply rne_mono. by apply div_pow2_le.
  - destruct (round_pos_form x Hx) as ([_ Hmx] & _ & _).
    destruct (round_pos_form y Hy) as (_ & _ & [Hey|Hmy]).
    { unfold ulp_exp in *. lia. }
    apply Qle_trans with (pow2 53 * pow2 (ulp_exp x)).
    + apply Qmult_le_compat_r; [|apply Qlt_le_weak, pow2_pos].
      rewrite (pow2_Z 53) by lia. by rewrite <- Zle_Qle.
    + apply Qle_trans with (pow2 52 * pow2 (ulp_exp y)).
      * rewrite <- !pow2_add. apply pow2_le. lia.
      * apply Qmult_le_compat_r; [|apply Qlt_le_weak, pow2_pos].
        rewrite (pow2_Z 52) by lia. by rewrite <- Zle_Qle.
Qed.

Lemma round_pos_comp x y : 0 < x -> x == y -> round_pos x == round_pos y.
Proof.
  intros Hx Hxy. unfold round_pos, ulp_exp.
  rewrite <- (ilog2_comp x y Hx Hxy).
  set (e := Z.max (ilog2 x - 52) (-1074)). by rewrite Hxy.
Qed.

(** A number of the form of a double rounds to itself. *)
Lemma round_pos_fix (m e : Z) :
  (0 < m <= 2 ^ 53)%Z -> (-1074 <= e)%Z ->
  (e = (-1074)%Z \/ (2 ^ 52 <= m)%Z) ->
  round_pos (inject_Z m * pow2 e) == inject_Z m * pow2 e.
Proof.
  intros Hm He Hnorm.
  set (r := inject_Z m * pow2 e).
  assert (Hlog : ilog2 r = (Z.log2 m + e)%Z).
  { destruct (Z.log2_spec m ltac:(lia)) as [L1 L2].
    pose proof (Z.log2_nonneg m) as L0.
    apply ilog2_unique; unfold r.
    - rewrite pow2_add. apply Qmult_le_compat_r; [|apply Qlt_le_weak, pow2_pos].
      rewrite pow2_Z by lia. by rewrite <- Zle_Qle.
    - replace (Z.log2 m + e + 1)%Z with (Z.succ (Z.log2 m) + e)%Z by lia.
      rewrite pow2_add. apply Qmult_lt_r; [apply pow2_pos|].
      rewrite pow2_Z by lia. by rewrite <- Zlt_Qlt. }
  assert (Hlog53 : (Z.log2 m <= 53)%Z).
  { destruct (Z.eq_dec m (2 ^ 53)%Z) as [->|Hne]; [by rewrite Z.log2_pow2|].
    assert (Z.log2 m < 53)%Z; [|lia]. apply Z.log2_lt_pow2; lia. }
  unfold round_pos, ulp_exp. rewrite Hlog. fold r.
  destruct (Z.eq_dec m (2 ^ 53)%Z) as [Em|Hne].
  - subst m. rewrite Z.log2_pow2 by lia.
    replace (Z.max (53 + e - 52) (-1074)) with (e + 1)%Z by lia.
    assert (E : r / pow2 (e + 1) == inject_Z (2 ^ 52)).
    { unfold r. rewrite pow2_succ.
      change (inject_Z (2 ^ 53)) with (2 * inject_Z (2 ^ 52)).
      field. apply Qnot_eq_sym, Qlt_not_eq, pow2_pos. }
    rewrite E, rne_Z. unfold r. rewrite pow2_succ.
    change (inject_Z (2 ^ 53)) with (2 * inject_Z (2 ^ 52)). ring.
  - assert (Hlt : (Z.log2 m < 53)%Z) by (apply Z.log2_lt_pow2; lia).
    assert (Hmax : Z.max (Z.log2 m + e - 52) (-1074) = e).
    { destruct Hnorm as [->|Hm52]; [lia|].
      assert (52 <= Z.log2 m)%Z by (apply Z.log2_le_pow2; lia). lia. }
    rewrite Hmax.
    assert (E : r / pow2 e == inject_Z m).
    { unfold r. field. apply Qnot_eq_sym, Qlt_not_eq, pow2_pos. }
    by rewrite E, rne_Z.
Qed.

Lemma round_pos_idem x : 0 < x -> 0 < round_pos x ->
  round_pos (round_pos x) == round_pos x.
Proof.
  intros Hx Hr. destruct (round_pos_form x Hx) as ([Hm0 Hm] & He & Hnorm).
  unfold round_pos at 2 3. apply round_pos_fix; [|done|done].
  split; [|done].
  destruct (Z.eq_dec (rne (x / pow2 (ulp_exp x))) 0%Z) as [E|NE]; [|lia].
  exfalso. unfold round_pos in Hr. rewrite E in Hr.
  revert Hr. change (inject_Z 0) with 0. rewrite Qmult_0_l. apply Qlt_irrefl.
Qed.

(** *** Rounding *)

#[global] Instance round_double_comp : Proper (Qeq ==> Qeq) round_double.
Proof.
  intros x y H. unfold round_double. rewrite <- H.
  destruct (Qcompare_spec x 0) as [E|L|G]; [reflexivity| |].
  - apply Qopp_comp, round_pos_comp; [lra | by rewrite H].
  - by apply round_pos_comp.
Qed.

Lemma round_double_mono x y : x <= y -> round_double x <= round_double y.
Proof.
  intros Hxy. unfold round_double.
  destruct (Qcompare_spec x 0) as [Ex|Lx|Gx];
    destruct (Qcompare_spec y 0) as [Ey|Ly|Gy]; try lra.
  - by apply round_pos_nonneg.
  - pose proof (round_pos_nonneg (- x) ltac:(lra)). lra.
  - pose proof (round_pos_mono (- y) (- x) ltac:(lra) ltac:(lra)). lra.
  - pose proof (round_pos_nonneg (- x) ltac:(lra)).
    pose proof (round_pos_nonneg y Gy). lra.
  - by apply round_pos_mono.
Qed.

Lemma round_double_pos_idem r : 0 <= r -> round_pos r == r ->
  round_double r == r.
Proof.
  intros H0 Hr. unfold round_double.
  destruct (Qcompare_spec r 0) as [E|L|G]; [by rewrite E | lra | done].
Qed.

Lemma round_double_idem x : round_double (round_double x) == round_double x.
Proof.
  unfold round_double at 2 3.
  destruct (Qcompare_spec x 0) as [E|L|G]; [reflexivity| |].
  - pose proof (round_pos_nonneg (- x) ltac:(lra)) as H0.
    set (r := round_pos (- x)) in *.
    unfold round_double.
    destruct (Qcompare_spec (- r) 0) as [E|L'|G']; [lra| |lra].
    apply Qopp_comp.
    assert (Hr : 0 < r) by lra.
    rewrite (round_pos_comp (- - r) r); [|lra|ring].
    unfold r. apply round_pos_idem; [lra | exact Hr].
  - pose proof (round_pos_nonneg x G) as H0.
    unfold round_double.
    destruct (Qcompare_spec (round_pos x) 0) as [E|L'|G']; [lra|lra|].
    by apply round_pos_idem.
Qed.

Lemma round_double_opp x : round_double (- x) == - round_double x.
Proof.
  unfold round_double.
  destruct (Qcompare_spec x 0) as [E|L|G];
    destruct (Qcompare_spec (- x) 0) as [E'|L'|G']; try (exfalso; lra).
  - reflexivity.
  - ring.
  - apply Qopp_comp. apply round_pos_comp; [lra | ring].
Qed.



Lemma max_double_fix : round_double max_double == max_double.
Proof. vm_compute. reflexivity. Qed.

Lemma round_double_range x :
  Qabs x <= max_double -> Qabs (round_double x) <= max_double.
Proof.
  intros H. apply Qabs_Qle_condition in H as [H1 H2].
  apply Qabs_Qle_condition. split.
  - rewrite <- max_double_fix at 1. rewrite <- round_double_opp.
    by apply round_double_mono.
  - rewrite <- max_double_fix. by apply round_double_mono.
Qed.

Lemma round_double_fix q : is_double q = true -> round_double q == q.
Proof.
  unfold is_double. intros H. apply andb_prop in H as [H _].
  by apply Qeq_bool_iff.
Qed.

Lemma is_double_range q : is_double q = true -> Qabs q <= max_double.
Proof.
  unfold is_double. intros H. apply andb_prop in H as [_ H].
  by apply Qle_bool_iff.
Qed.

Lemma is_double_round x :
  Qabs (round_double x) <= max_double ->
  is_double (Qred (round_double x)) = true.
Proof.
  intros H. unfold is_double. apply andb_true_intro. split.
  - apply Qeq_bool_iff. rewrite Qred_correct. apply round_double_idem.
  - apply Qle_bool_iff. by rewrite Qred_correct.
Qed.

(** [float(x)] of a number between two doubles is between them. *)
Lemma round_double_between (x lo hi : Q) :
  is_double lo = true -> is_double hi = true ->
  lo <= x -> x <= hi ->
  lo <= round_double x /\ round_double x <= hi
  /\ Qabs (round_double x) <= max_double.
Proof.
  intros Hlo Hhi H1 H2.
  pose proof (round_double_mono lo x H1) as M1.
  pose proof (round_double_mono x hi H2) as M2.
  rewrite (round_double_fix lo Hlo) in M1.
  rewrite (round_double_fix hi Hhi) in M2.
  split; [done|]. split; [done|].
  apply is_double_range, Qabs_Qle_condition in Hlo, Hhi.
  apply Qabs_Qle_condition. lra.
Qed.

Lemma to_float_comp (x y : Q) : x == y -> to_float x = to_float y.
Proof.
  intros H. unfold to_float.
  assert (E : Qred (round_double x) = Qred (round_double y))
    by (apply Qred_complete; by rewrite H).
  assert (B : Qle_bool (Qabs (round_double x)) max_double
              = Qle_bool (Qabs (round_double y)) max_double).
  { apply eq_true_iff_eq. rewrite !Qle_bool_iff. by rewrite H. }
  by rewrite E, B.
Qed.

Lemma to_float_ok (x : Q) :
  Qabs (round_double x) <= max_double ->
  to_float x = Ok (Fin (Qred (round_double x))).
Proof.
  intros H. unfold to_float. apply Qle_bool_iff in H. by rewrite H.
Qed.

Lemma item_double (f : pyfloat) (q : Q) : item f = Fin q -> is_double q = true.
Proof.
  destruct f as [q0| | |]; try done. simpl.
  destruct (Qle_bool (Qabs (round_double q0)) max_double) eqn:E.
  - intros [= <-]. apply is_double_round. by apply Qle_bool_iff.
  - by destruct (Qle_bool 0 (round_double q0)).
Qed.
End DoubleFacts.

(** ** Dicts *)

Section DictFacts.
Context {V : Type}.
Implicit Types (k : string) (v : V) (d : list (string * V)).

Lemma dict_get_set_eq k v d : dict_get k (dict_set k v d) = Some v.
Proof.
induction d as [|[k' v'] d IH]; simpl.
- by rewrite String.eqb_refl.
- destruct (String.eqb k k') eqn:E; simpl.
  + by rewrite String.eqb_refl.
  + by rewrite E.
Qed.

Lemma dict_get_set_ne k k' v d :
k <> k' -> dict_get k' (dict_set k v d) = dict_get k' d.
Proof.
intros Hne. induction d as [|[k0 v0] d IH]; simpl.
- destruct (String.eqb k' k) eqn:E; [|done].
  apply String.eqb_eq in E. congruence.
- destruct (String.eqb k k0) eqn:E; simpl.
  + apply String.eqb_eq in E. subst k0.
    destruct (String.eqb k' k) eqn:E'; [|done].
    apply String.eqb_eq in E'. congruence.
  + by rewrite IH.
Qed.
End DictFacts.

Section DictMore.
Context {V : Type}.
Implicit Types (k : string) (v : V) (d : list (string * V)).

Lemma dict_set_keys k v v0 d :
  dict_get k d = Some v0 -> map fst (dict_set k v d) = map fst d.
Proof.
  induction d as [|[k' v'] d IH]; simpl; [done|].
  destruct (String.eqb k k') eqn:E; simpl.
  - apply String.eqb_eq in E. by subst.
  - intros H. by rewrite IH.
Qed.

Lemma dict_set_keys_new k v d :
  dict_get k d = None -> map fst (dict_set k v d) = (map fst d ++ [k])%list.
Proof.
  induction d as [|[k' v'] d IH]; simpl; [done|].
  destruct (String.eqb k k') eqn:E; simpl; [done|].
  intros H. by rewrite IH.
Qed.

Lemma dict_set_id k v d : dict_get k d = Some v -> dict_set k v d = d.
Proof.
  induction d as [|[k' v'] d IH]; simpl; [done|].
  destruct (String.eqb k k') eqn:E.
  - apply String.eqb_eq in E. intros H. by simplify_eq.
  - intros H. by rewrite IH.
Qed.

Lemma dict_set_set k v v' d :
  dict_set k v (dict_set k v' d) = dict_set k v d.
Proof.
  induction d as [|[k' v0] d IH]; simpl.
  - by rewrite String.eqb_refl.
  - destruct (String.eqb k k') eqn:E; simpl.
    + by rewrite String.eqb_refl.
    + by rewrite E, IH.
Qed.
Lemma dict_set_comm k1 k2 v1 v2 d :
  k1 <> k2 -> is_Some (dict_get k1 d) ->
  dict_set k1 v1 (dict_set k2 v2 d) = dict_set k2 v2 (dict_set k1 v1 d).
Proof.
  intros Hne. induction d as [|[k v] d IH]; simpl.
  - by intros [? ?].
  - destruct (String.eqb k1 k) eqn:E1.
    + apply String.eqb_eq in E1. subst k. intros _.
      assert (E2 : String.eqb k2 k1 = false)
        by (apply String.eqb_neq; congruence).
      rewrite E2. simpl. by rewrite String.eqb_refl, E2.
    + intros Hsome. destruct (String.eqb k2 k) eqn:E2; simpl.
      * apply String.eqb_eq in E2. subst k.
        by rewrite E1, String.eqb_refl.
      * by rewrite E1, E2, IH.
Qed.
End DictMore.

(** ** The monad *)

Section MonadFacts.
Context {S A B : Type}.

Lemma bind_ok (m : M S A) (k : A -> M S B) s a s' :
  m s = (Ok a, s') -> bind m k s = k a s'.
Proof. intros H. unfold bind. by rewrite H. Qed.

Lemma bind_raise (m : M S A) (k : A -> M S B) s e s' :
  m s = (Raise e, s') -> bind m k s = (Raise e, s').
Proof. intros H. unfold bind. by rewrite H. Qed.

Lemma bind_congr (m : M S A) (k1 k2 : A -> M S B) s :
  (forall a s', m s = (Ok a, s') -> k1 a s' = k2 a s') ->
  bind m k1 s = bind m k2 s.
Proof.
  intros H. unfold bind. destruct (m s) as [[a|e] s']; [by apply H | done].
Qed.

Lemma bind_ok_inv (m : M S A) (k : A -> M S B) s b s' :
  bind m k s = (Ok b, s') ->
  exists a s1, m s = (Ok a, s1) /\ k a s1 = (Ok b, s').
Proof.
  unfold bind. destruct (m s) as [[a|e] s1]; [eauto | discriminate].
Qed.
End MonadFacts.

(** A [for] loop that completes ran its body on every element, in order. *)
Lemma foldM_ok_inv {S A B} (body : B -> A -> M S B) (P : S -> S -> Prop) :
  (forall s, P s s) ->
  (forall s1 s2 s3, P s1 s2 -> P s2 s3 -> P s1 s3) ->
  (forall acc x s acc' s', body acc x s = (Ok acc', s') -> P s s') ->
  forall l acc s acc' s', foldM body l acc s = (Ok acc', s') -> P s s'.
Proof.
  intros Hrefl Htrans Hbody l.
  induction l as [|x l IH]; intros acc s acc' s' H; simpl in H.
  - inversion H; subst. apply Hrefl.
  - apply bind_ok_inv in H as (a & s1 & H1 & H2). eauto.
Qed.

(** A [for] loop ends in one of two ways: it went through all its
    elements, or its body raised at some element, after completing on the
    ones before. *)
Lemma foldM_cases {S A B} (body : B -> A -> M S B) (l : list A) :
  forall acc s,
  (exists acc' s', foldM body l acc s = (Ok acc', s'))
  \/ (exists done x rest acc' s' e,
        l = (done ++ x :: rest)%list /\
        foldM body done acc s = (Ok acc', s') /\
        fst (body acc' x s') = Raise e /\
        fst (foldM body l acc s) = Raise e).
Proof.
  induction l as [|x l IH]; intros acc s.
  - left. by exists acc, s.
  - destruct (body acc x s) as [[acc1|e] s1] eqn:Hx.
    + destruct (IH acc1 s1) as [(acc' & s' & Hl)
                               |(done & y & rest & acc' & s' & e & -> & Hd & Hy & Hl)].
      * left. exists acc', s'. simpl. by erewrite bind_ok.
      * right. exists (x :: done), y, rest, acc', s', e.
        split; [done|]. simpl. erewrite !bind_ok by exact Hx. done.
    + right. exists [], x, l, acc, s, e. split; [done|]. split; [done|].
      split; [by rewrite Hx|]. simpl. by erewrite bind_raise.
Qed.

(** A loop over two lists in a row. *)
Lemma foldM_app {S A B} (body : B -> A -> M S B) (l1 l2 : list A) :
  forall acc s,
  foldM body (l1 ++ l2) acc s
    = bind (foldM body l1 acc) (fun acc' => foldM body l2 acc') s.
Proof.
  induction l1 as [|x l1 IH]; intros acc s.
  - reflexivity.
  - cbn [foldM app]. unfold bind at 1 2 3.
    destruct (body acc x s) as [[a|e] s1]; [|done].
    apply IH.
Qed.

(** A loop that completes ran its body, to completion, on each element. *)
Lemma foldM_ok_each {S A B} (body : B -> A -> M S B) (l : list A) :
  forall acc s acc' s',
  foldM body l acc s = (Ok acc', s') ->
  forall x, In x l -> exists a s1 a' s1', body a x s1 = (Ok a', s1').
Proof.
  induction l as [|y l IH]; intros acc s acc' s' H x Hx; [done|].
  cbn [foldM] in H. apply bind_ok_inv in H as (a1 & s1 & H1 & H2).
  destruct Hx as [->|Hx]; [by exists acc, s, a1, s1 | by eapply IH].
Qed.

(** ** Effects on the process-wide state *)

Section Preserves.
Context `{F : Framework}.
Variable R : env -> env -> Prop.
Hypothesis R_refl : forall e, R e e.
Hypothesis R_trans : forall e1 e2 e3, R e1 e2 -> R e2 e3 -> R e1 e3.

Local Abbreviation preserves := (preserves R).

Lemma preserves_ret {A} (a : A) : preserves (ret a).
Proof. intros w. apply R_refl. Qed.

Lemma preserves_raise {A} e : preserves (raise (A := A) e).
Proof. intros w. apply R_refl. Qed.

Lemma preserves_lift {A} (r : result A) : preserves (lift r).
Proof. intros w. apply R_refl. Qed.

Lemma preserves_gets {A} (f : world -> A) : preserves (gets f).
Proof. intros w. apply R_refl. Qed.

Lemma preserves_modify (f : world -> world) :
  (forall w, genv (f w) = genv w) -> preserves (modify f).
Proof. intros Hf w. simpl. rewrite Hf. apply R_refl. Qed.

Lemma preserves_on_env (f : env -> env) :
  (forall e, R e (f e)) -> preserves (on_env f).
Proof. intros Hf w. simpl. apply Hf. Qed.

Lemma preserves_bind {A B} (m : M world A) (k : A -> M world B) :
  preserves m -> (forall a, preserves (k a)) -> preserves (bind m k).
Proof.
  intros Hm Hk w. unfold bind. specialize (Hm w).
  destruct (m w) as [[a|e] w1]; simpl in *; [|done].
  eapply R_trans; [exact Hm | apply Hk].
Qed.

Lemma preserves_foldM {A B} (body : B -> A -> M world B) l acc :
  (forall b a, preserves (body b a)) -> preserves (foldM body l acc).
Proof.
  intros Hbody. revert acc.
  induction l as [|x l IH]; intros acc; simpl.
  - apply preserves_ret.
  - apply preserves_bind; [apply Hbody | apply IH].
Qed.

Lemma preserves_loader_len loader : preserves (loader_len loader).
Proof. destruct loader; [apply preserves_ret | apply preserves_raise]. Qed.

Lemma preserves_torch_cat l : preserves (torch_cat l).
Proof. destruct l; [apply preserves_raise | apply preserves_ret]. Qed.

Create HintDb preserves.
Local Hint Resolve preserves_ret preserves_raise preserves_lift
  preserves_gets preserves_loader_len preserves_torch_cat : preserves.

Ltac preserves_step :=
  first
    [ apply preserves_bind; [|intros ?]
    | apply preserves_modify; intros []; reflexivity
    | apply preserves_foldM; intros ? ?
    | solve [auto with preserves] ].

Lemma preserves_train_batch acc b : preserves (train_batch acc b).
Proof. unfold train_batch. repeat preserves_step. Qed.

Lemma preserves_train loader : preserves (train loader).
Proof.
  unfold train. repeat preserves_step.
Qed.

Lemma preserves_eval_batch acc b : preserves (eval_batch acc b).
Proof. unfold eval_batch. repeat preserves_step. Qed.

Lemma preserves_eval_psnr loader eval_type :
  preserves (eval_psnr loader eval_type).
Proof.
  unfold eval_psnr. repeat preserves_step.
  destruct (metric_bundle eval_type) as [[fn [[[n1 n2] n3] n4]]|];
    [|apply preserves_raise].
  destruct (fn _ _) as [[[r1 r2] r3] r4]. apply preserves_ret.
Qed.

(** What the loop does to the process-wide state, step by step. *)
Hypothesis R_summary : forall e ev,
  match ev with EvWrite _ _ | EvLoad _ => False | _ => True end ->
  R e (emit_env ev e).
Variable save_path : string.
Hypothesis R_save : forall e name obj,
  R e (write_env (ckpt_path save_path name) (TorchFile obj) e).
Hypothesis R_spec : forall e k d sd,
  k = "model" \/ k = "optimizer" ->
  dict_get k (config e) = Some (PDict d) ->
  R e (set_config
         (dict_set k (PDict (dict_set "sd" (PStateDict sd) d)) (config e)) e).

Lemma preserves_emit ev :
  match ev with EvWrite _ _ | EvLoad _ => False | _ => True end ->
  preserves (emit ev).
Proof. intros H. apply preserves_on_env. intros e. by apply R_summary. Qed.

Lemma preserves_save_model name :
  preserves (save_model save_path name).
Proof.
  intros w. unfold save_model, bind, gets, lift, getitem, on_env, modify,
    torch_save, set_sd. simpl.
  destruct (dict_get "model" (config (genv w))) as [ms|] eqn:Hm;
    simpl; [|apply R_refl].
  destruct ms; simpl; try apply R_refl.
  rewrite dict_get_set_ne by done.
  destruct (dict_get "optimizer" (config (genv w))) as [os|] eqn:Ho; simpl.
  2:{ apply (R_spec (genv w)); auto. }
  assert (Hstep1 := R_spec (genv w) "model" d (model_state_dict (model w))
                      (or_introl eq_refl) Hm).
  destruct os; simpl; try exact Hstep1.
  eapply R_trans; [exact Hstep1|].
  eapply R_trans; [|apply R_save].
  match goal with |- R ?e _ =>
    assert (Hstep2 := R_spec e "optimizer" d0
                        (optimizer_state_dict (optimizer w))
                        (or_intror eq_refl)) end.
  simpl in Hstep2. apply Hstep2.
  by rewrite dict_get_set_ne.
Qed.

Lemma preserves_update_best eval_type r max_val_v :
  preserves (update_best save_path eval_type r max_val_v).
Proof.
  unfold update_best.
  destruct (negb (str_eq eval_type "ber"));
    [destruct (fgt (result1 r) max_val_v)
    |destruct (flt (result3 r) max_val_v)];
    try apply preserves_ret;
    (apply preserves_bind;
     [apply preserves_save_model | intros; apply preserves_ret]).
Qed.

Lemma preserves_validate val_loader epoch_start epoch_max
    log_info max_val_v epoch :
  preserves (validate save_path val_loader epoch_start epoch_max log_info
               max_val_v epoch).
Proof.
  unfold validate.
  repeat first
    [ apply preserves_eval_psnr
    | apply preserves_update_best
    | apply preserves_emit; exact I
    | preserves_step ].
Qed.

Lemma preserves_lr_scheduler_step : preserves lr_scheduler_step.
Proof.
  intros w. unfold lr_scheduler_step.
  destruct (scheduler_step _ _) as [r so]. apply R_refl.
Qed.

Lemma preserves_epoch_body train_loader val_loader epoch_start
    epoch_max epoch_val max_val_v epoch :
  preserves (epoch_body save_path train_loader val_loader epoch_start
               epoch_max epoch_val max_val_v epoch).
Proof.
  unfold epoch_body.
  repeat first
    [ apply preserves_train
    | apply preserves_lr_scheduler_step
    | apply preserves_save_model
    | apply preserves_emit; exact I
    | preserves_step ].
  match goal with |- preserves (if ?b then _ else _) => destruct b end;
    [apply preserves_validate | apply preserves_ret].
Qed.

(** The whole of [main] after [prepare_training]: it may also load the
    pretrained weights. *)
Hypothesis R_load : forall e path, R e (emit_env (EvLoad path) e).

Lemma preserves_torch_load path (w : world) :
  R (genv w) (snd (torch_load path (genv w))).
Proof.
  unfold torch_load. destruct path; try apply R_refl.
  unfold bind, modify, gets. simpl.
  destruct (fs (genv w) !! s) as [[]|]; apply R_load.
Qed.

Lemma preserves_main_loop train_loader val_loader epoch_start :
  preserves (main_loop save_path train_loader val_loader epoch_start).
Proof.
  unfold main_loop.
  apply preserves_bind; [auto with preserves | intros cfg].
  apply preserves_bind; [auto with preserves | intros epoch_max].
  apply preserves_bind; [apply preserves_modify; by intros [] | intros _].
  apply preserves_bind; [apply preserves_modify; by intros [] | intros _].
  apply preserves_bind.
  { destruct (dict_mem "sam_checkpoint" cfg); [|apply preserves_ret].
    apply preserves_bind; [auto with preserves | intros path].
    apply preserves_bind.
    - intros w. pose proof (preserves_torch_load path w) as H.
      destruct (torch_load path (genv w)) as [r e]. exact H.
    - intros obj. repeat preserves_step. }
  intros _.
  apply preserves_bind; [apply preserves_modify; by intros [] | intros _].
  repeat first [ apply preserves_epoch_body | preserves_step ].
Qed.
End Preserves.

(** ** The functions of the script, one by one *)

Section Components.
Context `{F : Framework}.

Abbreviation value := (pyval state_dict).
Abbreviation dict := (list (string * value)).
Abbreviation batch := (list (string * tensor)).

Lemma world_eta (w : world) :
  World (genv w) (model w) (optimizer w) (lr_scheduler w) = w.
Proof. by destruct w. Qed.

(** [train] and [eval_psnr] leave the process-wide state alone. *)
Lemma train_genv loader (w : world) : genv (snd (train loader w)) = genv w.
Proof.
  symmetry. apply (preserves_train eq); [done | intros; congruence].
Qed.

Lemma eval_psnr_genv loader eval_type (w : world) :
  genv (snd (eval_psnr loader eval_type w)) = genv w.
Proof.
  symmetry. apply (preserves_eval_psnr eq); [done | intros; congruence].
Qed.

(** *** train *)

Lemma train_batch_ok (acc : list pyfloat) (b : batch) (w : world) :
  batch_ok b = true ->
  train_batch acc b w =
    (Ok (append acc (item (loss_G (fst (step (model w, optimizer w) b))))),
     let mo := step (model w, optimizer w) b in
     set_optimizer (snd mo) (set_model (fst mo) w)).
Proof.
  unfold batch_ok, step, train_batch, fields, getitem. intros Hb.
  destruct (dict_get "inp" (batch_cuda b)) as [inp|]; [|done].
  destruct (dict_get "gt" (batch_cuda b)) as [gt|]; [|done].
  reflexivity.
Qed.

Lemma foldM_train_batch (bs : list batch) :
  forall (acc : list pyfloat) (w : world),
  forallb batch_ok bs = true ->
  foldM train_batch bs acc w =
    (Ok (acc ++ losses (model w, optimizer w) bs)%list,
     let mo := fold_left step bs (model w, optimizer w) in
     set_optimizer (snd mo) (set_model (fst mo) w)).
Proof.
  induction bs as [|b bs IH]; intros acc w Hbs; simpl.
  - unfold ret, losses. simpl. rewrite app_nil_r. by destruct w.
  - apply andb_prop in Hbs as [Hb Hbs].
    erewrite bind_ok by (by apply train_batch_ok).
    rewrite IH by done. simpl. unfold losses, append. simpl.
    destruct (step (model w, optimizer w) b) as [m1 o1]. simpl.
    by rewrite <- app_assoc.
Qed.

Lemma train_spec (bs : list batch) (w : world) :
  forallb batch_ok bs = true ->
  train (Some bs) w =
    (mean (losses (model_train (model w), optimizer w) bs), trained bs w).
Proof.
  intros Hbs. unfold train, trained.
  unfold bind at 1. simpl. unfold bind at 1. simpl.
  erewrite bind_ok by (by apply foldM_train_batch).
  reflexivity.
Qed.

(** *** statistics.mean *)

Lemma exact_sum_Fin (qs : list Q) :
  forall acc : Q,
  (fold_left (fun a f => match f with Fin q => (a + q)%Q | _ => a end)
     (map Fin qs) acc == acc + Qsum qs)%Q.
Proof.
  induction qs as [|q qs IH]; intros acc; simpl.
  - ring.
  - rewrite IH. ring.
Qed.

Lemma mean_finite (qs : list Q) :
  qs <> [] ->
  mean (map Fin qs) = to_float (Qsum qs / inject_Z (Z.of_nat (length qs))).
Proof.
  intros Hne. destruct qs as [|q0 qs]; [done|].
  unfold mean. cbn [map].
  replace (forallb is_finite (Fin q0 :: map Fin qs)) with true.
  - apply to_float_comp. unfold exact_sum.
    change (Fin q0 :: map Fin qs) with (map Fin (q0 :: qs)).
    rewrite exact_sum_Fin, length_map, Qplus_0_l. reflexivity.
  - symmetry. apply forallb_forall. intros x Hx.
    destruct Hx as [<-|Hx]; [done|].
    apply in_map_iff in Hx as (? & <- & _). done.
Qed.

Lemma Qsum_above (qs : list Q) (c : Q) :
  qs <> [] -> Forall (fun q => c < q)%Q qs ->
  (inject_Z (Z.of_nat (length qs)) * c < Qsum qs)%Q.
Proof.
  intros Hne H. induction H as [|q qs Hq Hqs IH]; [done|].
  simpl length. rewrite Nat2Z.inj_succ. unfold Z.succ.
  rewrite inject_Z_plus. simpl Qsum. change (inject_Z 1) with 1%Q.
  destruct qs as [|q' qs'].
  - cbn [length Qsum fold_right]. change (inject_Z (Z.of_nat 0)) with 0%Q. lra.
  - specialize (IH ltac:(done)). lra.
Qed.

Lemma Qsum_below (qs : list Q) (c : Q) :
  qs <> [] -> Forall (fun q => q < c)%Q qs ->
  (Qsum qs < inject_Z (Z.of_nat (length qs)) * c)%Q.
Proof.
  intros Hne H. induction H as [|q qs Hq Hqs IH]; [done|].
  simpl length. rewrite Nat2Z.inj_succ. unfold Z.succ.
  rewrite inject_Z_plus. simpl Qsum. change (inject_Z 1) with 1%Q.
  destruct qs as [|q' qs'].
  - cbn [length Qsum fold_right]. change (inject_Z (Z.of_nat 0)) with 0%Q. lra.
  - specialize (IH ltac:(done)). lra.
Qed.

(** The mean of a non-empty list lies between two of its elements. *)
Lemma mean_between_elements (qs : list Q) :
  qs <> [] ->
  exists a b, In a qs /\ In b qs /\
    (a <= Qsum qs / inject_Z (Z.of_nat (length qs)))%Q /\
    (Qsum qs / inject_Z (Z.of_nat (length qs)) <= b)%Q.
Proof.
  intros Hne.
  set (n := inject_Z (Z.of_nat (length qs))).
  set (mu := (Qsum qs / n)%Q).
  assert (Hn : (0 < n)%Q).
  { unfold n. change 0%Q with (inject_Z 0). rewrite <- Zlt_Qlt.
    destruct qs; [done | simpl; lia]. }
  assert (Hmu : (n * mu == Qsum qs)%Q).
  { unfold mu. field. intros E. rewrite E in Hn. by apply Qlt_irrefl in Hn. }
  assert (Ha : exists a, In a qs /\ (a <= mu)%Q).
  { destruct (List.Exists_dec (fun q => q <= mu)%Q qs) as [E|NE].
    - intros q. destruct (Qlt_le_dec mu q); [right | left]; [|done].
      by apply Qlt_not_le.
    - apply List.Exists_exists in E. exact E.
    - exfalso. assert (Hall : Forall (fun q => mu < q)%Q qs).
      { apply List.Forall_forall. intros q Hq. apply Qnot_le_lt. intros Hle.
        apply NE, List.Exists_exists. by exists q. }
      pose proof (Qsum_above qs mu Hne Hall) as Habove. fold n in Habove.
      rewrite Hmu in Habove. by apply Qlt_irrefl in Habove. }
  assert (Hb : exists b, In b qs /\ (mu <= b)%Q).
  { destruct (List.Exists_dec (fun q => mu <= q)%Q qs) as [E|NE].
    - intros q. destruct (Qlt_le_dec q mu); [right | left]; [|done].
      by apply Qlt_not_le.
    - apply List.Exists_exists in E. exact E.
    - exfalso. assert (Hall : Forall (fun q => q < mu)%Q qs).
      { apply List.Forall_forall. intros q Hq. apply Qnot_le_lt. intros Hle.
        apply NE, List.Exists_exists. by exists q. }
      pose proof (Qsum_below qs mu Hne Hall) as Hbelow. fold n in Hbelow.
      rewrite Hmu in Hbelow. by apply Qlt_irrefl in Hbelow. }
  destruct Ha as (a & Ha & Hale). destruct Hb as (b & Hb & Hble).
  by exists a, b.
Qed.

(** The mean of doubles: the exact mean, rounded, and no overflow. *)
Lemma mean_doubles (qs : list Q) :
  qs <> [] ->
  Forall (fun q => is_double q = true) qs ->
  exists a b, In a qs /\ In b qs /\
    mean (map Fin qs)
      = Ok (Fin (Qred (round_double
                         (Qsum qs / inject_Z (Z.of_nat (length qs)))))) /\
    (a <= round_double (Qsum qs / inject_Z (Z.of_nat (length qs))))%Q /\
    (round_double (Qsum qs / inject_Z (Z.of_nat (length qs))) <= b)%Q.
Proof.
  intros Hne Hd.
  destruct (mean_between_elements qs Hne) as (a & b & Ha & Hb & Hlo & Hhi).
  rewrite List.Forall_forall in Hd.
  destruct (round_double_between _ a b (Hd a Ha) (Hd b Hb) Hlo Hhi)
    as (R1 & R2 & R3).
  exists a, b. split; [done|]. split; [done|].
  rewrite mean_finite by done. by rewrite to_float_ok.
Qed.

(** The losses [train] records are Python floats. *)
Lemma losses_double (mo : Model * Optimizer) (bs : list batch) (q : Q) :
  In (Fin q) (losses mo bs) -> is_double q = true.
Proof.
  unfold losses. intros H. apply in_map_iff in H as (s & Hs & _).
  by apply item_double in Hs.
Qed.

Lemma losses_doubles (mo : Model * Optimizer) (bs : list batch) (qs : list Q) :
  losses mo bs = map Fin qs -> Forall (fun q => is_double q = true) qs.
Proof.
  intros H. apply List.Forall_forall. intros q Hq.
  apply (losses_double mo bs). rewrite H. by apply in_map.
Qed.


Lemma losses_length (mo : Model * Optimizer) (bs : list batch) :
  length (losses mo bs) = length bs.
Proof.
  unfold losses. rewrite length_map. revert mo.
  induction bs as [|b bs IH]; intros mo; simpl; [done|]. by rewrite IH.
Qed.


(** A pass of [train] that returns had a loader, and at least one batch. *)
Lemma train_ok_nonempty loader (w : world) loss w1 :
  train loader w = (Ok loss, w1) -> exists bs, loader = Some bs /\ bs <> [].
Proof.
  destruct loader as [[|b bs]|]; intros H.
  - by rewrite train_spec in H.
  - by exists (b :: bs).
  - done.
Qed.

(** *** eval_psnr *)

Lemma eval_batch_ok (acc : list tensor * list tensor) (b : batch) (w : world) :
  batch_ok b = true ->
  eval_batch acc b w =
    (Ok ((fst acc ++ pred_list_of (model w) [b])%list,
         (snd acc ++ gt_list_of [b])%list), w).
Proof.
  unfold batch_ok, eval_batch, pred_list_of, gt_list_of, fields, getitem.
  simpl. intros Hb.
  destruct (dict_get "inp" (batch_cuda b)) as [inp|]; [|done].
  destruct (dict_get "gt" (batch_cuda b)) as [gt|]; [|done].
  reflexivity.
Qed.

Lemma foldM_eval_batch (bs : list batch) :
  forall (acc : list tensor * list tensor) (w : world),
  forallb batch_ok bs = true ->
  foldM eval_batch bs acc w =
    (Ok ((fst acc ++ pred_list_of (model w) bs)%list,
         (snd acc ++ gt_list_of bs)%list), w).
Proof.
  induction bs as [|b bs IH]; intros acc w Hbs; simpl.
  - unfold ret. rewrite !app_nil_r. by destruct acc.
  - apply andb_prop in Hbs as [Hb Hbs].
    erewrite bind_ok by (by apply eval_batch_ok).
    rewrite IH by done. simpl.
    unfold pred_list_of, gt_list_of. simpl.
    by rewrite <- !app_assoc.
Qed.

(** The world is the same after the loop of [eval_psnr], however it ends. *)
Lemma foldM_eval_batch_world (bs : list batch) :
  forall (acc : list tensor * list tensor) (w : world),
  snd (foldM eval_batch bs acc w) = w.
Proof.
  induction bs as [|b bs IH]; intros acc w; simpl; [done|].
  unfold bind. unfold eval_batch at 1, bind, lift, gets, ret.
  destruct (getitem "inp" (batch_cuda b)) as [inp|e]; simpl; [|done].
  destruct (getitem "gt" (batch_cuda b)) as [gt|e]; simpl; [|done].
  apply IH.
Qed.

Lemma eval_psnr_world loader eval_type (w : world) :
  snd (eval_psnr loader eval_type w) = evaluated w.
Proof.
  unfold eval_psnr, evaluated.
  unfold bind at 1. simpl.
  destruct loader as [bs|]; simpl; [|done].
  unfold bind at 1. simpl. unfold bind at 1.
  pose proof (foldM_eval_batch_world bs ([], [])
                (set_model (model_eval (model w)) w)) as Hw.
  destruct (foldM eval_batch bs _ _) as [[lists|e] w1]; simpl in Hw; subst w1;
    [|done].
  unfold bind, torch_cat.
  destruct (fst lists); simpl; [done|].
  destruct (snd lists); simpl; [done|].
  destruct (metric_bundle eval_type) as [[fn [[[n1 n2] n3] n4]]|]; [|done].
  by destruct (fn _ _) as [[[r1 r2] r3] r4].
Qed.

Lemma eval_psnr_spec (bs : list batch) eval_type (w : world) :
  bs <> [] ->
  forallb batch_ok bs = true ->
  eval_psnr (Some bs) eval_type w =
    (match metric_bundle eval_type with
     | Some (metric_fn, names) =>
         Ok (mk_metrics
               (metric_fn (cat (pred_list_of (model_eval (model w)) bs))
                          (cat (gt_list_of bs)))
               names)
     | None => Raise (UnboundLocalError "metric_fn")
     end, evaluated w).
Proof.
  intros Hne Hbs. unfold eval_psnr, evaluated.
  unfold bind at 1. simpl. unfold bind at 1. simpl.
  erewrite bind_ok by (by apply foldM_eval_batch).
  simpl.
  destruct bs as [|b bs]; [done|].
  apply andb_prop in Hbs as [Hb Hbs].
  unfold pred_list_of, gt_list_of. simpl.
  unfold batch_ok in Hb.
  destruct (fields b) as [[inp gt]|]; [|done]. simpl.
  unfold bind, ret. simpl.
  destruct (metric_bundle eval_type) as [[fn [[[n1 n2] n3] n4]]|]; [|done].
  simpl. by destruct (fn _ _) as [[[r1 r2] r3] r4].
Qed.

Lemma eval_psnr_unbound loader eval_type (w : world) :
  metric_bundle eval_type = None ->
  is_ok (fst (eval_psnr loader eval_type w)) = false.
Proof.
  intros Hnone. unfold eval_psnr. rewrite Hnone.
  unfold bind at 1. simpl.
  destruct loader as [bs|]; simpl; [|done].
  unfold bind at 1. simpl. unfold bind at 1.
  destruct (foldM eval_batch bs _ _) as [[lists|e] w1]; [|done].
  unfold bind, torch_cat.
  destruct (fst lists); simpl; [done|].
  by destruct (snd lists).
Qed.

(** *** save_model *)

Lemma save_model_ok save_path name (w : world) :
  has_specs (config (genv w)) = true ->
  save_model save_path name w = (Ok tt, saved save_path name w).
Proof.
  unfold has_specs, save_model, saved, saved_config, checkpoint_of,
    dict_get_or_none, getitem.
  unfold bind, gets, lift, on_env, modify, torch_save, set_sd. simpl.
  intros H.
  destruct (dict_get "model" (config (genv w))) as [[]|]; try done.
  simpl. rewrite dict_get_set_ne by done.
  destruct (dict_get "optimizer" (config (genv w))) as [[]|]; try done.
Qed.

Lemma save_model_inv save_path name (w : world) u w' :
  save_model save_path name w = (Ok u, w') ->
  has_specs (config (genv w)) = true /\ w' = saved save_path name w.
Proof.
  intros H.
  destruct (has_specs (config (genv w))) eqn:Hs.
  - rewrite save_model_ok in H by done. by inversion H.
  - exfalso. revert H Hs.
    unfold has_specs, save_model, getitem.
    unfold bind, gets, lift, on_env, modify, torch_save, set_sd. simpl.
    destruct (dict_get "model" (config (genv w))) as [[]|]; try done.
    simpl. rewrite dict_get_set_ne by done.
    destruct (dict_get "optimizer" (config (genv w))) as [[]|]; try done.
Qed.

(** A save keeps both specs mappings: the next save succeeds too. *)
Lemma has_specs_saved_config (cfg : dict) m o :
  has_specs cfg = true -> has_specs (saved_config cfg m o) = true.
Proof.
  unfold has_specs, saved_config, dict_get_or_none.
  destruct (dict_get "model" cfg) as [[]|] eqn:Hm; try done.
  destruct (dict_get "optimizer" cfg) as [[]|] eqn:Ho; try done.
  intros _. simpl.
  rewrite dict_get_set_ne by done.
  by rewrite !dict_get_set_eq.
Qed.

(** A save overwrites what an earlier save left under ['sd']. *)
Lemma with_sd_twice (spec : value) sd sd' :
  with_sd (with_sd spec sd') sd = with_sd spec sd.
Proof. destruct spec; try done. simpl. by rewrite dict_set_set. Qed.

Lemma saved_config_twice (cfg : dict) m o m' o' :
  has_specs cfg = true ->
  saved_config (saved_config cfg m' o') m o = saved_config cfg m o.
Proof.
  unfold has_specs. intros Hs.
  destruct (dict_get "model" cfg) as [[| | | | | |dm|]|] eqn:Hm; try done.
  destruct (dict_get "optimizer" cfg) as [[| | | | | |dop|]|] eqn:Ho;
    try done.
  assert (Hm' : dict_get_or_none "model" (saved_config cfg m' o')
                = with_sd (PDict dm) (model_state_dict m')).
  { unfold saved_config, dict_get_or_none.
    rewrite dict_get_set_ne by done. by rewrite dict_get_set_eq, Hm. }
  assert (Ho' : dict_get_or_none "optimizer" (saved_config cfg m' o')
                = with_sd (PDict dop) (optimizer_state_dict o')).
  { unfold saved_config, dict_get_or_none.
    by rewrite dict_get_set_eq, Ho. }
  unfold saved_config at 1. rewrite Hm', Ho', !with_sd_twice.
  unfold saved_config, dict_get_or_none. rewrite Hm, Ho.
  rewrite (dict_set_comm "model" "optimizer")
    by (done || (rewrite dict_get_set_eq; by eexists)).
  by rewrite !dict_set_set.
Qed.

Lemma checkpoint_of_saved_config (cfg : dict) m o m' o' :
  has_specs cfg = true ->
  checkpoint_of (saved_config cfg m' o') m o = checkpoint_of cfg m o.
Proof.
  unfold has_specs. intros Hs.
  destruct (dict_get "model" cfg) as [[| | | | | |dm|]|] eqn:Hm; try done.
  destruct (dict_get "optimizer" cfg) as [[| | | | | |dop|]|] eqn:Ho;
    try done.
  unfold checkpoint_of, saved_config, dict_get_or_none.
  rewrite dict_get_set_eq.
  rewrite (dict_get_set_ne "optimizer" "model") by done.
  rewrite dict_get_set_eq, Hm, Ho. by rewrite !with_sd_twice.
Qed.

(** A save that raises has written no file and sent out nothing; it has
    touched neither the model, nor the optimizer, nor the scheduler. *)
Lemma save_model_raise save_path name (w : world) :
  has_specs (config (genv w)) = false ->
  is_ok (fst (save_model save_path name w)) = false
  /\ fs (genv (snd (save_model save_path name w))) = fs (genv w)
  /\ out (genv (snd (save_model save_path name w))) = out (genv w)
  /\ model (snd (save_model save_path name w)) = model w
  /\ optimizer (snd (save_model save_path name w)) = optimizer w
  /\ lr_scheduler (snd (save_model save_path name w)) = lr_scheduler w.
Proof.
  unfold has_specs, save_model, getitem.
  unfold bind, gets, lift, on_env, modify, torch_save, set_sd. simpl.
  destruct (dict_get "model" (config (genv w))) as [[]|]; try done.
  simpl. rewrite dict_get_set_ne by done.
  destruct (dict_get "optimizer" (config (genv w))) as [[]|]; try done.
Qed.

(** Whatever its outcome, a save leaves the files as they were or writes
    its checkpoint file. *)
Lemma save_model_fs save_path name (w : world) :
  fs (genv (snd (save_model save_path name w))) = fs (genv w)
  \/ exists obj,
       fs (genv (snd (save_model save_path name w)))
         = <[ckpt_path save_path name := TorchFile obj]> (fs (genv w)).
Proof.
  destruct (has_specs (config (genv w))) eqn:Hs.
  - right. rewrite save_model_ok by done. by eexists.
  - left. by apply save_model_raise.
Qed.

(** Both specs carry the state dict a save gave them. *)
Lemma saved_config_sd (cfg : dict) m o :
  has_specs cfg = true ->
  exists dm dop,
    dict_get "model" (saved_config cfg m o) = Some (PDict dm) /\
    dict_get "sd" dm = Some (PStateDict (model_state_dict m)) /\
    dict_get "optimizer" (saved_config cfg m o) = Some (PDict dop) /\
    dict_get "sd" dop = Some (PStateDict (optimizer_state_dict o)).
Proof.
  unfold has_specs, saved_config, dict_get_or_none. intros Hs.
  destruct (dict_get "model" cfg) as [[| | | | | |dm|]|] eqn:Hm; try done.
  destruct (dict_get "optimizer" cfg) as [[| | | | | |dop|]|] eqn:Ho;
    try done.
  simpl. do 2 eexists.
  rewrite dict_get_set_ne by done. rewrite !dict_get_set_eq.
  done.
Qed.

(** *** update_best *)

Lemma update_best_eq save_path eval_type r max_val_v :
  update_best save_path eval_type r max_val_v =
    if improved eval_type r max_val_v
    then (save_model save_path "best" ;;; ret (active_metric eval_type r))
    else ret max_val_v.
Proof.
  unfold update_best, improved, active_metric.
  by destruct (negb (str_eq eval_type "ber")).
Qed.

Lemma update_best_inv save_path eval_type r max_val_v (w : world) v w' :
  update_best save_path eval_type r max_val_v w = (Ok v, w') ->
  if improved eval_type r max_val_v
  then has_specs (config (genv w)) = true /\
       w' = saved save_path "best" w /\ v = active_metric eval_type r
  else w' = w /\ v = max_val_v.
Proof.
  rewrite update_best_eq.
  destruct (improved eval_type r max_val_v).
  - intros H. apply bind_ok_inv in H as ([] & w1 & Hs & Hr).
    apply save_model_inv in Hs as [Hs ->]. by inversion Hr.
  - intros H. by inversion H.
Qed.
End Components.

(** ** One iteration of the epoch loop *)

Section Epoch.
Context `{F : Framework}.

Lemma bind_modify {S B} (f : S -> S) (k : unit -> M S B) s :
  bind (modify f) k s = k tt (f s).
Proof. reflexivity. Qed.

Lemma bind_gets {S A B} (f : S -> A) (k : A -> M S B) s :
  bind (gets f) k s = k (f s) s.
Proof. reflexivity. Qed.

Lemma bind_emit {B} ev (k : unit -> M world B) w :
  bind (emit ev) k w = k tt (set_genv (emit_env ev (genv w)) w).
Proof. reflexivity. Qed.

Lemma lr_scheduler_step_eq (w : world) :
  lr_scheduler_step w
    = (fst (scheduler_step (lr_scheduler w) (optimizer w)), stepped w).
Proof.
  unfold lr_scheduler_step, stepped. by destruct (scheduler_step _ _).
Qed.

Lemma bind_step_ok {B} (k : unit -> M world B) (w : world) :
  step_ok w = true -> bind lr_scheduler_step k w = k tt (stepped w).
Proof.
  unfold step_ok, bind. rewrite lr_scheduler_step_eq.
  by destruct (fst _) as [[]|].
Qed.

Lemma bind_step_inv {B} (k : unit -> M world B) (w : world) b w' :
  bind lr_scheduler_step k w = (Ok b, w') ->
  step_ok w = true /\ k tt (stepped w) = (Ok b, w').
Proof.
  unfold step_ok, bind. rewrite lr_scheduler_step_eq.
  by destruct (fst _) as [[]|].
Qed.

Lemma bind_step_raise {B} (k : unit -> M world B) (w : world) :
  step_ok w = false ->
  exists e,
    fst (scheduler_step (lr_scheduler w) (optimizer w)) = Raise e /\
    bind lr_scheduler_step k w = (Raise e, stepped w).
Proof.
  unfold step_ok, bind. rewrite lr_scheduler_step_eq.
  destruct (fst _) as [[]|e]; [done|]. by exists e.
Qed.

Lemma out_after_last save_path epoch loss (w : world) :
  out (genv (after_last save_path epoch loss w)) =
  (out (genv w) ++ head_events save_path epoch loss w)%list.
Proof.
  unfold after_last, saved, head_events, write_env, emit_env, append. simpl.
  by rewrite <- !app_assoc.
Qed.

(** Everything a completed iteration did. *)
Lemma epoch_body_full save_path train_loader val_loader epoch_start
    epoch_max epoch_val max_val_v epoch (w : world) v w' :
  epoch_body save_path train_loader val_loader epoch_start epoch_max
    epoch_val max_val_v epoch w = (Ok v, w') ->
  exists loss w1 b,
    train (option_map (fun l => loader_pass l epoch) train_loader) w
      = (Ok loss, w1) /\
    step_ok w1 = true /\
    has_specs (config (genv w)) = true /\
    is_val_epoch epoch_val epoch = Ok b /\
    let w2 := stepped w1 in
    let w3 := after_last save_path epoch loss w2 in
    if b then
      exists r eval_type,
        eval_psnr (option_map (fun l => loader_pass l epoch) val_loader)
          (dict_get_or_none "eval_type" (config (genv w3))) w3
          = (Ok r, evaluated w3) /\
        dict_get "eval_type" (config (genv w3)) = Some eval_type /\
        v = (if improved eval_type r max_val_v
             then active_metric eval_type r else max_val_v) /\
        out (genv w') =
          (out (genv w) ++ head_events save_path epoch loss w2
           ++ val_events r epoch
           ++ best_events save_path eval_type r max_val_v (evaluated w3)
           ++ [EvLog (log_line epoch epoch_start epoch_max loss r); EvFlush])%list /\
        fs (genv w') =
          (if improved eval_type r max_val_v
           then <[ckpt_path save_path "best" :=
                    TorchFile (checkpoint_of (config (genv w3))
                                 (model_eval (model w3)) (optimizer w3))]>
                  (fs (genv w3))
           else fs (genv w3)) /\
        config (genv w') =
          (if improved eval_type r max_val_v
           then saved_config (config (genv w3)) (model_eval (model w3))
                  (optimizer w3)
           else config (genv w3))
    else
      v = max_val_v /\ w' = w3 /\
      out (genv w') = (out (genv w) ++ head_events save_path epoch loss w2)%list.
Proof.
  intros H. unfold epoch_body in H.
  apply bind_ok_inv in H as (loss & w1 & Htrain & H).
  pose proof (train_genv
    (option_map (fun l => loader_pass l epoch) train_loader) w) as Hgenv.
  rewrite Htrain in Hgenv. simpl in Hgenv.
  apply bind_step_inv in H as [Hstep H].
  rewrite bind_gets, bind_emit, bind_emit in H.
  apply bind_ok_inv in H as ([] & w3 & Hsave & H).
  apply save_model_inv in Hsave as [Hspecs Hw3].
  change (w3 = after_last save_path epoch loss (stepped w1)) in Hw3.
  simpl in Hspecs. rewrite Hgenv in Hspecs.
  exists loss, w1.
  unfold bind at 1, lift in H.
  destruct (is_val_epoch epoch_val epoch) as [b|e]; [|done].
  exists b. split; [done|]. split; [done|]. split; [done|]. split; [done|].
  cbv zeta. rewrite <- Hw3.
  assert (Hout3 : out (genv w3) =
            (out (genv w) ++ head_events save_path epoch loss (stepped w1))%list).
  { rewrite Hw3, out_after_last. simpl. by rewrite Hgenv. }
  destruct b.
  - unfold validate in H. rewrite bind_gets in H.
    apply bind_ok_inv in H as (r & w4 & Heval & H).
    pose proof (eval_psnr_world
      (option_map (fun l => loader_pass l epoch) val_loader)
      (dict_get_or_none "eval_type" (config (genv w3))) w3) as Hw4.
    rewrite Heval in Hw4. simpl in Hw4. subst w4.
    rewrite !bind_emit in H.
    unfold bind at 1, lift, getitem in H.
    destruct (dict_get "eval_type" (config (genv w3))) as [et|] eqn:Het;
      [|done].
    apply bind_ok_inv in H as (v' & w5 & Hbest & H).
    rewrite !bind_emit in H. inversion H; subst v' w'; clear H.
    exists r, et. split; [done|]. split; [done|].
    apply update_best_inv in Hbest.
    unfold best_events.
    destruct (improved et r max_val_v).
    + destruct Hbest as (_ & -> & ->). split; [done|].
      split; [|done].
      unfold saved, write_env, emit_env, append, val_events. simpl.
      rewrite Hout3. by rewrite <- !app_assoc.
    + destruct Hbest as (-> & ->). split; [done|].
      split; [|done].
      unfold emit_env, append, val_events. simpl.
      rewrite Hout3. by rewrite <- !app_assoc.
  - inversion H; subst. done.
Qed.

Lemma epoch_body_inv save_path train_loader val_loader epoch_start
    epoch_max epoch_val max_val_v epoch (w : world) v w' :
  epoch_body save_path train_loader val_loader epoch_start epoch_max
    epoch_val max_val_v epoch w = (Ok v, w') ->
  exists loss w1 b,
    train (option_map (fun l => loader_pass l epoch) train_loader) w
      = (Ok loss, w1) /\
    step_ok w1 = true /\
    has_specs (config (genv w)) = true /\
    is_val_epoch epoch_val epoch = Ok b /\
    let w2 := stepped w1 in
    let w3 := after_last save_path epoch loss w2 in
    if b then
      exists r eval_type,
        eval_psnr (option_map (fun l => loader_pass l epoch) val_loader)
          (dict_get_or_none "eval_type" (config (genv w3))) w3
          = (Ok r, evaluated w3) /\
        dict_get "eval_type" (config (genv w3)) = Some eval_type /\
        v = (if improved eval_type r max_val_v
             then active_metric eval_type r else max_val_v) /\
        out (genv w') =
          (out (genv w) ++ head_events save_path epoch loss w2
           ++ val_events r epoch
           ++ best_events save_path eval_type r max_val_v (evaluated w3)
           ++ [EvLog (log_line epoch epoch_start epoch_max loss r); EvFlush])%list
    else
      v = max_val_v /\ w' = w3 /\
      out (genv w') = (out (genv w) ++ head_events save_path epoch loss w2)%list.
Proof.
  intros H.
  apply epoch_body_full in H as (loss & w1 & b & Ht & Hs & Hsp & Hv & H).
  exists loss, w1, b. repeat (split; [done|]).
  cbv zeta in *. destruct b; [|done].
  destruct H as (r & et & H1 & H2 & H3 & H4 & _). by exists r, et.
Qed.

(** The state an iteration starts the validation in has the configuration
    of the start of the iteration, but for the state dicts of the specs. *)
Lemma after_last_config save_path epoch loss (w : world) :
  config (genv (after_last save_path epoch loss w))
    = saved_config (config (genv w)) (model w) (optimizer w).
Proof. reflexivity. Qed.

Lemma after_last_fs save_path epoch loss (w : world) :
  fs (genv (after_last save_path epoch loss w))
    = <[ckpt_path save_path "last" :=
          TorchFile (checkpoint_of (config (genv w)) (model w) (optimizer w))]>
        (fs (genv w)).
Proof. reflexivity. Qed.

(** Whatever its outcome, a validation leaves the files as they were or
    writes [model_best.pth]. *)
Lemma validate_fs_any save_path val_loader epoch_start epoch_max log_info
    max_val_v epoch (w : world) :
  fs (genv (snd (validate save_path val_loader epoch_start epoch_max
                   log_info max_val_v epoch w))) = fs (genv w)
  \/ exists obj,
       fs (genv (snd (validate save_path val_loader epoch_start epoch_max
                        log_info max_val_v epoch w)))
         = <[ckpt_path save_path "best" := TorchFile obj]> (fs (genv w)).
Proof.
  remember (validate save_path val_loader epoch_start epoch_max log_info
              max_val_v epoch w) as res eqn:Hres.
  unfold validate in Hres. rewrite bind_gets in Hres.
  unfold bind at 1 in Hres.
  pose proof (eval_psnr_world
    (option_map (fun l => loader_pass l epoch) val_loader)
    (dict_get_or_none "eval_type" (config (genv w))) w) as Hw4.
  destruct (eval_psnr _ _ w) as [[r|e] w4]; simpl in Hw4; subst w4;
    [|subst res; by left].
  rewrite !bind_emit in Hres. unfold bind at 1, lift, getitem in Hres.
  destruct (dict_get "eval_type" (config (genv w))) as [et|];
    [|subst res; by left].
  unfold bind at 1 in Hres. rewrite update_best_eq in Hres.
  destruct (improved et r max_val_v).
  - unfold bind at 1 in Hres.
    match type of Hres with context [save_model save_path "best" ?wx] =>
      pose proof (save_model_fs save_path "best" wx) as Hfs;
      destruct (save_model save_path "best" wx) as [[[]|e] w5]
    end; subst res; exact Hfs.
  - subst res. by left.
Qed.
End Epoch.

(** ** The relations the loop preserves *)

Section Relations.
Context `{F : Framework}.

Lemma sent_only_refl P (e : env) : sent_only P e e.
Proof. exists []. by rewrite app_nil_r. Qed.

Lemma sent_only_trans P (e1 e2 e3 : env) :
  sent_only P e1 e2 -> sent_only P e2 e3 -> sent_only P e1 e3.
Proof.
  intros (t1 & H1 & F1) (t2 & H2 & F2). exists (t1 ++ t2)%list. split.
  - by rewrite H2, H1, <- app_assoc.
  - by apply Forall_app.
Qed.

Lemma sent_only_emit (P : event -> Prop) ev (e : env) :
  P ev -> sent_only P e (emit_env ev e).
Proof. intros H. exists [ev]. split; [done | by constructor]. Qed.

Lemma sent_only_write (P : event -> Prop) path f (e : env) :
  P (EvWrite path f) -> sent_only P e (write_env path f e).
Proof. intros H. exists [EvWrite path f]. split; [done | by constructor]. Qed.

Lemma config_frame_refl (e : env) : config_frame e e.
Proof. by intros k. Qed.

Lemma config_frame_trans (e1 e2 e3 : env) :
  config_frame e1 e2 -> config_frame e2 e3 -> config_frame e1 e3.
Proof. intros H1 H2 k Hm Ho. by rewrite H2, H1. Qed.

Lemma config_frame_spec (e : env) k v :
  k = "model" \/ k = "optimizer" ->
  config_frame e (set_config (dict_set k v (config e)) e).
Proof.
  intros Hk j Hm Ho. simpl. apply dict_get_set_ne. by destruct Hk; subst.
Qed.

Lemma spec_frame_refl (e : env) : spec_frame e e.
Proof. intros k d _ H. by exists d. Qed.

Lemma spec_frame_trans (e1 e2 e3 : env) :
  spec_frame e1 e2 -> spec_frame e2 e3 -> spec_frame e1 e3.
Proof.
  intros H1 H2 k d Hk Hd.
  destruct (H1 k d Hk Hd) as (d1 & Hd1 & Hsame1).
  destruct (H2 k d1 Hk Hd1) as (d2 & Hd2 & Hsame2).
  exists d2. split; [done|]. intros j Hj. by rewrite Hsame2, Hsame1.
Qed.

Lemma spec_frame_spec (e : env) k d sd :
  dict_get k (config e) = Some (PDict d) ->
  spec_frame e
    (set_config
       (dict_set k (PDict (dict_set "sd" (PStateDict sd) d)) (config e)) e).
Proof.
  intros Hd k' d' _ Hd'. simpl.
  destruct (String.eqb k k') eqn:E.
  - apply String.eqb_eq in E. subst k'.
    rewrite dict_get_set_eq. eexists. split; [done|].
    intros j Hj. rewrite dict_get_set_ne by done. congruence.
  - apply String.eqb_neq in E. rewrite dict_get_set_ne by done.
    by exists d'.
Qed.

Lemma file_kept_refl path (e : env) : file_kept path e e.
Proof. by intros f. Qed.

Lemma file_kept_trans path (e1 e2 e3 : env) :
  file_kept path e1 e2 -> file_kept path e2 e3 -> file_kept path e1 e3.
Proof. intros H1 H2 f Hf. auto. Qed.

Lemma string_app_inv_head (p a b : string) : p ++ a = p ++ b -> a = b.
Proof.
  induction p as [|c p IH]; simpl; [done|].
  intros H. apply IH. by inversion H.
Qed.

Lemma path_join_inj (dir a b : string) :
  path_join dir a = path_join dir b -> a = b.
Proof.
  unfold path_join.
  destruct (String.eqb dir ""); [done|].
  destruct (ends_with_slash dir); intros H.
  - by apply string_app_inv_head in H.
  - apply string_app_inv_head in H. by apply (string_app_inv_head "/").
Qed.

Lemma ckpt_path_not_config save_path name :
  ckpt_path save_path name <> path_join save_path "config.yaml".
Proof.
  unfold ckpt_path. intros H. apply path_join_inj in H. discriminate H.
Qed.

Lemma file_kept_save save_path name obj (e : env) :
  file_kept (path_join save_path "config.yaml") e
    (write_env (ckpt_path save_path name) (TorchFile obj) e).
Proof.
  intros f Hf. simpl.
  rewrite lookup_insert_ne; [done | apply ckpt_path_not_config].
Qed.

Lemma ckpt_path_best_not_last save_path :
  String.eqb (ckpt_path save_path "best") (ckpt_path save_path "last") = false.
Proof.
  apply String.eqb_neq. unfold ckpt_path. intros H.
  apply path_join_inj in H. discriminate H.
Qed.

(** *** [range] *)

Lemma range_length (a b : Z) : length (range a b) = Z.to_nat (b - a).
Proof. unfold range. by rewrite length_map, length_seq. Qed.

Lemma range_nth (a b : Z) (i : nat) :
  (i < Z.to_nat (b - a))%nat -> nth i (range a b) 0 = a + Z.of_nat i.
Proof.
  intros Hi. unfold range.
  rewrite (nth_indep _ 0 (a + Z.of_nat 0)) by (by rewrite length_map, length_seq).
  rewrite (map_nth (fun i => a + Z.of_nat i)), seq_nth by done. done.
Qed.

(** *** The loop *)

Lemma lr_steps_app (l1 l2 : list event) :
  lr_steps (l1 ++ l2) = (lr_steps l1 ++ lr_steps l2)%list.
Proof. unfold lr_steps. apply flat_map_app. Qed.

Lemma lr_steps_best save_path eval_type r max_val_v (w : world) :
  lr_steps (best_events save_path eval_type r max_val_v w) = [].
Proof. unfold best_events. by destruct (improved _ _ _). Qed.

(** Each completed iteration records the learning rate once, at its epoch. *)
Lemma epoch_body_lr_steps save_path train_loader val_loader epoch_start
    epoch_max epoch_val max_val_v epoch (w : world) v w' :
  epoch_body save_path train_loader val_loader epoch_start epoch_max
    epoch_val max_val_v epoch w = (Ok v, w') ->
  lr_steps (out (genv w')) = (lr_steps (out (genv w)) ++ [epoch])%list.
Proof.
  intros H. apply epoch_body_inv in H as (loss & w1 & b & _ & _ & _ & _ & H).
  cbv zeta in H. destruct b.
  - destruct H as (r & et & _ & _ & _ & ->).
    by rewrite !lr_steps_app, lr_steps_best.
  - destruct H as (_ & _ & ->). by rewrite lr_steps_app.
Qed.

Lemma loop_lr_steps save_path train_loader val_loader epoch_start
    epoch_max epoch_val (epochs : list Z) :
  forall max_val_v (w : world) v w',
  foldM (epoch_body save_path train_loader val_loader epoch_start epoch_max
           epoch_val) epochs max_val_v w = (Ok v, w') ->
  lr_steps (out (genv w')) = (lr_steps (out (genv w)) ++ epochs)%list.
Proof.
  induction epochs as [|epoch epochs IH]; intros mv w v w' H; simpl in H.
  - inversion H. by rewrite app_nil_r.
  - apply bind_ok_inv in H as (mv1 & w1 & H1 & H2).
    apply epoch_body_lr_steps in H1. apply IH in H2.
    by rewrite H2, H1, <- app_assoc.
Qed.
End Relations.

(** ** prepare_training and main *)

Section Main.
Context `{F : Framework}.

Lemma prepare_training_spec (e : env) :
  prepare_training e =
    (match fresh (config e) with
     | Raise x => Raise x
     | Ok (m, o, s) =>
         match first_epoch (config e) with
         | Raise x => Raise x
         | Ok epoch_start => Ok (m, o, epoch_start, s)
         end
     end, e).
Proof.
  unfold prepare_training, fresh, first_epoch.
  unfold bind at 1. unfold gets at 1.
  destruct (is_none (dict_get_or_none "resume" (config e))); simpl;
    unfold bind, lift, ret;
    destruct (getitem "model" (config e)) as [ms|]; try done;
    destruct (models_make ms) as [m|]; try done;
    destruct (getitem "optimizer" (config e)) as [os|]; try done;
    destruct (make_optimizer (model_cuda m) os) as [o|]; try done.
  by destruct (add1 _).
Qed.

Lemma fresh_ignores_resume (cfg : list (string * pyval state_dict)) v :
  fresh (dict_set "resume" v cfg) = fresh cfg.
Proof.
  unfold fresh, getitem, dict_get_or_none.
  by rewrite !dict_get_set_ne.
Qed.

Lemma make_data_loaders_env (e : env) : snd (make_data_loaders e) = e.
Proof.
  unfold make_data_loaders, bind, gets, lift, ret.
  destruct (make_data_loader _); [|done].
  by destruct (make_data_loader _).
Qed.

Lemma dict_get_inject_data_norm k (cfg : list (string * pyval state_dict)) :
  k <> "data_norm" ->
  dict_get k (inject_data_norm cfg) = dict_get k cfg.
Proof.
  intros Hk. unfold inject_data_norm.
  destruct (is_none _); [|done]. by rewrite dict_get_set_ne.
Qed.

(** [main] up to [prepare_training]: the configuration is dumped as it
    was loaded, then [data_norm] is injected. *)
Lemma main_setup_env save_path (e : env) :
  let (r, e') := main_setup save_path e in
  fs e' = <[path_join save_path "config.yaml" := YamlFile (config e)]> (fs e)
  /\ out e' = (out e ++ [EvWrite (path_join save_path "config.yaml")
                            (YamlFile (config e))])%list
  /\ (config e' = config e \/ config e' = inject_data_norm (config e))
  /\ (is_ok r = true -> config e' = inject_data_norm (config e)).
Proof.
  unfold main_setup. rewrite bind_gets, bind_modify.
  unfold bind at 1.
  pose proof (make_data_loaders_env
    (write_env (path_join save_path "config.yaml") (YamlFile (config e)) e))
    as Hl.
  destruct (make_data_loaders _) as [[loaders|x] e1]; simpl in Hl; subst e1.
  2:{ simpl. repeat split; auto; done. }
  rewrite bind_modify. unfold bind, ret.
  rewrite prepare_training_spec. simpl.
  destruct (match fresh _ with Ok _ => _ | Raise _ => _ end); simpl;
    repeat split; auto; done.
Qed.

Lemma lr_steps_torch_load path (e : env) :
  lr_steps (out (snd (torch_load path e))) = lr_steps (out e).
Proof.
  unfold torch_load. destruct path; try done.
  unfold bind, modify, gets. simpl.
  destruct (fs e !! s) as [[]|]; simpl; unfold append;
    by rewrite lr_steps_app, app_nil_r.
Qed.

(** A run of the loop that completes went through the epochs of the range,
    one iteration each. *)
Lemma main_loop_inv save_path train_loader val_loader epoch_start
    (w : world) v w' :
  main_loop save_path train_loader val_loader epoch_start w = (Ok v, w') ->
  exists epoch_max epochs,
    dict_get "epoch_max" (config (genv w)) = Some epoch_max /\
    epoch_range epoch_start epoch_max = Ok epochs /\
    lr_steps (out (genv w')) = (lr_steps (out (genv w)) ++ epochs)%list.
Proof.
  intros H. unfold main_loop in H. rewrite bind_gets in H.
  unfold bind at 1, lift, getitem in H.
  destruct (dict_get "epoch_max" (config (genv w))) as [em|] eqn:Hem; [|done].
  rewrite !bind_modify in H.
  apply bind_ok_inv in H as ([] & ws & Hsam & H).
  assert (Hws : lr_steps (out (genv ws)) = lr_steps (out (genv w))).
  { destruct (dict_mem "sam_checkpoint" (config (genv w))).
    - apply bind_ok_inv in Hsam as (path & w1 & Hp & Hsam).
      unfold lift in Hp. inversion Hp; subst w1; clear Hp.
      apply bind_ok_inv in Hsam as (obj & w2 & Hload & Hsam).
      match type of Hload with
      | (let (_, _) := torch_load ?p ?e in _) = _ =>
          pose proof (lr_steps_torch_load p e) as Hl;
          destruct (torch_load p e) as [r e2]
      end.
      inversion Hload; subst; clear Hload.
      rewrite bind_gets in Hsam.
      apply bind_ok_inv in Hsam as (m & w3 & Hm & Hsam).
      unfold lift in Hm. inversion Hm; subst; clear Hm.
      inversion Hsam; subst. exact Hl.
    - by inversion Hsam. }
  rewrite bind_modify in H.
  unfold bind at 1, lift, getitem in H.
  unfold bind at 1, lift, getitem in H.
  destruct (dict_get "eval_type" (config (genv w))) as [et|]; [|done].
  unfold bind at 1, lift in H.
  destruct (epoch_range epoch_start em) as [epochs|] eqn:Hr; [|done].
  apply loop_lr_steps in H. simpl in H.
  exists em, epochs. split; [done|]. split; [done|].
  by rewrite H, Hws.
Qed.

(** [main] after [prepare_training], in full: before the loop it can only
    load the pretrained weights; then either it raises, or it is the loop
    over the epochs of the range, started with the tracker at its initial
    value. *)
Lemma main_loop_cases save_path train_loader val_loader epoch_start
    (w : world) :
  exists pre ws,
    Forall (fun ev => is_load ev = true) pre /\
    genv ws = Env (config (genv w)) (fs (genv w)) (out (genv w) ++ pre) /\
    ((exists e,
        main_loop save_path train_loader val_loader epoch_start w
          = (Raise e, ws) /\
        (dict_get "eval_type" (config (genv w)) = None \/
         dict_get "epoch_max" (config (genv w)) = None \/
         dict_mem "sam_checkpoint" (config (genv w)) = true \/
         exists epoch_max,
           dict_get "epoch_max" (config (genv w)) = Some epoch_max /\
           epoch_range epoch_start epoch_max = Raise e))
     \/ (exists epoch_max eval_type epochs,
           dict_get "epoch_max" (config (genv w)) = Some epoch_max /\
           dict_get "eval_type" (config (genv w)) = Some eval_type /\
           epoch_range epoch_start epoch_max = Ok epochs /\
           main_loop save_path train_loader val_loader epoch_start w
             = foldM (epoch_body save_path train_loader val_loader
                        (default 0 (as_int epoch_start)) epoch_max
                        (dict_get_or_none "epoch_val" (config (genv w))))
                     epochs (init_max_val_v eval_type) ws)).
Proof.
  pattern (main_loop save_path train_loader val_loader epoch_start w).
  match goal with |- ?P _ => set (Q := P) end.
  assert (Hfail : forall e pre ws,
            Forall (fun ev => is_load ev = true) pre ->
            genv ws = Env (config (genv w)) (fs (genv w))
                        (out (genv w) ++ pre) ->
            (dict_get "eval_type" (config (genv w)) = None \/
             dict_get "epoch_max" (config (genv w)) = None \/
             dict_mem "sam_checkpoint" (config (genv w)) = true \/
             exists epoch_max,
               dict_get "epoch_max" (config (genv w)) = Some epoch_max /\
               epoch_range epoch_start epoch_max = Raise e) ->
            Q (Raise e, ws)).
  { intros e pre ws Hpre Hws Hwhy. exists pre, ws.
    split; [done|]. split; [done|]. left. by exists e. }
  assert (Hw : genv w = Env (config (genv w)) (fs (genv w))
                          (out (genv w) ++ [])).
  { rewrite app_nil_r. by destruct (genv w). }
  unfold main_loop. rewrite bind_gets.
  unfold bind at 1, lift, getitem.
  destruct (dict_get "epoch_max" (config (genv w))) as [em|] eqn:Hem;
    [|apply (Hfail _ []); auto].
  rewrite !bind_modify.
  match goal with |- Q (bind _ ?k ?wx) =>
    assert (Hcont : forall w2 pre,
              Forall (fun ev => is_load ev = true) pre ->
              genv w2 = Env (config (genv w)) (fs (genv w))
                          (out (genv w) ++ pre) ->
              Q (k tt w2));
    [|set (rest := k) in *; clearbody rest;
      set (w1 := wx) in *;
      assert (Hw1 : genv w1 = genv w) by reflexivity;
      clearbody w1]
  end.
  { intros w2 pre Hpre Hw2. rewrite bind_modify.
    unfold bind at 1, lift, getitem. simpl.
    unfold bind at 1, lift, getitem.
    destruct (dict_get "eval_type" (config (genv w))) as [et|] eqn:Het;
      [|apply (Hfail _ pre); auto].
    unfold bind at 1, lift.
    destruct (epoch_range epoch_start em) as [epochs|e] eqn:Hr.
    - exists pre. eexists. split; [done|].
      refine (conj _ (or_intror _)); cycle 1.
      { exists em, et, epochs. done. }
      exact Hw2.
    - apply (Hfail _ pre); [done | done|].
      right. right. right. by exists em. }
  unfold bind at 1.
  destruct (dict_mem "sam_checkpoint" (config (genv w))) eqn:Hmem.
  2:{ apply (Hcont w1 []); [done | by rewrite Hw1]. }
  unfold bind at 1, lift, getitem.
  destruct (dict_get "sam_checkpoint" (config (genv w))) as [path|];
    [|apply (Hfail _ []); [done | by rewrite Hw1 | auto]].
  unfold bind at 1.
  assert (Hload : forall p : string,
            genv (set_genv (emit_env (EvLoad p) (genv w1)) w1)
            = Env (config (genv w)) (fs (genv w)) (out (genv w) ++ [EvLoad p])).
  { intros p. simpl. by rewrite Hw1. }
  destruct path as [| | | |p| | |];
    try (apply (Hfail _ []); [done | by rewrite Hw1 | auto]).
  unfold torch_load, bind, modify, gets, raise, ret. simpl.
  destruct (fs (genv w1) !! p) as [[doc|obj]|]; simpl;
    try (apply (Hfail _ [EvLoad p]);
         [by repeat constructor | apply Hload | auto]).
  unfold lift.
  destruct (load_state_dict obj (model w1)) as [m'|]; simpl.
  - apply (Hcont _ [EvLoad p]); [by repeat constructor | apply Hload].
  - apply (Hfail _ [EvLoad p]); [by repeat constructor | apply Hload | auto].
Qed.

Lemma main_setup_loaders save_path (e : env) tl vl p e' :
  main_setup save_path e = (Ok (tl, vl, p), e') ->
  make_data_loader (dict_get_or_none "train_dataset" (config e)) = Ok tl
  /\ make_data_loader (dict_get_or_none "val_dataset" (config e)) = Ok vl.
Proof.
  unfold main_setup. rewrite bind_gets, bind_modify. intros H.
  apply bind_ok_inv in H as (loaders & e1 & Hl & H).
  rewrite bind_modify in H.
  apply bind_ok_inv in H as (p' & e2 & _ & H).
  inversion H; subst; clear H.
  revert Hl. unfold make_data_loaders. rewrite bind_gets. simpl.
  unfold bind, lift, ret.
  destruct (make_data_loader (dict_get_or_none "train_dataset" (config e)))
    as [tl'|]; [|done].
  destruct (make_data_loader (dict_get_or_none "val_dataset" (config e)))
    as [vl'|]; [|done].
  by intros [= <- <-].
Qed.
End Main.

(** * The statements of the specification *)

Section Claims.
Context `{F : Framework}.

Abbreviation value := (pyval state_dict).
Abbreviation dict := (list (string * value)).
Abbreviation batch := (list (string * tensor)).



(** C10 (amended).  On a loader that yields no batch, [train] raises (the
    mean of an empty list) instead of returning an epoch loss, and so does
    the iteration of the epoch loop that called it: in a run that ends
    normally, every epoch the run went through had a training loader that
    yielded a batch.  A run needs no more than that: when the range of its
    epochs is empty, the loop does what it does without any training
    loader. *)
Theorem C10_train_empty_loader :
  (forall w : world,
     train (Some []) w = (Raise StatisticsError, trained [] w))
  /\ (forall (w : world) save_path (train_loader : DataLoader) val_loader
         epoch_start epoch_max epoch_val max_val_v epoch,
        loader_pass train_loader epoch = [] ->
        fst (epoch_body save_path (Some train_loader) val_loader epoch_start
               epoch_max epoch_val max_val_v epoch w)
          = Raise StatisticsError)
  /\ (forall (config_ : dict) save_path disk v,
        fst (main config_ save_path disk) = Ok v ->
        forall epoch,
          In epoch (lr_steps (out (snd (main config_ save_path disk)))) ->
          exists train_loader,
            make_data_loader (dict_get_or_none "train_dataset" config_)
              = Ok (Some train_loader) /\
            loader_pass train_loader epoch <> [])
  /\ (forall save_path train_loader val_loader epoch_start (w : world),
        (forall epoch_max,
           dict_get "epoch_max" (config (genv w)) = Some epoch_max ->
           epoch_range epoch_start epoch_max = Ok []) ->
        main_loop save_path train_loader val_loader epoch_start w
          = main_loop save_path None val_loader epoch_start w).
Proof.
  split; [intros w; by rewrite train_spec|].
  split; [|split].
  - intros w sp tl vl es em ev mv epoch Hempty.
    unfold epoch_body. simpl. rewrite Hempty.
    erewrite bind_raise; [done|]. by rewrite train_spec.
  - intros config_ sp disk v H epoch Hin. unfold main in H, Hin.
    pose proof (main_setup_env sp (Env config_ disk [])) as Hs.
    destruct (main_setup sp (Env config_ disk [])) as [[x|err] e1] eqn:Hm;
      [|done].
    destruct x as [[tl vl] p].
    apply main_setup_loaders in Hm as [Htl _]. simpl in Htl.
    destruct p as [[[m o] es] s].
    simpl in Hs. destruct Hs as (_ & Hout & _ & _).
    destruct (main_loop_cases sp tl vl es (World e1 m o s))
      as (pre & ws & Hpre & Hws
          & [(e & Hl & _)|(em & et & ep & _ & _ & _ & Hl)]).
    { rewrite Hl in H. done. }
    destruct (foldM _ ep _ ws) as [r w'] eqn:Hf.
    rewrite Hl in H, Hin. simpl in H, Hin. subst r.
    pose proof (loop_lr_steps _ _ _ _ _ _ _ _ _ _ _ Hf) as Hsteps.
    rewrite Hws in Hsteps. simpl in Hsteps.
    rewrite Hout, lr_steps_app in Hsteps. simpl in Hsteps.
    assert (Hnone : lr_steps pre = []).
    { clear -Hpre. induction Hpre as [|ev pre Hev _ IH]; [done|].
      destruct ev; try done. }
    rewrite Hnone in Hsteps. simpl in Hsteps.
    rewrite Hsteps in Hin.
    destruct (foldM_ok_each _ _ _ _ _ _ Hf epoch Hin)
      as (mv & w1 & mv' & w1' & Hbody).
    apply epoch_body_inv in Hbody as (loss & w2 & b & Htrain & _).
    apply train_ok_nonempty in Htrain as (bs & Hbs & Hne).
    destruct tl as [tl|]; [|done]. exists tl. split; [done|].
    simpl in Hbs. by injection Hbs as ->.
  - intros sp tl vl es w Hrange. unfold main_loop.
    apply bind_congr. intros cfg w1 Hcfg.
    apply bind_congr. intros em w2 Hem.
    apply bind_congr. intros [] w3 _.
    apply bind_congr. intros [] w4 _.
    apply bind_congr. intros [] w5 _.
    apply bind_congr. intros [] w6 _.
    apply bind_congr. intros em' w7 Hem'.
    apply bind_congr. intros et w8 _.
    apply bind_congr. intros epochs w9 He.
    injection Hcfg as <- <-.
    unfold lift, getitem in Hem'.
    destruct (dict_get "epoch_max" (config (genv w))) as [x|] eqn:Hx;
      [|done].
    injection Hem' as <- <-.
    unfold lift in He. rewrite (Hrange x eq_refl) in He.
    by injection He as <- <-.
Qed.

(** C4.  The dispatcher of [eval_psnr] knows exactly four evaluation types;
    each selects a metric function and four metric names, and the function
    is applied to the concatenation of the predictions and to the
    concatenation of the ground truths accumulated over the batches. *)
Theorem C4_metric_dispatch :
  metric_bundle (PStr "f1") = Some (calc_f1, ("f1", "auc", "none", "none"))
  /\ metric_bundle (PStr "fmeasure")
       = Some (calc_fmeasure, ("f_mea", "mae", "none", "none"))
  /\ metric_bundle (PStr "ber")
       = Some (calc_ber, ("shadow", "non_shadow", "ber", "none"))
  /\ metric_bundle (PStr "cod") = Some (calc_cod, ("sm", "em", "wfm", "mae"))
  /\ (forall eval_type,
        metric_bundle eval_type <> None ->
        eval_type = PStr "f1" \/ eval_type = PStr "fmeasure" \/
        eval_type = PStr "ber" \/ eval_type = PStr "cod")
  /\ (forall (bs : list batch) eval_type (w : world) metric_fn names,
        bs <> [] ->
        forallb batch_ok bs = true ->
        metric_bundle eval_type = Some (metric_fn, names) ->
        eval_psnr (Some bs) eval_type w =
          (Ok (mk_metrics
                 (metric_fn (cat (pred_list_of (model_eval (model w)) bs))
                            (cat (gt_list_of bs)))
                 names),
           evaluated w)).
Proof.
  repeat split; try reflexivity.
  - intros et Hsome. unfold metric_bundle, str_eq in Hsome.
    destruct et as [| | | |s| | |]; try done.
    destruct (String.eqb_spec s "f1"); [subst; auto|].
    destruct (String.eqb_spec s "fmeasure"); [subst; auto|].
    destruct (String.eqb_spec s "ber"); [subst; auto|].
    destruct (String.eqb_spec s "cod"); [subst; auto|]. done.
  - intros bs et w fn names Hne Hok Hb.
    rewrite eval_psnr_spec by done. by rewrite Hb.
Qed.

Lemma metric_bundle_unknown (eval_type : pyval state_dict) :
  known_eval_type eval_type = false -> metric_bundle eval_type = None.
Proof.
  unfold known_eval_type, metric_bundle. intros H.
  repeat (apply orb_false_elim in H as [H ?]).
  by repeat match goal with E : _ = false |- _ => rewrite E; clear E end.
Qed.

(** C5.  With an evaluation type outside the four known ones, [None]
    included, [eval_psnr] never returns a result; once the batches have
    been gone through and concatenated it fails on the unbound
    [metric_fn]. *)
Theorem C5_unknown_eval_type (eval_type : pyval state_dict) :
  known_eval_type eval_type = false ->
  (forall loader (w : world),
     is_ok (fst (eval_psnr loader eval_type w)) = false)
  /\ (forall (bs : list batch) (w : world),
        bs <> [] ->
        forallb batch_ok bs = true ->
        eval_psnr (Some bs) eval_type w =
          (Raise (UnboundLocalError "metric_fn"), evaluated w)).
Proof.
  intros Hunknown. apply metric_bundle_unknown in Hunknown. split.
  - intros loader w. by apply eval_psnr_unbound.
  - intros bs w Hne Hok. rewrite eval_psnr_spec by done.
    by rewrite Hunknown.
Qed.

(** *** The epoch loop *)

Lemma flt_irrefl (x : pyfloat) : flt x x = false.
Proof.
  destruct x as [q| | |]; try done. simpl.
  by rewrite (proj1 (Qeq_alt q q) (Qeq_refl q)).
Qed.

(** A save changes no entry of the configuration but the two specs. *)
Lemma config_after_last save_path epoch loss (w : world) k :
  k <> "model" -> k <> "optimizer" ->
  dict_get k (config (genv (after_last save_path epoch loss w)))
    = dict_get k (config (genv w)).
Proof.
  intros Hm Ho. unfold after_last, saved, saved_config. simpl.
  by rewrite !dict_get_set_ne.
Qed.

(** The loop sends out nothing but what [P] allows, when [P] allows every
    event other than a load. *)
Lemma sent_only_epoch_body (P : event -> Prop) save_path train_loader
    val_loader epoch_start epoch_max epoch_val max_val_v epoch :
  (forall ev, is_load ev = false -> P ev) ->
  preserves (sent_only P)
    (epoch_body save_path train_loader val_loader epoch_start epoch_max
       epoch_val max_val_v epoch).
Proof.
  intros HP. apply preserves_epoch_body.
  - apply sent_only_refl.
  - apply sent_only_trans.
  - intros e ev Hev. apply sent_only_emit. apply HP. by destruct ev.
  - intros e name obj. apply sent_only_write. by apply HP.
  - intros e k d sd _ _. exists []. simpl. by rewrite app_nil_r.
Qed.

Lemma sent_only_validate (P : event -> Prop) save_path val_loader
    epoch_start epoch_max log_info max_val_v epoch :
  (forall ev, is_load ev = false -> P ev) ->
  preserves (sent_only P)
    (validate save_path val_loader epoch_start epoch_max log_info
       max_val_v epoch).
Proof.
  intros HP. apply preserves_validate.
  - apply sent_only_refl.
  - apply sent_only_trans.
  - intros e ev Hev. apply sent_only_emit. apply HP. by destruct ev.
  - intros e name obj. apply sent_only_write. by apply HP.
  - intros e k d sd _ _. exists []. simpl. by rewrite app_nil_r.
Qed.

(** Once the training pass of an iteration and the step of the scheduler
    succeeded and both specs are mappings, the two scalars are sent out and
    the "last" checkpoint is written, whatever happens in the
    validation. *)
Lemma epoch_body_last_written save_path train_loader val_loader epoch_start
    epoch_max epoch_val max_val_v epoch (w : world) loss w1 :
  train (option_map (fun l => loader_pass l epoch) train_loader) w
    = (Ok loss, w1) ->
  step_ok w1 = true ->
  has_specs (config (genv w)) = true ->
  fs (genv (snd (epoch_body save_path train_loader val_loader epoch_start
                   epoch_max epoch_val max_val_v epoch w)))
    !! ckpt_path save_path "last"
    = Some (TorchFile (checkpoint_of (config (genv w)) (model (stepped w1))
                         (optimizer (stepped w1))))
  /\ exists tail,
       out (genv (snd (epoch_body save_path train_loader val_loader
                         epoch_start epoch_max epoch_val max_val_v epoch w))) =
       (out (genv w) ++ head_events save_path epoch loss (stepped w1)
        ++ tail)%list.
Proof.
  intros Htrain Hstep Hspecs.
  pose proof (train_genv
    (option_map (fun l => loader_pass l epoch) train_loader) w) as Hgenv.
  rewrite Htrain in Hgenv. simpl in Hgenv.
  unfold epoch_body. erewrite bind_ok by exact Htrain.
  rewrite bind_step_ok by done.
  rewrite bind_gets, bind_emit, bind_emit.
  erewrite bind_ok.
  2:{ apply save_model_ok. simpl. by rewrite Hgenv. }
  match goal with |- context [saved save_path "last" ?x] =>
    change (saved save_path "last" x)
      with (after_last save_path epoch loss (stepped w1)) end.
  set (w3 := after_last save_path epoch loss (stepped w1)).
  assert (Hfs3 : fs (genv w3) !! ckpt_path save_path "last"
            = Some (TorchFile (checkpoint_of (config (genv w))
                                 (model (stepped w1)) (optimizer (stepped w1))))).
  { unfold w3. rewrite after_last_fs. simpl. rewrite Hgenv.
    apply lookup_insert_eq. }
  split.
  - unfold bind at 1, lift.
    destruct (is_val_epoch epoch_val epoch) as [[|]|]; try exact Hfs3.
    destruct (validate_fs_any save_path val_loader epoch_start epoch_max
                ["epoch " ++ pretty epoch ++ "/" ++ str_int epoch_max;
                 "train G: loss=" ++ fmt4 loss]
                max_val_v epoch w3) as [Hv|(obj & Hv)];
      unfold append in *; simpl in Hv |- *; rewrite Hv; [exact Hfs3|].
    rewrite lookup_insert_ne; [exact Hfs3|].
    apply String.eqb_neq, ckpt_path_best_not_last.
  - match goal with |- context [bind ?m ?k w3] =>
      assert (Hrest : preserves (sent_only (fun _ => True)) (bind m k)) end.
    { apply preserves_bind.
      - apply sent_only_trans.
      - intros w2. apply sent_only_refl.
      - intros [].
        + by apply sent_only_validate.
        + intros w2. apply sent_only_refl. }
    destruct (Hrest w3) as (tail & Htail & _).
    exists tail. rewrite Htail. unfold w3. rewrite out_after_last.
    change (genv (stepped w1)) with (genv w1).
    by rewrite Hgenv, <- app_assoc.
Qed.

(** A completed loop over the epochs up to [epoch] and beyond ran the
    iteration of [epoch] with the tracker the epochs before it left. *)
Lemma foldM_split {S A B} (body : B -> A -> M S B) (l1 : list A) x l2
    acc s acc' s' :
  foldM body (l1 ++ x :: l2)%list acc s = (Ok acc', s') ->
  exists a1 s1 a2 s2,
    foldM body l1 acc s = (Ok a1, s1) /\
    body a1 x s1 = (Ok a2, s2) /\
    foldM body l2 a2 s2 = (Ok acc', s').
Proof.
  rewrite foldM_app. intros H.
  apply bind_ok_inv in H as (a1 & s1 & H1 & H).
  cbn [foldM] in H. apply bind_ok_inv in H as (a2 & s2 & H2 & H3).
  by exists a1, s1, a2, s2.
Qed.

(** C1 (amended).  The best-metric tracker is one scalar carried across the
    epochs.  [main] starts the loop with it at [1e8] for the minimized
    ['ber'] metric and at [-1e18] for every other evaluation type, and the
    loop hands it from each iteration to the next: an iteration starts
    with the tracker the iterations before it ended with.  An iteration
    without validation returns it as it was; an iteration with validation
    returns the new value of the active metric exactly when that value is
    a strict improvement (strictly less than the tracker for ['ber'],
    strictly greater otherwise), and the tracker as it was when it is
    not. *)
Theorem C1_best_metric_tracker save_path train_loader val_loader :
  (forall epoch_start (w : world) v,
     fst (main_loop save_path train_loader val_loader epoch_start w) = Ok v ->
     exists epoch_max eval_type epochs ws,
       dict_get "epoch_max" (config (genv w)) = Some epoch_max /\
       dict_get "eval_type" (config (genv w)) = Some eval_type /\
       epoch_range epoch_start epoch_max = Ok epochs /\
       config (genv ws) = config (genv w) /\
       main_loop save_path train_loader val_loader epoch_start w
         = foldM (epoch_body save_path train_loader val_loader
                    (default 0 (as_int epoch_start)) epoch_max
                    (dict_get_or_none "epoch_val" (config (genv w))))
                 epochs
                 (if str_eq eval_type "ber" then pos_1e8 else neg_1e18)
                 ws)
  /\ (forall epoch_start epoch_max epoch_val (before : list Z) epoch after
         max_val_v (w : world) v w',
        foldM (epoch_body save_path train_loader val_loader epoch_start
                 epoch_max epoch_val)
          (before ++ epoch :: after)%list max_val_v w = (Ok v, w') ->
        exists v1 w1 v2 w2,
          foldM (epoch_body save_path train_loader val_loader epoch_start
                   epoch_max epoch_val) before max_val_v w = (Ok v1, w1) /\
          epoch_body save_path train_loader val_loader epoch_start
            epoch_max epoch_val v1 epoch w1 = (Ok v2, w2) /\
          foldM (epoch_body save_path train_loader val_loader epoch_start
                   epoch_max epoch_val) after v2 w2 = (Ok v, w'))
  /\ (forall epoch_start epoch_max epoch_val max_val_v epoch (w : world) v,
        fst (epoch_body save_path train_loader val_loader epoch_start
               epoch_max epoch_val max_val_v epoch w) = Ok v ->
        exists loss w1 b,
          train (option_map (fun l => loader_pass l epoch) train_loader) w
            = (Ok loss, w1) /\
          is_val_epoch epoch_val epoch = Ok b /\
          if b then
            exists r eval_type,
              fst (eval_psnr
                     (option_map (fun l => loader_pass l epoch) val_loader)
                     (dict_get_or_none "eval_type" (config (genv w)))
                     (after_last save_path epoch loss (stepped w1)))
                = Ok r /\
              dict_get "eval_type" (config (genv w)) = Some eval_type /\
              v = (if str_eq eval_type "ber"
                   then (if flt (result3 r) max_val_v
                         then result3 r else max_val_v)
                   else (if flt max_val_v (result1 r)
                         then result1 r else max_val_v))
          else v = max_val_v)
  /\ (forall x, flt x x = false).
Proof.
  split; [|split; [|split; [|apply flt_irrefl]]].
  - intros es w v H.
    destruct (main_loop_cases save_path train_loader val_loader es w)
      as (pre & ws & _ & Hws
          & [(e & Hl & _)|(em & et & ep & Hem & Het & Hr & Hl)]).
    { by rewrite Hl in H. }
    exists em, et, ep, ws. repeat (split; [done|]).
    split; [by rewrite Hws|].
    rewrite Hl. unfold init_max_val_v. by destruct (str_eq et "ber").
  - intros es em ev before epoch after mv w v w'. apply foldM_split.
  - intros es em ev mv epoch w v H.
    destruct (epoch_body save_path train_loader val_loader es em ev mv
                epoch w) as [r' w'] eqn:Hb.
    simpl in H. subst r'.
    apply epoch_body_inv in Hb as (loss & w1 & b & Htrain & _ & _ & Hval & H).
    pose proof (train_genv
      (option_map (fun l => loader_pass l epoch) train_loader) w) as Hgenv.
    rewrite Htrain in Hgenv. simpl in Hgenv.
    exists loss, w1, b. split; [done|]. split; [done|].
    cbv zeta in H. destruct b; [|by destruct H].
    destruct H as (r & et & Heval & Het & Hv & _).
    unfold dict_get_or_none in *.
    rewrite config_after_last in Heval, Het by done.
    simpl in Heval, Het. rewrite Hgenv in Heval, Het.
    exists r, et. split; [by rewrite Heval|]. split; [done|].
    rewrite Hv. unfold improved, active_metric, fgt.
    by destruct (str_eq et "ber").
Qed.

Lemma checkpoint_pairs (cfg : dict) (m : Model) (o : Optimizer) dm dop :
  dict_get "model" cfg = Some (PDict dm) ->
  dict_get "optimizer" cfg = Some (PDict dop) ->
  exists dm' dop',
    checkpoint_of cfg m o =
      PDict [("model_spec", PDict dm'); ("optimizer_spec", PDict dop')]
    /\ dict_get "sd" dm' = Some (PStateDict (model_state_dict m))
    /\ (forall j, j <> "sd" -> dict_get j dm' = dict_get j dm)
    /\ dict_get "sd" dop' = Some (PStateDict (optimizer_state_dict o))
    /\ (forall j, j <> "sd" -> dict_get j dop' = dict_get j dop).
Proof.
  intros Hm Ho. unfold checkpoint_of, dict_get_or_none.
  rewrite Hm, Ho. simpl. do 2 eexists. split; [done|].
  rewrite !dict_get_set_eq.
  repeat split; try done; intros j Hj; by rewrite dict_get_set_ne.
Qed.

(** C2.  In every iteration of the epoch loop the file [model_last.pth] is
    written: an iteration that completes has written it, and leaves it on
    disk, and so has any iteration whose training pass and scheduler step
    went through, whatever the validation did next.  [model_best.pth] is
    written exactly when a validation ran and the active metric
    ([result1], or [result3] for ['ber']) strictly improved on the
    tracker; otherwise the file at that path is the one the iteration
    found.  Each file written holds the model spec with the model's state
    dict and the optimizer spec with the optimizer's state dict. *)
Theorem C2_checkpoints_written save_path train_loader val_loader epoch_start
    epoch_max epoch_val max_val_v epoch (w : world) :
  (forall v,
     fst (epoch_body save_path train_loader val_loader epoch_start
            epoch_max epoch_val max_val_v epoch w) = Ok v ->
     exists loss w1 b new best,
       train (option_map (fun l => loader_pass l epoch) train_loader) w
         = (Ok loss, w1) /\
       is_val_epoch epoch_val epoch = Ok b /\
       out (genv (snd (epoch_body save_path train_loader val_loader
                         epoch_start epoch_max epoch_val max_val_v epoch w)))
         = (out (genv w) ++ new)%list /\
       List.filter is_write new =
         EvWrite (ckpt_path save_path "last")
           (TorchFile (checkpoint_of (config (genv w)) (model (stepped w1))
                         (optimizer (stepped w1))))
         :: best /\
       fs (genv (snd (epoch_body save_path train_loader val_loader
                        epoch_start epoch_max epoch_val max_val_v epoch w)))
         !! ckpt_path save_path "last"
         = Some (TorchFile (checkpoint_of (config (genv w))
                              (model (stepped w1)) (optimizer (stepped w1)))) /\
       exists improves : bool,
         (if b then
            exists r eval_type,
              fst (eval_psnr
                     (option_map (fun l => loader_pass l epoch) val_loader)
                     (dict_get_or_none "eval_type" (config (genv w)))
                     (after_last save_path epoch loss (stepped w1))) = Ok r /\
              dict_get "eval_type" (config (genv w)) = Some eval_type /\
              improves = improved eval_type r max_val_v
          else improves = false) /\
         if improves then
           best =
             [EvWrite (ckpt_path save_path "best")
                (TorchFile
                   (checkpoint_of (config (genv w))
                      (model_eval (model (stepped w1)))
                      (optimizer (stepped w1))))] /\
           fs (genv (snd (epoch_body save_path train_loader val_loader
                            epoch_start epoch_max epoch_val max_val_v
                            epoch w)))
             !! ckpt_path save_path "best"
             = Some (TorchFile
                       (checkpoint_of (config (genv w))
                          (model_eval (model (stepped w1)))
                          (optimizer (stepped w1))))
         else
           best = [] /\
           fs (genv (snd (epoch_body save_path train_loader val_loader
                            epoch_start epoch_max epoch_val max_val_v
                            epoch w)))
             !! ckpt_path save_path "best"
             = fs (genv w) !! ckpt_path save_path "best")
  /\ (forall loss w1,
        train (option_map (fun l => loader_pass l epoch) train_loader) w
          = (Ok loss, w1) ->
        step_ok w1 = true ->
        has_specs (config (genv w)) = true ->
        fs (genv (snd (epoch_body save_path train_loader val_loader
                         epoch_start epoch_max epoch_val max_val_v epoch w)))
          !! ckpt_path save_path "last"
          = Some (TorchFile (checkpoint_of (config (genv w))
                               (model (stepped w1)) (optimizer (stepped w1))))
        /\ exists tail,
             out (genv (snd (epoch_body save_path train_loader val_loader
                               epoch_start epoch_max epoch_val max_val_v
                               epoch w))) =
             (out (genv w) ++
              [EvScalar "lr" (optimizer_lr (optimizer (stepped w1))) epoch;
               EvScalars "loss" "train G" loss epoch;
               EvWrite (ckpt_path save_path "last")
                 (TorchFile (checkpoint_of (config (genv w))
                               (model (stepped w1))
                               (optimizer (stepped w1))))]
              ++ tail)%list)
  /\ (forall (cfg : dict) (m : Model) (o : Optimizer) dm dop,
        dict_get "model" cfg = Some (PDict dm) ->
        dict_get "optimizer" cfg = Some (PDict dop) ->
        exists dm' dop',
          checkpoint_of cfg m o =
            PDict [("model_spec", PDict dm'); ("optimizer_spec", PDict dop')]
          /\ dict_get "sd" dm' = Some (PStateDict (model_state_dict m))
          /\ (forall j, j <> "sd" -> dict_get j dm' = dict_get j dm)
          /\ dict_get "sd" dop' = Some (PStateDict (optimizer_state_dict o))
          /\ (forall j, j <> "sd" -> dict_get j dop' = dict_get j dop)).
Proof.
  split; [|split; [|apply checkpoint_pairs]].
  - intros v H.
    destruct (epoch_body save_path train_loader val_loader epoch_start
                epoch_max epoch_val max_val_v epoch w) as [r' w'] eqn:Hb.
    simpl in H. subst r'.
    apply epoch_body_full in Hb
      as (loss & w1 & b & Htrain & _ & Hspecs & Hval & H).
    pose proof (train_genv
      (option_map (fun l => loader_pass l epoch) train_loader) w) as Hgenv.
    rewrite Htrain in Hgenv. simpl in Hgenv.
    assert (Hcfg : config (genv (stepped w1)) = config (genv w))
      by (simpl; by rewrite Hgenv).
    assert (Hfsw : fs (genv (stepped w1)) = fs (genv w))
      by (simpl; by rewrite Hgenv).
    assert (Hne : ckpt_path save_path "best" <> ckpt_path save_path "last")
      by apply String.eqb_neq, ckpt_path_best_not_last.
    exists loss, w1, b. cbv zeta in H. cbn [snd]. destruct b.
    + destruct H as (r & et & Heval & Het & _ & Hout & Hfs & _).
      unfold dict_get_or_none in Heval.
      rewrite config_after_last in Heval, Het by done.
      rewrite Hcfg in Heval, Het.
      rewrite after_last_config, after_last_fs, Hcfg, Hfsw in Hfs.
      cbn [model optimizer after_last saved set_genv] in Hfs.
      rewrite checkpoint_of_saved_config in Hfs by done.
      eexists. exists (best_events save_path et r max_val_v
                         (evaluated (after_last save_path epoch loss
                                       (stepped w1)))).
      split; [done|]. split; [done|]. split; [exact Hout|].
      split.
      { unfold head_events, best_events, val_events. rewrite Hcfg.
        simpl. rewrite List.filter_app. simpl. rewrite app_nil_r.
        by destruct (improved et r max_val_v). }
      split.
      { rewrite Hfs. destruct (improved et r max_val_v).
        - rewrite lookup_insert_ne by done. apply lookup_insert_eq.
        - apply lookup_insert_eq. }
      exists (improved et r max_val_v). split.
      { exists r, et.
        split; [unfold dict_get_or_none; by rewrite Heval|]. done. }
      unfold best_events. rewrite Hfs.
      destruct (improved et r max_val_v).
      * split; [|apply lookup_insert_eq].
        cbn [evaluated set_model genv model optimizer].
        rewrite after_last_config, Hcfg.
        cbn [model optimizer after_last saved set_genv].
        by rewrite checkpoint_of_saved_config.
      * split; [done|]. by rewrite lookup_insert_ne.
    + destruct H as (_ & -> & Hout).
      exists (head_events save_path epoch loss (stepped w1)), [].
      split; [done|]. split; [done|]. split; [exact Hout|].
      split; [unfold head_events; by rewrite Hcfg|].
      rewrite after_last_fs, Hcfg, Hfsw.
      split; [apply lookup_insert_eq|].
      exists false. split; [done|]. split; [done|].
      by rewrite lookup_insert_ne.
  - intros loss w1 Htrain Hstep Hspecs.
    pose proof (train_genv
      (option_map (fun l => loader_pass l epoch) train_loader) w) as Hgenv.
    rewrite Htrain in Hgenv. simpl in Hgenv.
    destruct (epoch_body_last_written save_path train_loader val_loader
                epoch_start epoch_max epoch_val max_val_v epoch w loss w1
                Htrain Hstep Hspecs) as (Hfs & tail & Htail).
    split; [exact Hfs|].
    exists tail. rewrite Htail. unfold head_events. simpl.
    by rewrite Hgenv.
Qed.


(** *** prepare_training and the whole run *)

(** The one load [main] can make is that of the pretrained weights, before
    the loop; everything sent out after it is no load. *)
Lemma main_loop_loads save_path train_loader val_loader epoch_start
    (w : world) :
  exists pre tail,
    out (genv (snd (main_loop save_path train_loader val_loader
                      epoch_start w)))
      = (out (genv w) ++ pre ++ tail)%list /\
    Forall (fun ev => is_load ev = false) tail /\
    (pre = [] \/
     exists p, dict_get "sam_checkpoint" (config (genv w)) = Some (PStr p) /\
               pre = [EvLoad p]).
Proof.
  assert (Hstop : forall (l : list event),
            exists pre tail, l = (l ++ pre ++ tail)%list /\
              Forall (fun ev => is_load ev = false) tail /\
              (pre = [] \/
               exists p, dict_get "sam_checkpoint" (config (genv w))
                           = Some (PStr p) /\ pre = [EvLoad p])).
  { intros l. exists [], []. rewrite !app_nil_r. auto. }
  unfold main_loop. rewrite bind_gets.
  unfold bind at 1, lift, getitem.
  destruct (dict_get "epoch_max" (config (genv w))) as [em|]; simpl;
    [|apply Hstop].
  rewrite !bind_modify.
  match goal with |- context [bind _ ?k ?wx] =>
    assert (Hrest : forall u,
              preserves (sent_only (fun ev => is_load ev = false)) (k u));
    [|set (rest := k) in *; clearbody rest;
      set (w1 := wx) in *;
      assert (Hw1 : genv w1 = genv w) by reflexivity;
      clearbody w1]
  end.
  { intros u.
    apply preserves_bind; [apply sent_only_trans| |intros _].
    { apply preserves_modify; [apply sent_only_refl | by intros []]. }
    apply preserves_bind; [apply sent_only_trans| |intros epoch_max].
    { apply preserves_lift, sent_only_refl. }
    apply preserves_bind; [apply sent_only_trans| |intros eval_type].
    { apply preserves_lift, sent_only_refl. }
    apply preserves_bind; [apply sent_only_trans| |intros epochs].
    { apply preserves_lift, sent_only_refl. }
    apply preserves_foldM;
      [apply sent_only_refl | apply sent_only_trans|].
    intros mv epoch. by apply sent_only_epoch_body. }
  assert (Hgo : forall (w2 : world) pre,
            (pre = [] \/
             exists p, dict_get "sam_checkpoint" (config (genv w))
                         = Some (PStr p) /\ pre = [EvLoad p]) ->
            out (genv w2) = (out (genv w) ++ pre)%list ->
            exists pre tail,
              out (genv (snd (rest tt w2)))
                = (out (genv w) ++ pre ++ tail)%list /\
              Forall (fun ev => is_load ev = false) tail /\
              (pre = [] \/
               exists p, dict_get "sam_checkpoint" (config (genv w))
                           = Some (PStr p) /\ pre = [EvLoad p])).
  { intros w2 pre Hpre Hout.
    destruct (Hrest tt w2) as (tail & Htail & Hno).
    exists pre, tail. split; [|done]. by rewrite Htail, Hout, <- app_assoc. }
  unfold bind at 1.
  destruct (dict_mem "sam_checkpoint" (config (genv w))).
  2:{ apply (Hgo w1 []); [by left | by rewrite Hw1, app_nil_r]. }
  unfold bind at 1, lift, getitem.
  destruct (dict_get "sam_checkpoint" (config (genv w))) as [path|] eqn:Hp;
    simpl; [|rewrite Hw1; apply Hstop].
  unfold bind at 1.
  destruct path as [| | | |p| | |];
    try (simpl; rewrite Hw1; apply Hstop).
  assert (Hload : exists pre tail,
            (out (genv w) ++ [EvLoad p])%list
              = (out (genv w) ++ pre ++ tail)%list /\
            Forall (fun ev => is_load ev = false) tail /\
            (pre = [] \/
             exists p0, Some (PStr (SD := state_dict) p) = Some (PStr p0) /\
                        pre = [EvLoad p0])).
  { exists [EvLoad p], []. split; [done|]. split; [done|]. right. by exists p. }
  unfold torch_load, bind, modify, gets, raise, ret. simpl.
  rewrite Hw1.
  destruct (fs (genv w) !! p) as [[doc|obj]|]; simpl;
    try (unfold append; exact Hload).
  unfold lift.
  destruct (load_state_dict obj (model w1)) as [m'|]; simpl;
    try (unfold append; exact Hload).
  apply (Hgo _ [EvLoad p]); [right; by exists p | done].
Qed.

Lemma main_loads (config_ : dict) save_path disk :
  exists pre tail,
    out (snd (main config_ save_path disk))
      = (EvWrite (path_join save_path "config.yaml") (YamlFile config_)
         :: pre ++ tail)%list /\
    Forall (fun ev => is_load ev = false) tail /\
    (pre = [] \/
     exists p, dict_get "sam_checkpoint" config_ = Some (PStr p) /\
               pre = [EvLoad p]).
Proof.
  unfold main.
  pose proof (main_setup_env save_path (Env config_ disk [])) as Hs.
  destruct (main_setup save_path (Env config_ disk [])) as [[x|err] e1];
    simpl in Hs; destruct Hs as (_ & Hout & _ & Hok).
  - destruct x as [[tl vl] [[[m o] es] s]].
    destruct (main_loop_loads save_path tl vl es (World e1 m o s))
      as (pre & tail & Hl & Hno & Hpre).
    destruct (main_loop save_path tl vl es (World e1 m o s)) as [r w'].
    simpl in *. exists pre, tail. rewrite Hl, Hout.
    split; [done|]. split; [done|].
    rewrite (Hok eq_refl), dict_get_inject_data_norm in Hpre by done.
    exact Hpre.
  - exists [], []. simpl. rewrite Hout. auto.
Qed.

(** C3 (amended).  No checkpoint record is read back by [prepare_training]
    or by the epoch loop, with or without ['resume'].  [prepare_training]
    leaves the process-wide state as it is (it reads no file): it builds a
    fresh model, optimizer and scheduler from the specs of the
    configuration, the same whatever ['resume'] holds, and ['resume'] only
    moves the first epoch to [resume + 1].  No iteration of the epoch loop
    loads a file.  In a whole run the one file that can be loaded is that
    of the pretrained weights named by ['sam_checkpoint'], and it is loaded
    before the loop, so before any checkpoint is written. *)
Theorem C3_no_checkpoint_read_back :
  (forall e : env,
     prepare_training e =
       (match fresh (config e) with
        | Raise x => Raise x
        | Ok (m, o, s) =>
            match first_epoch (config e) with
            | Raise x => Raise x
            | Ok epoch_start => Ok (m, o, epoch_start, s)
            end
        end, e))
  /\ (forall (cfg : dict) v, fresh (dict_set "resume" v cfg) = fresh cfg)
  /\ (forall (cfg : dict) z,
        dict_get "resume" cfg = Some (PInt z) ->
        first_epoch cfg = Ok (PInt (z + 1)))
  /\ (forall (cfg : dict),
        dict_get "resume" cfg = None -> first_epoch cfg = Ok (PInt 1))
  /\ (forall save_path train_loader val_loader epoch_start epoch_max
        epoch_val max_val_v epoch (w : world),
        exists tail,
          out (genv (snd (epoch_body save_path train_loader val_loader
                            epoch_start epoch_max epoch_val max_val_v
                            epoch w)))
            = (out (genv w) ++ tail)%list /\
          Forall (fun ev => is_load ev = false) tail)
  /\ (forall (config_ : dict) save_path disk,
        exists pre tail,
          out (snd (main config_ save_path disk))
            = (EvWrite (path_join save_path "config.yaml") (YamlFile config_)
               :: pre ++ tail)%list /\
          Forall (fun ev => is_load ev = false) tail /\
          (pre = [] \/
           exists p, dict_get "sam_checkpoint" config_ = Some (PStr p) /\
                     pre = [EvLoad p])).
Proof.
  split; [apply prepare_training_spec|].
  split; [apply fresh_ignores_resume|].
  split; [intros cfg z H; unfold first_epoch, dict_get_or_none; by rewrite H|].
  split; [intros cfg H; unfold first_epoch, dict_get_or_none; by rewrite H|].
  split; [|apply main_loads].
  intros sp tl vl es em ev mv epoch w.
  by apply (sent_only_epoch_body (fun ev => is_load ev = false)).
Qed.

Lemma main_loop_frame save_path train_loader val_loader epoch_start
    (w : world) :
  config_frame (genv w)
    (genv (snd (main_loop save_path train_loader val_loader epoch_start w)))
  /\ spec_frame (genv w)
       (genv (snd (main_loop save_path train_loader val_loader epoch_start w)))
  /\ file_kept (path_join save_path "config.yaml") (genv w)
       (genv (snd (main_loop save_path train_loader val_loader epoch_start w))).
Proof.
  apply (preserves_main_loop
           (fun e e' => config_frame e e' /\ spec_frame e e' /\
                        file_kept (path_join save_path "config.yaml") e e')).
  - intros e. split; [apply config_frame_refl|].
    split; [apply spec_frame_refl | apply file_kept_refl].
  - intros e1 e2 e3 (C1 & S1 & F1) (C2 & S2 & F2).
    split; [by eapply config_frame_trans|].
    split; [by eapply spec_frame_trans | by eapply file_kept_trans].
  - intros e ev _. split; [by intros k|].
    split; [by intros k d ? ?; exists d | by intros f].
  - intros e name obj. split; [by intros k|].
    split; [by intros k d ? ?; exists d | apply file_kept_save].
  - intros e k d sd Hk Hd. split; [by apply config_frame_spec|].
    split; [by apply spec_frame_spec | by intros f].
  - intros e path. split; [by intros k|].
    split; [by intros k d ? ?; exists d | by intros f].
Qed.

Lemma carries_sd_saved_config (cfg : dict) m o :
  has_specs cfg = true -> carries_sd (saved_config cfg m o) = true.
Proof.
  intros Hs.
  destruct (saved_config_sd cfg m o Hs) as (dm & dop & Hm & Hsm & Ho & Hso).
  unfold carries_sd. by rewrite Hm, Ho, Hsm, Hso.
Qed.

(** A completed iteration leaves both specs with a state dict. *)
Lemma epoch_body_carries save_path train_loader val_loader epoch_start
    epoch_max epoch_val max_val_v epoch (w : world) v w' :
  epoch_body save_path train_loader val_loader epoch_start epoch_max
    epoch_val max_val_v epoch w = (Ok v, w') ->
  carries_sd (config (genv w')) = true.
Proof.
  intros H.
  apply epoch_body_full in H
    as (loss & w1 & b & Htrain & _ & Hspecs & _ & H).
  pose proof (train_genv
    (option_map (fun l => loader_pass l epoch) train_loader) w) as Hgenv.
  rewrite Htrain in Hgenv. simpl in Hgenv.
  assert (Hcfg : config (genv (stepped w1)) = config (genv w))
    by (simpl; by rewrite Hgenv).
  cbv zeta in H. destruct b.
  - destruct H as (r & et & _ & _ & _ & _ & _ & ->).
    rewrite after_last_config, Hcfg.
    destruct (improved et r max_val_v).
    + apply carries_sd_saved_config. by apply has_specs_saved_config.
    + by apply carries_sd_saved_config.
  - destruct H as (_ & -> & _). rewrite after_last_config, Hcfg.
    by apply carries_sd_saved_config.
Qed.

Lemma loop_carries save_path train_loader val_loader epoch_start
    epoch_max epoch_val (epochs : list Z) :
  forall max_val_v (w : world) v w',
  epochs <> [] ->
  foldM (epoch_body save_path train_loader val_loader epoch_start epoch_max
           epoch_val) epochs max_val_v w = (Ok v, w') ->
  carries_sd (config (genv w')) = true.
Proof.
  induction epochs as [|epoch epochs IH]; intros mv w v w' Hne H; [done|].
  cbn [foldM] in H. apply bind_ok_inv in H as (mv1 & w1 & H1 & H2).
  destruct epochs as [|epoch' epochs].
  - injection H2 as <- <-. by eapply epoch_body_carries.
  - by eapply IH.
Qed.

(** What a run leaves of the configuration: with no epoch gone through,
    the loaded one with [data_norm] injected; otherwise one whose specs
    carry a state dict. *)
Lemma main_config (config_ : dict) save_path disk v :
  fst (main config_ save_path disk) = Ok v ->
  (lr_steps (out (snd (main config_ save_path disk))) = [] ->
   config (snd (main config_ save_path disk)) = inject_data_norm config_)
  /\ (lr_steps (out (snd (main config_ save_path disk))) <> [] ->
      carries_sd (config (snd (main config_ save_path disk))) = true).
Proof.
  unfold main. intros H.
  pose proof (main_setup_env save_path (Env config_ disk [])) as Hs.
  destruct (main_setup save_path (Env config_ disk [])) as [[x|err] e1];
    [|done].
  destruct x as [[tl vl] [[[m o] es] s]].
  simpl in Hs. destruct Hs as (_ & Hout & _ & Hok). specialize (Hok eq_refl).
  destruct (main_loop_cases save_path tl vl es (World e1 m o s))
    as (pre & ws & Hpre & Hws
        & [(e & Hl & _)|(em & et & ep & _ & _ & _ & Hl)]).
  { rewrite Hl in H. done. }
  destruct (foldM _ ep _ ws) as [r w'] eqn:Hf.
  rewrite Hl in H |- *. simpl in H |- *. subst r.
  pose proof (loop_lr_steps _ _ _ _ _ _ _ _ _ _ _ Hf) as Hsteps.
  rewrite Hws in Hsteps. simpl in Hsteps.
  rewrite Hout, lr_steps_app in Hsteps. simpl in Hsteps.
  assert (Hnone : lr_steps pre = []).
  { clear -Hpre. induction Hpre as [|ev pre Hev _ IH]; [done|].
    destruct ev; try done. }
  rewrite Hnone in Hsteps. simpl in Hsteps. rewrite Hsteps.
  split.
  - intros ->. simpl in Hf. injection Hf as _ <-. rewrite Hws. simpl.
    exact Hok.
  - intros Hne. by eapply loop_carries.
Qed.

(** C6 (amended).  [config.yaml] holds, verbatim, the configuration that was
    loaded.  The configuration is assigned to by the injection of the
    default [data_norm], made at most once and only when that entry is
    absent, and by every checkpoint save, which gives the model spec and
    the optimizer spec the state dict of the model and of the optimizer
    under ['sd']: a run that ends without having gone through an epoch
    leaves the loaded configuration with [data_norm] injected, and one
    that went through an epoch leaves both specs with a state dict.
    Every other entry, and every other entry of the two specs, stays as
    it was loaded. *)
Theorem C6_config_mutations (config_ : dict) save_path disk :
  fs (snd (main config_ save_path disk)) !! path_join save_path "config.yaml"
    = Some (YamlFile config_)
  /\ (exists c0,
        (c0 = config_ \/ c0 = inject_data_norm config_) /\
        (is_ok (fst (main config_ save_path disk)) = true ->
         c0 = inject_data_norm config_) /\
        forall k, k <> "model" -> k <> "optimizer" ->
          dict_get k (config (snd (main config_ save_path disk)))
            = dict_get k c0)
  /\ (forall k d, k = "model" \/ k = "optimizer" ->
        dict_get k config_ = Some (PDict d) ->
        exists d',
          dict_get k (config (snd (main config_ save_path disk)))
            = Some (PDict d') /\
          forall j, j <> "sd" -> dict_get j d' = dict_get j d)
  /\ (forall k, k <> "data_norm" ->
        dict_get k (inject_data_norm config_) = dict_get k config_)
  /\ (is_none (dict_get_or_none "data_norm" config_) = false ->
      inject_data_norm config_ = config_)
  /\ (forall name (w : world),
        fst (save_model save_path name w) = Ok tt ->
        exists dm dop,
          dict_get "model"
            (config (genv (snd (save_model save_path name w))))
            = Some (PDict dm) /\
          dict_get "sd" dm = Some (PStateDict (model_state_dict (model w))) /\
          dict_get "optimizer"
            (config (genv (snd (save_model save_path name w))))
            = Some (PDict dop) /\
          dict_get "sd" dop
            = Some (PStateDict (optimizer_state_dict (optimizer w))))
  /\ (forall v,
        fst (main config_ save_path disk) = Ok v ->
        (lr_steps (out (snd (main config_ save_path disk))) = [] ->
         config (snd (main config_ save_path disk))
           = inject_data_norm config_)
        /\ (lr_steps (out (snd (main config_ save_path disk))) <> [] ->
            carries_sd (config (snd (main config_ save_path disk))) = true)).
Proof.
  assert (Hinj : forall k, k <> "data_norm" ->
            dict_get k (inject_data_norm config_) = dict_get k config_)
    by (intros; by apply dict_get_inject_data_norm).
  assert (Hgoal :
    fs (snd (main config_ save_path disk)) !! path_join save_path "config.yaml"
      = Some (YamlFile config_)
    /\ (exists c0,
          (c0 = config_ \/ c0 = inject_data_norm config_) /\
          (is_ok (fst (main config_ save_path disk)) = true ->
           c0 = inject_data_norm config_) /\
          config_frame (Env c0 disk []) (snd (main config_ save_path disk)) /\
          spec_frame (Env c0 disk []) (snd (main config_ save_path disk)))).
  { unfold main.
    pose proof (main_setup_env save_path (Env config_ disk [])) as Hs.
    destruct (main_setup save_path (Env config_ disk [])) as [[x|err] e1];
      simpl in Hs; destruct Hs as (Hfs & _ & Hcfg & Hok).
    - destruct x as [[tl vl] [[[m o] es] s]].
      pose proof (main_loop_frame save_path tl vl es (World e1 m o s))
        as (HC & HS & HF).
      destruct (main_loop save_path tl vl es (World e1 m o s)) as [r w'].
      simpl in *. split.
      + apply HF. rewrite Hfs. apply lookup_insert_eq.
      + exists (inject_data_norm config_). rewrite <- (Hok eq_refl).
        split; [by right|]. split; [done|]. split.
        * intros k Hm Ho. by apply HC.
        * intros k d Hk Hd. by apply HS.
    - simpl. split; [rewrite Hfs; apply lookup_insert_eq|].
      exists (config e1). split; [by destruct Hcfg; auto|].
      split; [done|].
      split; [by intros k | by intros k d ? ?; exists d]. }
  destruct Hgoal as (Hfile & c0 & Hc0 & Hok & HC & HS).
  split; [done|]. split; [by exists c0|].
  split; [|split; [done|split; [|split]]].
  - intros k d Hk Hd. apply (HS k d Hk). simpl.
    destruct Hc0 as [->| ->]; [done|].
    rewrite Hinj; [done|]. by destruct Hk; subst.
  - intros Hdn. unfold inject_data_norm. by rewrite Hdn.
  - intros name w H.
    destruct (save_model save_path name w) as [r w'] eqn:Hsave.
    simpl in H. subst r.
    apply save_model_inv in Hsave as [Hspecs ->].
    apply (saved_config_sd _ (model w) (optimizer w) Hspecs).
  - intros v H. by apply (main_config config_ save_path disk v).
Qed.

Lemma main_setup_first_epoch save_path (e : env) tl vl m o es s e' :
  main_setup save_path e = (Ok (tl, vl, (m, o, es, s)), e') ->
  first_epoch (config e) = Ok es.
Proof.
  unfold main_setup. rewrite bind_gets, bind_modify. intros H.
  apply bind_ok_inv in H as (loaders & e1 & Hl & H).
  pose proof (make_data_loaders_env
    (write_env (path_join save_path "config.yaml") (YamlFile (config e)) e))
    as He1.
  rewrite Hl in He1. simpl in He1. subst e1.
  rewrite bind_modify in H.
  apply bind_ok_inv in H as (p & e2 & Hp & H).
  rewrite prepare_training_spec in Hp. simpl in Hp.
  inversion H; subst; clear H.
  destruct (fresh _) as [[[m' o'] s']|]; [|done].
  destruct (first_epoch (inject_data_norm (config e))) as [es'|] eqn:Hfe;
    [|done].
  inversion Hp; subst. revert Hfe.
  unfold first_epoch, dict_get_or_none.
  by rewrite dict_get_inject_data_norm.
Qed.

Lemma epoch_range_inv (epoch_start epoch_max : value) epochs :
  epoch_range epoch_start epoch_max = Ok epochs ->
  exists a b, as_int epoch_start = Some a /\ as_int epoch_max = Some b /\
              epochs = range a (b + 1).
Proof.
  unfold epoch_range. intros H.
  destruct (add1 epoch_max) as [stop|] eqn:Hstop; [|done].
  destruct (as_int epoch_start) as [a|]; [|done].
  destruct (as_int stop) as [b'|] eqn:Hb; [|done].
  inversion H; subst; clear H.
  destruct epoch_max as [|b0|z|f| | | |]; try done; simpl in Hstop.
  - inversion Hstop; subst. inversion Hb; subst. by exists a, (Z.b2z b0).
  - inversion Hstop; subst. inversion Hb; subst. by exists a, z.
  - destruct f; inversion Hstop; subst; done.
Qed.

(** C8.  A run that ends normally went through the epochs from the first
    epoch to the configured maximum, each once and in order: with [a] the
    first epoch and [b] the maximum, the iterations made are those of
    [range(a, b + 1)], which for [a <= b] are the [b - a + 1] epochs [a],
    [a + 1], ..., [b].  There is no other normal exit: the loop either
    goes through all its epochs and returns, or stops at the first epoch
    whose iteration raises, with that exception. *)
Theorem C8_epoch_loop_iterations (config_ : dict) save_path disk :
  (forall v,
     fst (main config_ save_path disk) = Ok v ->
     exists epoch_start epoch_max a b,
       first_epoch config_ = Ok epoch_start /\
       as_int epoch_start = Some a /\
       dict_get "epoch_max" config_ = Some epoch_max /\
       as_int epoch_max = Some b /\
       lr_steps (out (snd (main config_ save_path disk))) = range a (b + 1) /\
       (a <= b ->
        Z.of_nat (length (range a (b + 1))) = b - a + 1 /\
        forall i, (i < Z.to_nat (b - a + 1))%nat ->
          nth i (range a (b + 1)) 0 = a + Z.of_nat i))
  /\ (forall train_loader val_loader epoch_start epoch_max epoch_val
        (epochs : list Z) max_val_v (w : world),
        (exists v w',
           foldM (epoch_body save_path train_loader val_loader epoch_start
                    epoch_max epoch_val) epochs max_val_v w = (Ok v, w'))
        \/ (exists done epoch rest v w' e,
              epochs = (done ++ epoch :: rest)%list /\
              foldM (epoch_body save_path train_loader val_loader epoch_start
                       epoch_max epoch_val) done max_val_v w = (Ok v, w') /\
              fst (epoch_body save_path train_loader val_loader epoch_start
                     epoch_max epoch_val v epoch w') = Raise e /\
              fst (foldM (epoch_body save_path train_loader val_loader
                            epoch_start epoch_max epoch_val)
                     epochs max_val_v w) = Raise e)).
Proof.
  split; [|intros; apply foldM_cases].
  unfold main. intros v H.
  pose proof (main_setup_env save_path (Env config_ disk [])) as Hs.
  destruct (main_setup save_path (Env config_ disk [])) as [[x|err] e1] eqn:Hm;
    [|done].
  destruct x as [[tl vl] [[[m o] es] s]].
  apply main_setup_first_epoch in Hm. simpl in Hm.
  destruct Hs as (_ & Hout & _ & Hcfg). specialize (Hcfg eq_refl).
  simpl in Hout, Hcfg.
  destruct (main_loop save_path tl vl es (World e1 m o s)) as [r w'] eqn:Hl.
  simpl in H. subst r. simpl.
  apply main_loop_inv in Hl as (em & epochs & Hem & Hr & Hsteps).
  simpl in Hem, Hsteps. rewrite Hcfg, dict_get_inject_data_norm in Hem by done.
  rewrite Hout in Hsteps. simpl in Hsteps.
  apply epoch_range_inv in Hr as (a & b & Ha & Hb & ->).
  exists es, em, a, b. repeat (split; [done|]).
  intros Hab. split.
  - rewrite range_length. lia.
  - intros i Hi. apply range_nth. by replace (b + 1 - a) with (b - a + 1) by lia.
Qed.
End Claims.

(** * The statements on a concrete run *)


Lemma C10_witness :
  fst (main (F := Toy.toy) (Toy.cfg (PInt 2) (PStr "f1")) Toy.run_dir ∅)
    = Ok (Fin 6)
  /\ In 2 (lr_steps (out (snd (main (F := Toy.toy)
                                 (Toy.cfg (PInt 2) (PStr "f1"))
                                 Toy.run_dir ∅))))
  /\ exists train_loader,
       make_data_loader (F := Toy.toy)
         (dict_get_or_none "train_dataset" (Toy.cfg (PInt 2) (PStr "f1")))
         = Ok (Some train_loader) /\
       loader_pass train_loader 2 <> [].
Proof.
  assert (Hin : In 2 (lr_steps (out (snd (main (F := Toy.toy)
                                            (Toy.cfg (PInt 2) (PStr "f1"))
                                            Toy.run_dir ∅))))).
  { vm_compute. right. left. reflexivity. }
  split; [vm_compute; reflexivity|]. split; [exact Hin|].
  destruct (C10_train_empty_loader (F := Toy.toy)) as (_ & _ & H & _).
  apply (H (Toy.cfg (PInt 2) (PStr "f1")) Toy.run_dir ∅ (Fin 6));
    [vm_compute; reflexivity | exact Hin].
Defined.

Lemma C4_witness :
  Toy.val_batches <> []
  /\ forallb (batch_ok (F := Toy.toy)) Toy.val_batches = true
  /\ metric_bundle (F := Toy.toy) (PStr "cod")
       = Some (calc_cod, ("sm", "em", "wfm", "mae"))
  /\ fst (eval_psnr (F := Toy.toy) (Some Toy.val_batches) (PStr "cod") Toy.start)
       = Ok (Metrics (Fin 2) (Fin 0) (Fin 2) (Fin 0)
               "sm" "em" "wfm" "mae").
Proof.
  split; [discriminate|]. split; [reflexivity|]. split; [reflexivity|].
  destruct (C4_metric_dispatch (F := Toy.toy)) as (_ & _ & _ & _ & _ & H).
  etransitivity.
  - refine (f_equal fst (H Toy.val_batches (PStr "cod") Toy.start calc_cod
                           ("sm", "em", "wfm", "mae") _ eq_refl eq_refl)).
    discriminate.
  - reflexivity.
Defined.

Lemma C5_witness :
  known_eval_type (F := Toy.toy) (PStr "psnr") = false
  /\ is_ok (fst (eval_psnr (F := Toy.toy) (Some Toy.val_batches)
                   (PStr "psnr") Toy.start)) = false.
Proof.
  split; [reflexivity|].
  apply (C5_unknown_eval_type (F := Toy.toy) (PStr "psnr")). reflexivity.
Defined.

Lemma C1_witness :
  fst (main_loop (F := Toy.toy) Toy.run_dir Toy.train_loader Toy.val_loader
         (PInt 1) Toy.start) = Ok (Fin 6)
  /\ exists ws,
       config (genv ws) = config (genv Toy.start) /\
       main_loop (F := Toy.toy) Toy.run_dir Toy.train_loader Toy.val_loader
         (PInt 1) Toy.start
       = foldM (epoch_body (F := Toy.toy) Toy.run_dir Toy.train_loader
                  Toy.val_loader 1 (PInt 3) (PInt 2))
           [1; 2; 3] neg_1e18 ws.
Proof.
  split; [vm_compute; reflexivity|].
  destruct (C1_best_metric_tracker (F := Toy.toy) Toy.run_dir
              Toy.train_loader Toy.val_loader) as (H & _).
  destruct (H (PInt 1) Toy.start (Fin 6))
    as (em & et & epochs & ws & Hem & Het & Hr & Hcfg & Hl);
    [vm_compute; reflexivity|].
  vm_compute in Hem. injection Hem as <-.
  vm_compute in Het. injection Het as <-.
  vm_compute in Hr. injection Hr as <-.
  exists ws. split; [exact Hcfg | exact Hl].
Defined.

Lemma C2_witness :
  fst (epoch_body (F := Toy.toy) Toy.run_dir Toy.train_loader Toy.val_loader 1 (PInt 3) (PInt 2)
         neg_1e18 2 Toy.start) = Ok (Fin 4)
  /\ is_Some
       (fs (genv (snd (epoch_body (F := Toy.toy) Toy.run_dir Toy.train_loader
                         Toy.val_loader 1 (PInt 3) (PInt 2) neg_1e18 2
                         Toy.start)))
          !! ckpt_path Toy.run_dir "last")
  /\ exists new,
       out (genv (snd (epoch_body (F := Toy.toy) Toy.run_dir Toy.train_loader Toy.val_loader 1
                         (PInt 3) (PInt 2) neg_1e18 2 Toy.start)))
         = (out (genv Toy.start) ++ new)%list /\
       length (List.filter is_write new) = 2%nat.
Proof.
  split; [vm_compute; reflexivity|].
  destruct (C2_checkpoints_written (F := Toy.toy) Toy.run_dir Toy.train_loader Toy.val_loader 1
              (PInt 3) (PInt 2) neg_1e18 2 Toy.start) as (H & _).
  destruct (H (Fin 4))
    as (loss & w1 & b & new & best & _ & _ & Hout & _ & Hfs & _);
    [vm_compute; reflexivity|].
  split; [rewrite Hfs; by eexists|].
  exists new. split; [exact Hout|].
  assert (Hnew := Hout). vm_compute in Hnew. subst new. reflexivity.
Defined.


Lemma C3_witness :
  dict_get "resume" Toy.resumed = Some (PInt 1)
  /\ first_epoch (F := Toy.toy) Toy.resumed = Ok (PInt (1 + 1))
  /\ prepare_training (F := Toy.toy) (Env (F := Toy.toy) Toy.resumed Toy.disk [])
       = (Ok ([], 0, PInt 2, Some 0),
          Env (F := Toy.toy) Toy.resumed Toy.disk []).
Proof.
  split; [reflexivity|].
  destruct (C3_no_checkpoint_read_back (F := Toy.toy))
    as (Hprep & _ & Hfirst & _).
  split; [by apply Hfirst|].
  by rewrite Hprep.
Defined.

Lemma C6_witness :
  fst (main (F := Toy.toy) (Toy.cfg (PInt 2) (PStr "f1")) Toy.run_dir ∅)
    = Ok (Fin 6)
  /\ lr_steps (out (snd (main (F := Toy.toy) (Toy.cfg (PInt 2) (PStr "f1"))
                           Toy.run_dir ∅))) <> []
  /\ fs (snd (main (F := Toy.toy) (Toy.cfg (PInt 2) (PStr "f1"))
                Toy.run_dir ∅)) !! path_join Toy.run_dir "config.yaml"
       = Some (YamlFile (F := Toy.toy) (Toy.cfg (PInt 2) (PStr "f1")))
  /\ dict_get "epoch_max"
       (config (snd (main (F := Toy.toy) (Toy.cfg (PInt 2) (PStr "f1"))
                       Toy.run_dir ∅)))
       = Some (PInt 3)
  /\ carries_sd
       (config (snd (main (F := Toy.toy) (Toy.cfg (PInt 2) (PStr "f1"))
                       Toy.run_dir ∅)))
       = true.
Proof.
  assert (Hok : fst (main (F := Toy.toy) (Toy.cfg (PInt 2) (PStr "f1"))
                       Toy.run_dir ∅) = Ok (Fin 6))
    by (vm_compute; reflexivity).
  assert (Hsteps : lr_steps (out (snd (main (F := Toy.toy)
                                         (Toy.cfg (PInt 2) (PStr "f1"))
                                         Toy.run_dir ∅))) <> [])
    by (vm_compute; discriminate).
  split; [exact Hok|]. split; [exact Hsteps|].
  destruct (C6_config_mutations (F := Toy.toy) (Toy.cfg (PInt 2) (PStr "f1"))
              Toy.run_dir ∅)
    as (Hfile & (c0 & _ & Hc0 & Hframe) & _ & Hinj & _ & _ & Hrun).
  split; [exact Hfile|]. split.
  - rewrite Hframe by done. rewrite Hc0 by (by rewrite Hok).
    by rewrite Hinj.
  - by apply (Hrun (Fin 6) Hok).
Defined.

Lemma C8_witness :
  fst (main (F := Toy.toy) Toy.resumed Toy.run_dir Toy.disk) = Ok (Fin 4)
  /\ exists a b,
       lr_steps (out (snd (main (F := Toy.toy) Toy.resumed Toy.run_dir
                             Toy.disk)))
         = range a (b + 1).
Proof.
  split; [vm_compute; reflexivity|].
  destruct (C8_epoch_loop_iterations (F := Toy.toy) Toy.resumed Toy.run_dir
              Toy.disk) as (H & _).
  destruct (H (Fin 4))
    as (es & em & a & b & _ & _ & _ & _ & Hsteps & _);
    [vm_compute; reflexivity|].
  by exists a, b.
Defined.

(** The tracker does not start at an infinity.  In a ['ber'] run whose
    validation values are all above [2e8], the first of them is below plus
    infinity, yet the tracker is [1e8] at the end of the run and
    [model_best.pth] was never written. *)
Lemma C1_counterexample :
  fst (main (F := Toy.toy) Toy.far Toy.run_dir ∅) = Ok pos_1e8
  /\ nth 6 (out (snd (main (F := Toy.toy) Toy.far Toy.run_dir ∅))) EvFlush
       = EvScalars "ber" "val" (float_of_Z (2 * 10 ^ 8 + 2)) 1
  /\ flt (float_of_Z (2 * 10 ^ 8 + 2)) PInf = true
  /\ existsb (writes_to (ckpt_path Toy.run_dir "best"))
       (out (snd (main (F := Toy.toy) Toy.far Toy.run_dir ∅))) = false
  /\ pos_1e8 <> PInf.
Proof.
  split; [vm_compute; reflexivity|]. split; [vm_compute; reflexivity|].
  split; [reflexivity|]. split; [vm_compute; reflexivity|]. discriminate.
Qed.

(** A run with no training dataset ends normally when it has no epoch to
    go through, here because it resumes after its last epoch: all it does is
    to dump the configuration. *)
Lemma C10_counterexample :
  is_none (dict_get_or_none (SD := Z) "train_dataset" Toy.idle) = true
  /\ fst (main (F := Toy.toy) Toy.idle Toy.run_dir ∅) = Ok neg_1e18
  /\ out (snd (main (F := Toy.toy) Toy.idle Toy.run_dir ∅))
       = [EvWrite (path_join Toy.run_dir "config.yaml")
            (YamlFile (F := Toy.toy) Toy.idle)].
Proof.
  split; [reflexivity|]. split; vm_compute; reflexivity.
Qed.

(** With ['resume'] set and the checkpoint of the epoch on disk,
    [prepare_training] loads nothing and returns the model and optimizer
    it returns without ['resume']; the whole run loads nothing either. *)
Lemma C3_counterexample :
  dict_get "resume" Toy.resumed = Some (PInt 1)
  /\ is_Some (Toy.disk !! ckpt_path Toy.run_dir "last")
  /\ out (snd (prepare_training (F := Toy.toy)
                 (Env (F := Toy.toy) Toy.resumed Toy.disk []))) = []
  /\ fst (prepare_training (F := Toy.toy)
            (Env (F := Toy.toy) Toy.resumed Toy.disk []))
       = Ok ([], 0, PInt 2, Some 0)
  /\ fst (prepare_training (F := Toy.toy)
            (Env (F := Toy.toy) (Toy.cfg (PInt 2) (PStr "f1")) ∅ []))
       = Ok ([], 0, PInt 1, Some 0)
  /\ is_ok (fst (main (F := Toy.toy) Toy.resumed Toy.run_dir Toy.disk)) = true
  /\ existsb is_load
       (out (snd (main (F := Toy.toy) Toy.resumed Toy.run_dir Toy.disk)))
       = false.
Proof.
  split; [reflexivity|]. split; [by eexists|].
  repeat split; vm_compute; reflexivity.
Qed.

(** A checkpoint save modifies the configuration object, and a run that
    ends normally leaves it different from the loaded one with [data_norm]
    injected. *)
Lemma C6_counterexample :
  config (genv (snd (save_model (F := Toy.toy) Toy.run_dir "last" Toy.start)))
    <> config (genv Toy.start)
  /\ dict_get "model"
       (config (genv (snd (save_model (F := Toy.toy) Toy.run_dir "last" Toy.start))))
       = Some (PDict [("name", PStr "sam"); ("sd", PStateDict 0)])
  /\ is_ok (fst (main (F := Toy.toy) (Toy.cfg (PInt 2) (PStr "f1"))
                   Toy.run_dir ∅)) = true
  /\ config (snd (main (F := Toy.toy) (Toy.cfg (PInt 2) (PStr "f1"))
                    Toy.run_dir ∅))
       <> inject_data_norm (F := Toy.toy) (Toy.cfg (PInt 2) (PStr "f1")).
Proof.
  split; [vm_compute; discriminate|].
  split; [vm_compute; reflexivity|].
  split; [vm_compute; reflexivity|].
  vm_compute; discriminate.
Qed.


(** * More of the script *)

(** ** The run directory *)

Lemma has_slash_app (a b : string) :
  has_slash (a ++ b) = has_slash a || has_slash b.
Proof.
  induction a as [|c a IH]; simpl; [done|].
  rewrite IH. by rewrite orb_assoc.
Qed.

Lemma last_component_plain (b : string) :
  has_slash b = false -> last_component b = b.
Proof.
  destruct b as [|c b]; simpl; [done|].
  intros H. apply orb_false_elim in H as [Hc Hb]. by rewrite Hb, Hc.
Qed.

Lemma last_component_dir (d b : string) :
  has_slash b = false -> last_component (d ++ "/" ++ b) = b.
Proof.
  intros Hb. induction d as [|c d IH]; simpl.
  - change ("" ++ b) with b. by rewrite Hb.
  - rewrite has_slash_app. simpl. by rewrite orb_true_r.
Qed.

Lemma list_ascii_app (a b : string) :
  String.list_ascii_of_string (a ++ b)
    = (String.list_ascii_of_string a ++ String.list_ascii_of_string b)%list.
Proof.
  induction a as [|c a IH]; [done|].
  change (String c a ++ b) with (String c (a ++ b)). simpl. by rewrite IH.
Qed.

Lemma list_ascii_length (a : string) :
  length (String.list_ascii_of_string a) = String.length a.
Proof. induction a as [|c a IH]; simpl; [done | by rewrite IH]. Qed.

Lemma is_ascii_bytes (a : string) :
  is_ascii a = true ->
  Forall (fun c => is_continuation c = false) (String.list_ascii_of_string a).
Proof.
  induction a as [|c a IH]; simpl; [constructor|].
  destruct c as [b0 b1 b2 b3 b4 b5 b6 b7]. intros H.
  apply andb_prop in H as [H7 Ha]. constructor; [|by apply IH].
  simpl. by destruct b7.
Qed.

(** Dropping as many characters as a run of one-byte characters holds
    drops that run. *)
Lemma drop_chars (e l : list Ascii.ascii) :
  Forall (fun c => is_continuation c = false) e ->
  Nat.iter (length e) drop_char (rev e ++ l)%list = l.
Proof.
  revert l. induction e as [|c e IH]; intros l H; [done|].
  apply Forall_cons in H as [Hc He].
  simpl. rewrite <- app_assoc. simpl. rewrite IH by done.
  simpl. by rewrite Hc.
Qed.

Lemma drop_last_ext (n : nat) (b ext : string) :
  String.length ext = n -> is_ascii ext = true ->
  drop_last n (b ++ ext) = b.
Proof.
  intros <- Ha. unfold drop_last.
  rewrite list_ascii_app, rev_app_distr, <- list_ascii_length.
  rewrite drop_chars by (by apply is_ascii_bytes).
  rewrite rev_involutive. apply String.string_of_list_ascii_of_string.
Qed.

Lemma string_app_assoc (a b c : string) : (a ++ b) ++ c = a ++ b ++ c.
Proof.
  induction a as [|x a IH]; [done|].
  change (String x ((a ++ b) ++ c) = String x (a ++ b ++ c)). by rewrite IH.
Qed.

Lemma string_app_nil_r (a : string) : a ++ "" = a.
Proof.
  induction a as [|x a IH]; [done|].
  change (String x (a ++ "") = String x a). by rewrite IH.
Qed.

(** X1.  Without [--name], the run directory is [./save/_<stem>] followed
    by the tag, where the stem is the last component of the configuration
    path less its last five characters: [.yaml] is not looked for, so that
    any five ASCII characters in its place give the same run directory, as
    for [demo.yaml] and [demo.json]. *)
Theorem save_path_default (dir base ext : string) (tag : option string) :
  has_slash (base ++ ext) = false ->
  String.length ext = 5%nat ->
  is_ascii ext = true ->
  save_path_of (Args (dir ++ "/" ++ base ++ ext) None tag)
    = "./save/_" ++ base ++ tag_suffix tag
  /\ save_path_of (Args (base ++ ext) None tag)
       = "./save/_" ++ base ++ tag_suffix tag.
Proof.
  intros Hslash Hlen Hascii. unfold save_path_of, save_name. simpl.
  rewrite last_component_dir, last_component_plain by done.
  rewrite drop_last_ext by done.
  destruct tag as [t|]; simpl.
  - by rewrite string_app_assoc.
  - by rewrite string_app_nil_r.
Qed.

Lemma save_path_default_witness :
  has_slash ("demo" ++ ".yaml") = false
  /\ String.length ".yaml" = 5%nat
  /\ is_ascii ".yaml" = true
  /\ save_path_of default_args = "./save/_demo"
  /\ save_path_of (Args "configs/demo.json" None None) = "./save/_demo".
Proof.
  split; [reflexivity|]. split; [reflexivity|]. split; [reflexivity|].
  split.
  - apply (save_path_default "configs" "demo" ".yaml" None); reflexivity.
  - apply (save_path_default "configs" "demo" ".json" None); reflexivity.
Defined.

(** X2.  With [--name], the configuration path plays no part in the run
    directory: it is [./save/<name>] followed by the tag, unless the name
    starts with a slash, in which case the run directory is the name and
    tag alone, outside [./save]. *)
Theorem save_path_named (config_path name : string) (tag : option string) :
  (starts_with_slash name = false ->
   save_path_of (Args config_path (Some name) tag)
     = "./save/" ++ name ++ tag_suffix tag)
  /\ (starts_with_slash name = true ->
      save_path_of (Args config_path (Some name) tag)
        = name ++ tag_suffix tag).
Proof.
  unfold save_path_of, save_name, os_path_join. simpl.
  split; intros Hname.
  - destruct tag as [t|]; simpl.
    + replace (starts_with_slash (name ++ "_" ++ t)) with false; [done|].
      by destruct name.
    + rewrite Hname. by rewrite string_app_nil_r.
  - destruct tag as [t|]; simpl.
    + replace (starts_with_slash (name ++ "_" ++ t)) with true; [done|].
      by destruct name.
    + rewrite Hname. by rewrite string_app_nil_r.
Qed.

Lemma save_path_named_witness :
  starts_with_slash "exp1" = false
  /\ save_path_of (Args "configs/demo.yaml" (Some "exp1") (Some "a"))
       = "./save/exp1_a".
Proof.
  split; [reflexivity|].
  apply (save_path_named "configs/demo.yaml" "exp1" (Some "a")). reflexivity.
Defined.

Section Extras.
Context `{F : Framework}.

Abbreviation value := (pyval state_dict).
Abbreviation dict := (list (string * value)).
Abbreviation batch := (list (string * tensor)).

(** ** save_model *)

(** X3.  A save that fails writes no file and sends nothing out: the
    files, the log, the model, the optimizer and the scheduler are as they
    were.  It fails exactly when one of the two specs is missing or is no
    mapping: a missing spec raises KeyError, a spec that is no mapping
    TypeError.  When the model spec is at fault nothing at all has
    changed; when it is the optimizer spec, the model spec has already been
    given its ['sd']. *)
Theorem save_model_failures save_path name (w : world) :
  (is_ok (fst (save_model save_path name w)) = false <->
   has_specs (config (genv w)) = false)
  /\ (is_ok (fst (save_model save_path name w)) = false ->
      fs (genv (snd (save_model save_path name w))) = fs (genv w)
      /\ out (genv (snd (save_model save_path name w))) = out (genv w)
      /\ model (snd (save_model save_path name w)) = model w
      /\ optimizer (snd (save_model save_path name w)) = optimizer w
      /\ lr_scheduler (snd (save_model save_path name w)) = lr_scheduler w)
  /\ (dict_get "model" (config (genv w)) = None ->
      save_model save_path name w = (Raise (KeyError "model"), w))
  /\ (forall spec,
        dict_get "model" (config (genv w)) = Some spec ->
        (forall d, spec <> PDict d) ->
        exists what,
          save_model save_path name w = (Raise (TypeError what), w))
  /\ (forall dm,
        dict_get "model" (config (genv w)) = Some (PDict dm) ->
        dict_get "optimizer" (config (genv w)) = None ->
        save_model save_path name w =
          (Raise (KeyError "optimizer"),
           set_genv
             (set_config
                (dict_set "model"
                   (with_sd (PDict dm) (model_state_dict (model w)))
                   (config (genv w)))
                (genv w)) w))
  /\ (forall dm spec,
        dict_get "model" (config (genv w)) = Some (PDict dm) ->
        dict_get "optimizer" (config (genv w)) = Some spec ->
        (forall d, spec <> PDict d) ->
        exists what,
          save_model save_path name w =
            (Raise (TypeError what),
             set_genv
               (set_config
                  (dict_set "model"
                     (with_sd (PDict dm) (model_state_dict (model w)))
                     (config (genv w)))
                  (genv w)) w)).
Proof.
  assert (Hiff : is_ok (fst (save_model save_path name w)) = false <->
                 has_specs (config (genv w)) = false).
  { split.
    - intros H. destruct (has_specs (config (genv w))) eqn:Hs; [|done].
      by rewrite save_model_ok in H.
    - intros Hs. by apply save_model_raise. }
  split; [exact Hiff|].
  split; [intros H; by apply save_model_raise, Hiff|].
  unfold save_model, getitem.
  unfold bind, gets, lift, on_env, modify, torch_save, set_sd.
  split; [|split; [|split]].
  - intros H. simpl. by rewrite H.
  - intros spec H Hd. simpl. rewrite H. simpl.
    destruct spec; try by eexists. by destruct (Hd d).
  - intros dm Hm Ho. simpl. rewrite Hm. simpl.
    rewrite dict_get_set_ne by done. by rewrite Ho.
  - intros dm spec Hm Ho Hd. simpl. rewrite Hm. simpl.
    rewrite dict_get_set_ne by done. rewrite Ho. simpl.
    destruct spec; try by eexists. by destruct (Hd d).
Qed.

(** X4.  A save that succeeds writes one file, the checkpoint record of
    the current model and optimizer, at [model_<name>.pth] in the run
    directory; every other file, the model, the optimizer and the
    scheduler are as before, and the configuration keeps its keys in
    their order. *)
Theorem save_model_effect save_path name (w : world) :
  has_specs (config (genv w)) = true ->
  fst (save_model save_path name w) = Ok tt
  /\ fs (genv (snd (save_model save_path name w))) !! ckpt_path save_path name
       = Some (TorchFile
                 (checkpoint_of (config (genv w)) (model w) (optimizer w)))
  /\ (forall path, path <> ckpt_path save_path name ->
        fs (genv (snd (save_model save_path name w))) !! path
          = fs (genv w) !! path)
  /\ out (genv (snd (save_model save_path name w)))
       = (out (genv w) ++
          [EvWrite (ckpt_path save_path name)
             (TorchFile
                (checkpoint_of (config (genv w)) (model w) (optimizer w)))])%list
  /\ map fst (config (genv (snd (save_model save_path name w))))
       = map fst (config (genv w))
  /\ model (snd (save_model save_path name w)) = model w
  /\ optimizer (snd (save_model save_path name w)) = optimizer w
  /\ lr_scheduler (snd (save_model save_path name w)) = lr_scheduler w.
Proof.
  intros Hs. rewrite save_model_ok by done. simpl.
  split; [done|]. split; [apply lookup_insert_eq|].
  split; [intros path Hp; by apply lookup_insert_ne|].
  split; [done|]. split; [|done].
  unfold has_specs in Hs. unfold saved_config, dict_get_or_none.
  destruct (dict_get "model" (config (genv w))) as [[| | | | | |dm|]|] eqn:Hm;
    try done.
  destruct (dict_get "optimizer" (config (genv w)))
    as [[| | | | | |dop|]|] eqn:Ho; try done.
  erewrite dict_set_keys by (by rewrite dict_get_set_ne).
  by erewrite dict_set_keys.
Qed.

(** X5.  Saves do not pile up.  After a first save, and whatever the model
    and the optimizer have become since, a second save succeeds, and the
    record it writes and the configuration it leaves are those it would
    have written and left had the first save not been made: each spec
    carries one ['sd'], that of the model or optimizer now saved. *)
Theorem save_model_twice save_path name name' (w : world)
    (m : Model) (o : Optimizer) :
  has_specs (config (genv w)) = true ->
  fst (save_model save_path name
         (set_optimizer o (set_model m (snd (save_model save_path name' w)))))
    = Ok tt
  /\ fs (genv (snd (save_model save_path name
                      (set_optimizer o
                         (set_model m (snd (save_model save_path name' w)))))))
       !! ckpt_path save_path name
       = Some (TorchFile (checkpoint_of (config (genv w)) m o))
  /\ fs (genv (snd (save_model save_path name
                      (set_optimizer o (set_model m w)))))
       !! ckpt_path save_path name
       = Some (TorchFile (checkpoint_of (config (genv w)) m o))
  /\ config (genv (snd (save_model save_path name
                          (set_optimizer o
                             (set_model m
                                (snd (save_model save_path name' w)))))))
       = config (genv (snd (save_model save_path name
                              (set_optimizer o (set_model m w))))).
Proof.
  intros Hs.
  rewrite (save_model_ok save_path name' w) by done. cbn [snd].
  rewrite !save_model_ok.
  - cbn [fst snd]. split; [done|].
    split; [|split].
    + cbn. rewrite lookup_insert_eq.
      by rewrite checkpoint_of_saved_config.
    + cbn. by rewrite lookup_insert_eq.
    + cbn. by apply saved_config_twice.
  - done.
  - cbn. by apply has_specs_saved_config.
Qed.

End Extras.

(** ** More runs of the concrete framework *)

Lemma save_model_failures_witness :
  dict_get "model" (config (genv (Toy.no_optimizer)))
    = Some (PDict [("name", PStr "sam")])
  /\ dict_get "optimizer" (config (genv (Toy.no_optimizer))) = None
  /\ fst (save_model (F := Toy.toy) Toy.run_dir "last" Toy.no_optimizer)
       = Raise (KeyError "optimizer")
  /\ fs (genv (snd (save_model (F := Toy.toy) Toy.run_dir "last"
                      Toy.no_optimizer))) = ∅.
Proof.
  split; [reflexivity|]. split; [reflexivity|].
  destruct (save_model_failures (F := Toy.toy) Toy.run_dir "last"
              Toy.no_optimizer) as (_ & _ & _ & _ & H & _).
  rewrite (H [("name", PStr "sam")]); [|reflexivity..].
  split; reflexivity.
Defined.

Lemma save_model_effect_witness :
  has_specs (config (genv Toy.start)) = true
  /\ fst (save_model (F := Toy.toy) Toy.run_dir "best" Toy.start) = Ok tt.
Proof.
  split; [reflexivity|].
  apply (save_model_effect (F := Toy.toy) Toy.run_dir "best" Toy.start).
  reflexivity.
Defined.

Lemma save_model_twice_witness :
  has_specs (config (genv Toy.start)) = true
  /\ fs (genv (snd (save_model (F := Toy.toy) Toy.run_dir "best"
                      (set_optimizer (F := Toy.toy) 2
                         (set_model (F := Toy.toy) [2; 1]
                            (snd (save_model (F := Toy.toy) Toy.run_dir
                                    "last" Toy.start)))))))
       !! ckpt_path Toy.run_dir "best"
       = Some (TorchFile (F := Toy.toy)
                 (PDict [("model_spec",
                          PDict [("name", PStr "sam"); ("sd", PStateDict 3)]);
                         ("optimizer_spec",
                          PDict [("name", PStr "adamw");
                                 ("sd", PStateDict 2)])])).
Proof.
  split; [reflexivity|].
  destruct (save_model_twice (F := Toy.toy) Toy.run_dir "best" "last"
              Toy.start [2; 1] 2 eq_refl) as (_ & H & _).
  rewrite H. reflexivity.
Defined.

(** ** eval_psnr and train *)

Section Passes.
Context `{F : Framework}.

Abbreviation value := (pyval state_dict).
Abbreviation batch := (list (string * tensor)).

(** X6.  Whatever its outcome, [eval_psnr] does one thing to the world: it
    puts the model in evaluation mode.  The optimizer, the scheduler, the
    configuration, the files and the log are as before. *)
Theorem eval_psnr_only_sets_mode loader (eval_type : value) (w : world) :
  model (snd (eval_psnr loader eval_type w)) = model_eval (model w)
  /\ optimizer (snd (eval_psnr loader eval_type w)) = optimizer w
  /\ lr_scheduler (snd (eval_psnr loader eval_type w)) = lr_scheduler w
  /\ genv (snd (eval_psnr loader eval_type w)) = genv w.
Proof. by rewrite eval_psnr_world. Qed.

(** The key a batch lacks: ['inp'] is looked up first. *)
Lemma bad_batch_key (b : batch) :
  batch_ok b = false ->
  (dict_get "inp" (batch_cuda b) = None)
  \/ (exists inp, dict_get "inp" (batch_cuda b) = Some inp /\
                  dict_get "gt" (batch_cuda b) = None).
Proof.
  unfold batch_ok, fields.
  destruct (dict_get "inp" (batch_cuda b)) as [inp|]; [|by left].
  destruct (dict_get "gt" (batch_cuda b)) as [gt|]; [done|].
  right. by exists inp.
Qed.


(** X8.  [train] stops at the first batch that lacks ['inp'] or ['gt']
    with a KeyError, and the optimization steps made on the batches before
    it stay made. *)
Theorem train_stops_at_bad_batch (good : list batch) bad rest (w : world) :
  forallb batch_ok good = true ->
  batch_ok bad = false ->
  exists k, (k = "inp" \/ k = "gt") /\
    train (Some (good ++ bad :: rest)%list) w
      = (Raise (KeyError k), trained good w).
Proof.
  intros Hgood Hbad.
  unfold train, trained. unfold bind at 1. simpl. unfold bind at 1. simpl.
  assert (Hfold : exists k, (k = "inp" \/ k = "gt") /\
            foldM train_batch (good ++ bad :: rest)%list []
              (set_model (model_train (model w)) w)
            = (Raise (KeyError k),
               let mo := fold_left step good
                           (model_train (model w), optimizer w) in
               set_optimizer (snd mo) (set_model (fst mo) w))).
  { rewrite foldM_app. erewrite bind_ok by (by apply foldM_train_batch).
    cbn [foldM]. unfold bind at 1, train_batch, bind, lift, gets, getitem.
    destruct (bad_batch_key bad Hbad) as [Hi|(inp & Hi & Hg)].
    - exists "inp". rewrite Hi. auto.
    - exists "gt". rewrite Hi, Hg. auto. }
  destruct Hfold as (k & Hk & Hfold). exists k. split; [done|].
  by erewrite bind_raise.
Qed.

Lemma foldM_train_batch_frame (bs : list batch) :
  forall (acc : list pyfloat) (w : world),
  genv (snd (foldM train_batch bs acc w)) = genv w
  /\ lr_scheduler (snd (foldM train_batch bs acc w)) = lr_scheduler w.
Proof.
  induction bs as [|b bs IH]; intros acc w; simpl; [done|].
  unfold bind. unfold train_batch at 1 3, bind, lift, gets, modify, ret.
  destruct (getitem "inp" (batch_cuda b)) as [inp|e]; simpl; [|done].
  destruct (getitem "gt" (batch_cuda b)) as [gt|e]; simpl; [|done].
  match goal with |- context [foldM train_batch bs ?a ?w1] =>
    destruct (IH a w1) as [H1 H2]; by rewrite H1, H2 end.
Qed.

(** X9.  Whatever its outcome, [train] writes no file, sends nothing to
    the log or to the summaries, leaves the scheduler alone and assigns
    nothing in the configuration: every entry but the two specs, and every
    entry of a spec but ['sd'], is as before.  (The state dicts a save has
    put under ['sd'] are those of the model and the optimizer, which
    [train] does change.) *)
Theorem train_frame loader (w : world) :
  fs (genv (snd (train loader w))) = fs (genv w)
  /\ out (genv (snd (train loader w))) = out (genv w)
  /\ lr_scheduler (snd (train loader w)) = lr_scheduler w
  /\ map fst (config (genv (snd (train loader w))))
       = map fst (config (genv w))
  /\ config_frame (genv w) (genv (snd (train loader w)))
  /\ spec_frame (genv w) (genv (snd (train loader w))).
Proof.
  assert (H0 : genv (snd (train loader w)) = genv w
               /\ lr_scheduler (snd (train loader w)) = lr_scheduler w).
  { destruct (train loader w) as [r w'] eqn:H. simpl.
    unfold train in H. unfold bind at 1 in H. simpl in H.
    destruct loader as [bs|]; simpl in H; [|by inversion H].
    pose proof (foldM_train_batch_frame bs []
                  (set_model (model_train (model w)) w)) as [H1 H2].
    destruct (foldM train_batch bs [] (set_model (model_train (model w)) w))
      as [[l|e] w1] eqn:Hf; simpl in H1, H2.
    - erewrite bind_ok in H by reflexivity.
      erewrite bind_ok in H by exact Hf. unfold lift in H.
      inversion H. by subst.
    - erewrite bind_ok in H by reflexivity.
      erewrite bind_raise in H by exact Hf. inversion H. by subst. }
  destruct H0 as [-> ->]. do 4 (split; [done|]).
  split; [apply config_frame_refl | apply spec_frame_refl].
Qed.

Lemma Qsum_bounds (qs : list Q) (lo hi : Q) :
  Forall (fun q => lo <= q /\ q <= hi)%Q qs ->
  (inject_Z (Z.of_nat (length qs)) * lo <= Qsum qs
   /\ Qsum qs <= inject_Z (Z.of_nat (length qs)) * hi)%Q.
Proof.
  induction 1 as [|q qs [Hlo Hhi] _ [IHlo IHhi]]; simpl length.
  - change (inject_Z (Z.of_nat 0)) with 0%Q. rewrite !Qmult_0_l.
    split; apply Qle_refl.
  - rewrite Nat2Z.inj_succ. unfold Z.succ. rewrite inject_Z_plus.
    simpl Qsum. split.
    + assert (E : ((inject_Z (Z.of_nat (length qs)) + inject_Z 1) * lo
                   == lo + inject_Z (Z.of_nat (length qs)) * lo)%Q) by ring.
      rewrite E. by apply Qplus_le_compat.
    + assert (E : ((inject_Z (Z.of_nat (length qs)) + inject_Z 1) * hi
                   == hi + inject_Z (Z.of_nat (length qs)) * hi)%Q) by ring.
      rewrite E. by apply Qplus_le_compat.
Qed.

(** X10.  When the losses of a pass are finite, the epoch loss [train]
    returns lies between the smallest and the largest of them: between any
    two bounds that hold for every batch loss. *)
Theorem train_loss_between_bounds (bs : list batch) (w : world)
    (qs : list Q) (lo hi : Q) :
  bs <> [] ->
  forallb batch_ok bs = true ->
  losses (model_train (model w), optimizer w) bs = map Fin qs ->
  Forall (fun q => lo <= q /\ q <= hi)%Q qs ->
  exists q, fst (train (Some bs) w) = Ok (Fin q) /\ (lo <= q /\ q <= hi)%Q.
Proof.
  intros Hne Hok Hqs Hbounds.
  rewrite train_spec by done. simpl. rewrite Hqs.
  assert (Hlen : length qs = length bs).
  { rewrite <- (losses_length (model_train (model w), optimizer w) bs), Hqs.
    by rewrite length_map. }
  assert (Hqne : qs <> []) by (intros ->; by destruct bs).
  pose proof (losses_doubles _ _ _ Hqs) as Hd.
  destruct (mean_doubles qs Hqne Hd) as (a & b & Ha & Hb & Hm & Hlo & Hhi).
  rewrite Hm. eexists. split; [done|].
  rewrite List.Forall_forall in Hbounds.
  destruct (Hbounds a Ha) as [Hla _]. destruct (Hbounds b Hb) as [_ Hbh].
  rewrite Qred_correct. split.
  - by eapply Qle_trans.
  - by eapply Qle_trans.
Qed.
End Passes.


Lemma train_stops_at_bad_batch_witness :
  forallb (batch_ok (F := Toy.toy)) Toy.batches = true
  /\ batch_ok (F := Toy.toy) [("gt", 1)] = false
  /\ exists k,
       train (F := Toy.toy) (Some (Toy.batches ++ [("gt", 1)] :: [])%list)
         Toy.start
       = (Raise (KeyError k), trained (F := Toy.toy) Toy.batches Toy.start).
Proof.
  split; [reflexivity|]. split; [reflexivity|].
  destruct (train_stops_at_bad_batch (F := Toy.toy) Toy.batches [("gt", 1)]
              [] Toy.start eq_refl eq_refl) as (k & _ & Hk).
  by exists k.
Defined.

Lemma train_loss_between_bounds_witness :
  Toy.batches <> []
  /\ forallb (batch_ok (F := Toy.toy)) Toy.batches = true
  /\ losses (F := Toy.toy) ([], 0) Toy.batches = map Fin [3 # 1; 5 # 1]
  /\ Forall (fun q => 3 # 1 <= q /\ q <= 5 # 1)%Q [3 # 1; 5 # 1]
  /\ exists q,
       fst (train (F := Toy.toy) (Some Toy.batches) Toy.start) = Ok (Fin q)
       /\ (3 # 1 <= q /\ q <= 5 # 1)%Q.
Proof.
  assert (Hb : Forall (fun q => 3 # 1 <= q /\ q <= 5 # 1)%Q [3 # 1; 5 # 1]).
  { repeat constructor; discriminate. }
  split; [discriminate|]. split; [reflexivity|]. split; [reflexivity|].
  split; [exact Hb|].
  apply (train_loss_between_bounds (F := Toy.toy) Toy.batches Toy.start
           [3 # 1; 5 # 1]); [discriminate | reflexivity | reflexivity | exact Hb].
Defined.

(** ** The configuration entries [main] reads *)

Section Entries.
Context `{F : Framework}.

Abbreviation value := (pyval state_dict).
Abbreviation dict := (list (string * value)).

Lemma dict_set_new {V} k (v : V) d :
  dict_get k d = None -> dict_set k v d = (d ++ [(k, v)])%list.
Proof.
  induction d as [|[k' v'] d IH]; simpl; [done|].
  destruct (String.eqb k k'); [done|]. intros H. by rewrite IH.
Qed.

(** X11.  After the injection [config.get('data_norm')] is never [None]:
    an entry that holds a value is kept, one that is missing is added at
    the end, one that is null is replaced where it stands; injecting again
    changes nothing. *)
Theorem inject_data_norm_establishes (cfg : dict) :
  is_none (dict_get_or_none "data_norm" (inject_data_norm cfg)) = false
  /\ inject_data_norm (inject_data_norm cfg) = inject_data_norm cfg
  /\ (forall v, dict_get "data_norm" cfg = Some v -> is_none v = false ->
        inject_data_norm cfg = cfg)
  /\ (dict_get "data_norm" cfg = None ->
      inject_data_norm cfg = (cfg ++ [("data_norm", data_norm_default)])%list)
  /\ (dict_get "data_norm" cfg = Some PNone ->
      map fst (inject_data_norm cfg) = map fst cfg /\
      dict_get "data_norm" (inject_data_norm cfg) = Some data_norm_default).
Proof.
  assert (H1 : is_none (dict_get_or_none "data_norm" (inject_data_norm cfg))
               = false).
  { unfold inject_data_norm.
    destruct (is_none (dict_get_or_none "data_norm" cfg)) eqn:E; [|done].
    unfold dict_get_or_none. by rewrite dict_get_set_eq. }
  split; [done|]. split; [|split; [|split]].
  - unfold inject_data_norm at 1. by rewrite H1.
  - intros v Hv Hn. unfold inject_data_norm, dict_get_or_none.
    by rewrite Hv, Hn.
  - intros Hv. unfold inject_data_norm, dict_get_or_none. rewrite Hv. simpl.
    by apply dict_set_new.
  - intros Hv. unfold inject_data_norm, dict_get_or_none. rewrite Hv. simpl.
    split; [by eapply dict_set_keys | apply dict_get_set_eq].
Qed.

(** X12.  Validation runs in the epochs that are multiples of [epoch_val],
    counted from zero and not from the first epoch of the run, and a
    negative [epoch_val] selects the same epochs as its opposite; with
    [epoch_val] unset it never runs, and with [epoch_val] zero the test
    itself raises ZeroDivisionError. *)
Theorem validation_schedule (k epoch : Z) :
  (k <> 0 ->
   exists b, is_val_epoch (PInt k) epoch = Ok b /\
             (b = true <-> (k | epoch)))
  /\ is_val_epoch (PInt (- k)) epoch = is_val_epoch (PInt k) epoch
  /\ is_val_epoch (PInt 0) epoch = Raise ZeroDivisionError
  /\ is_val_epoch PNone epoch = Ok false.
Proof.
  unfold is_val_epoch, epoch_divides. simpl. split; [|split; [|done]].
  - intros Hk. destruct (Z.eqb_spec k 0) as [|_]; [done|].
    eexists. split; [done|].
    rewrite Z.eqb_eq. by apply Z.mod_divide.
  - destruct (Z.eqb_spec k 0) as [->|Hk]; [done|].
    destruct (Z.eqb_spec (- k) 0) as [|_]; [lia|]. f_equal.
    apply eq_true_iff_eq. rewrite !Z.eqb_eq.
    rewrite !Z.mod_divide by lia. apply Z.divide_opp_l.
Qed.

(** X13.  With [epoch_val] zero an epoch raises ZeroDivisionError, but
    only once it has trained, stepped the scheduler, written its two
    scalars and saved [model_last.pth]: so it does whenever the training
    pass and the step of the scheduler go through and both specs are
    mappings. *)
Theorem epoch_val_zero save_path train_loader val_loader epoch_start
    epoch_max max_val_v epoch (w : world) loss w1 :
  train (option_map (fun l => loader_pass l epoch) train_loader) w
    = (Ok loss, w1) ->
  step_ok w1 = true ->
  has_specs (config (genv w)) = true ->
  epoch_body save_path train_loader val_loader epoch_start epoch_max
    (PInt 0) max_val_v epoch w
    = (Raise ZeroDivisionError, after_last save_path epoch loss (stepped w1))
  /\ out (genv (after_last save_path epoch loss (stepped w1)))
       = (out (genv w) ++ head_events save_path epoch loss (stepped w1))%list
  /\ fs (genv (after_last save_path epoch loss (stepped w1)))
       !! ckpt_path save_path "last"
       = Some (TorchFile (checkpoint_of (config (genv w)) (model (stepped w1))
                            (optimizer (stepped w1)))).
Proof.
  intros Htrain Hstep Hspecs.
  pose proof (train_genv
    (option_map (fun l => loader_pass l epoch) train_loader) w) as Hgenv.
  rewrite Htrain in Hgenv. simpl in Hgenv.
  split; [|split].
  - unfold epoch_body. erewrite bind_ok by exact Htrain.
    rewrite bind_step_ok by done.
    rewrite bind_gets, bind_emit, bind_emit.
    erewrite bind_ok.
    2:{ apply save_model_ok. simpl. by rewrite Hgenv. }
    reflexivity.
  - rewrite out_after_last. change (genv (stepped w1)) with (genv w1).
    by rewrite Hgenv.
  - rewrite after_last_fs. simpl. rewrite Hgenv. apply lookup_insert_eq.
Qed.

(** X14.  A run can end normally only if ['resume'], when set, is an
    integer [z], and it then starts at epoch [z + 1]; a string, such as
    the path of a checkpoint, makes [prepare_training] raise a TypeError
    once the model and the optimizer have been built. *)
Theorem resume_must_be_integer :
  (forall (e : env) s m o sch,
     dict_get "resume" (config e) = Some (PStr s) ->
     fresh (config e) = Ok (m, o, sch) ->
     exists what, prepare_training e = (Raise (TypeError what), e))
  /\ (forall (config_ : dict) save_path disk v r,
        dict_get "resume" config_ = Some v ->
        is_none v = false ->
        fst (main config_ save_path disk) = Ok r ->
        exists z, as_int v = Some z /\
                  first_epoch config_ = Ok (PInt (z + 1))).
Proof.
  split.
  - intros e s m o sch Hr Hf. rewrite prepare_training_spec, Hf.
    unfold first_epoch, dict_get_or_none. rewrite Hr. simpl. by eexists.
  - intros config_ sp disk v r Hv Hn H. unfold main in H.
    destruct (main_setup sp (Env config_ disk [])) as [[x|err] e1] eqn:Hm;
      [|done].
    destruct x as [[tl vl] [[[m o] es] s]].
    apply main_setup_first_epoch in Hm. simpl in Hm.
    destruct (main_loop sp tl vl es (World e1 m o s)) as [r' w'] eqn:Hl.
    simpl in H. subst r'.
    apply main_loop_inv in Hl as (em & epochs & _ & Hrange & _).
    apply epoch_range_inv in Hrange as (a & b & Ha & _).
    revert Hm. unfold first_epoch, dict_get_or_none. rewrite Hv, Hn.
    destruct v as [|b0|z|f| | | |]; simpl; try done.
    + intros [= <-]. by exists (Z.b2z b0).
    + intros [= <-]. by exists z.
    + destruct f; intros [= <-]; done.
Qed.
End Entries.

Lemma validation_schedule_witness :
  2 <> 0
  /\ exists b, is_val_epoch (F := Toy.toy) (PInt 2) 4 = Ok b /\
               (b = true <-> (2 | 4)).
Proof.
  split; [lia|].
  apply (validation_schedule (F := Toy.toy) 2 4). lia.
Defined.

Lemma inject_data_norm_establishes_witness :
  dict_get "data_norm" (Toy.cfg PNone PNone) = None
  /\ inject_data_norm (F := Toy.toy) (Toy.cfg PNone PNone)
     = (Toy.cfg PNone PNone
        ++ [("data_norm", data_norm_default (F := Toy.toy))])%list.
Proof.
  split; [reflexivity|].
  apply (inject_data_norm_establishes (F := Toy.toy) (Toy.cfg PNone PNone)).
  reflexivity.
Defined.

Lemma epoch_val_zero_witness :
  train (F := Toy.toy) (option_map (fun l => loader_pass l 1)
                          Toy.train_loader) Toy.start
    = (Ok (Fin 4), trained (F := Toy.toy) Toy.batches Toy.start)
  /\ step_ok (trained (F := Toy.toy) Toy.batches Toy.start) = true
  /\ has_specs (config (genv Toy.start)) = true
  /\ fst (epoch_body (F := Toy.toy) Toy.run_dir Toy.train_loader
            Toy.val_loader 1 (PInt 3) (PInt 0) neg_1e18 1 Toy.start)
       = Raise ZeroDivisionError.
Proof.
  assert (Ht : train (F := Toy.toy) (option_map (fun l => loader_pass l 1)
                                       Toy.train_loader) Toy.start
               = (Ok (Fin 4), trained (F := Toy.toy) Toy.batches Toy.start))
    by (vm_compute; reflexivity).
  split; [exact Ht|]. split; [reflexivity|]. split; [reflexivity|].
  destruct (epoch_val_zero (F := Toy.toy) Toy.run_dir Toy.train_loader
              Toy.val_loader 1 (PInt 3) neg_1e18 1 Toy.start (Fin 4)
              (trained (F := Toy.toy) Toy.batches Toy.start)
              Ht eq_refl eq_refl) as [H _].
  exact (f_equal fst H).
Defined.

Lemma resume_must_be_integer_witness :
  dict_get "resume" Toy.resumed = Some (PInt 1)
  /\ fst (main (F := Toy.toy) Toy.resumed Toy.run_dir Toy.disk) = Ok (Fin 4)
  /\ exists z, as_int (F := Toy.toy) (PInt 1) = Some z /\
               first_epoch (F := Toy.toy) Toy.resumed = Ok (PInt (z + 1)).
Proof.
  split; [reflexivity|]. split; [vm_compute; reflexivity|].
  destruct (resume_must_be_integer (F := Toy.toy)) as [_ H].
  apply (H Toy.resumed Toy.run_dir Toy.disk (PInt 1) (Fin 4));
    [reflexivity | reflexivity | vm_compute; reflexivity].
Defined.

(** ** The whole of [main] *)

Section RunProperties.
Context `{F : Framework}.

Abbreviation value := (pyval state_dict).
Abbreviation dict := (list (string * value)).

(** X15.  [main] reads [config['eval_type']] before the loop, so a
    configuration without that entry never trains, even one that asks for
    no validation: the run raises, and all it leaves is [config.yaml]. *)
Theorem eval_type_required (config_ : dict) save_path disk :
  dict_get "eval_type" config_ = None ->
  is_ok (fst (main config_ save_path disk)) = false
  /\ only_setup config_ save_path disk (snd (main config_ save_path disk)).
Proof.
  intros Het. unfold main, only_setup.
  pose proof (main_setup_env save_path (Env config_ disk [])) as Hs.
  destruct (main_setup save_path (Env config_ disk [])) as [[x|err] e1];
    simpl in Hs; destruct Hs as (Hfs & Hout & _ & Hok).
  2:{ simpl. split; [done|]. split; [done|]. exists []. by rewrite Hout. }
  destruct x as [[tl vl] [[[m o] es] s]]. specialize (Hok eq_refl).
  destruct (main_loop_cases save_path tl vl es (World e1 m o s))
    as (pre & ws & Hpre & Hws & [(e & Hl & _)|(em & et & ep & _ & Het' & _)]).
  - rewrite Hl. simpl. rewrite Hws. simpl. split; [done|].
    split; [done|]. exists pre. by rewrite Hout.
  - simpl in Het'. rewrite Hok, dict_get_inject_data_norm in Het' by done.
    congruence.
Qed.

(** X16.  When the first epoch is past the configured maximum, as when
    ['resume'] is the last epoch or beyond, a run that ends normally has
    trained nothing and saved no checkpoint: it returns the initial value
    of the tracker and leaves only [config.yaml]. *)
Theorem nothing_left_to_train (config_ : dict) save_path disk r
    epoch_start epoch_max a b :
  fst (main config_ save_path disk) = Ok r ->
  first_epoch config_ = Ok epoch_start ->
  as_int epoch_start = Some a ->
  dict_get "epoch_max" config_ = Some epoch_max ->
  as_int epoch_max = Some b ->
  b < a ->
  (exists eval_type,
     dict_get "eval_type" config_ = Some eval_type /\
     r = init_max_val_v eval_type)
  /\ only_setup config_ save_path disk (snd (main config_ save_path disk)).
Proof.
  unfold main, only_setup. intros H Hfirst Ha Hmax Hb Hlt.
  pose proof (main_setup_env save_path (Env config_ disk [])) as Hs.
  destruct (main_setup save_path (Env config_ disk [])) as [[x|err] e1] eqn:Hm;
    [|done].
  destruct x as [[tl vl] [[[m o] es] s]].
  apply main_setup_first_epoch in Hm. simpl in Hm.
  rewrite Hfirst in Hm. injection Hm as <-.
  simpl in Hs. destruct Hs as (Hfs & Hout & _ & Hok). specialize (Hok eq_refl).
  destruct (main_loop_cases save_path tl vl epoch_start (World e1 m o s))
    as (pre & ws & Hpre & Hws & [(e & Hl & _)|(em & et & ep & Hem & Het & Hr & Hl)]).
  { rewrite Hl in H. done. }
  simpl in Hem, Het.
  rewrite Hok, dict_get_inject_data_norm in Hem, Het by done.
  rewrite Hmax in Hem. injection Hem as <-.
  apply epoch_range_inv in Hr as (a' & b' & Ha' & Hb' & ->).
  rewrite Ha in Ha'. rewrite Hb in Hb'.
  injection Ha' as <-. injection Hb' as <-.
  unfold range in Hl. replace (Z.to_nat (b + 1 - a)) with 0%nat in Hl by lia.
  simpl in Hl. unfold ret in Hl. rewrite Hl in H |- *. simpl in *.
  injection H as <-. split; [by exists et|].
  rewrite Hws. simpl. split; [done|]. exists pre. by rewrite Hout.
Qed.

(** X17.  Without a training dataset no epoch can complete: a run of such
    a configuration that ends normally had no epoch to run, and has
    trained nothing and saved no checkpoint. *)
Theorem no_training_data_no_epoch (config_ : dict) save_path disk r :
  is_none (dict_get_or_none "train_dataset" config_) = true ->
  fst (main config_ save_path disk) = Ok r ->
  (exists eval_type,
     dict_get "eval_type" config_ = Some eval_type /\
     r = init_max_val_v eval_type)
  /\ only_setup config_ save_path disk (snd (main config_ save_path disk)).
Proof.
  unfold main, only_setup. intros Hnone H.
  pose proof (main_setup_env save_path (Env config_ disk [])) as Hs.
  destruct (main_setup save_path (Env config_ disk [])) as [[x|err] e1] eqn:Hm;
    [|done].
  destruct x as [[tl vl] p].
  apply main_setup_loaders in Hm as [Htl _]. simpl in Htl.
  unfold make_data_loader in Htl. rewrite Hnone in Htl. injection Htl as <-.
  destruct p as [[[m o] es] s].
  simpl in Hs. destruct Hs as (Hfs & Hout & _ & Hok). specialize (Hok eq_refl).
  destruct (main_loop_cases save_path None vl es (World e1 m o s))
    as (pre & ws & Hpre & Hws & [(e & Hl & _)|(em & et & ep & Hem & Het & Hr & Hl)]).
  { rewrite Hl in H. done. }
  simpl in Het. rewrite Hok, dict_get_inject_data_norm in Het by done.
  destruct ep as [|epoch ep].
  - simpl in Hl. unfold ret in Hl. rewrite Hl in H |- *. simpl in *.
    injection H as <-. split; [by exists et|].
    rewrite Hws. simpl. split; [done|]. exists pre. by rewrite Hout.
  - exfalso. rewrite Hl in H. cbn [foldM] in H.
    erewrite bind_raise in H; [done|].
    unfold epoch_body. erewrite bind_raise; reflexivity.
Qed.
End RunProperties.

Lemma eval_type_required_witness :
  dict_get "eval_type" (removelast (Toy.cfg PNone PNone)) = None
  /\ is_ok (fst (main (F := Toy.toy) (removelast (Toy.cfg PNone PNone))
                   Toy.run_dir ∅)) = false.
Proof.
  split; [reflexivity|].
  apply (eval_type_required (F := Toy.toy) (removelast (Toy.cfg PNone PNone))
           Toy.run_dir ∅). reflexivity.
Defined.

Lemma nothing_left_to_train_witness :
  fst (main (F := Toy.toy) (("resume", PInt 3) :: Toy.cfg (PInt 2) (PStr "f1"))
         Toy.run_dir ∅) = Ok neg_1e18
  /\ 3 < 4
  /\ exists eval_type,
       dict_get "eval_type" (("resume", PInt 3) :: Toy.cfg (PInt 2) (PStr "f1"))
         = Some eval_type /\
       neg_1e18 = init_max_val_v (F := Toy.toy) eval_type.
Proof.
  split; [vm_compute; reflexivity|]. split; [lia|].
  apply (nothing_left_to_train (F := Toy.toy)
           (("resume", PInt 3) :: Toy.cfg (PInt 2) (PStr "f1"))
           Toy.run_dir ∅ neg_1e18 (PInt 4) (PInt 3) 4 3);
    [vm_compute; reflexivity | reflexivity | reflexivity | reflexivity
    | reflexivity | lia].
Defined.

Lemma no_training_data_no_epoch_witness :
  is_none (dict_get_or_none (SD := Z) "train_dataset" Toy.idle) = true
  /\ fst (main (F := Toy.toy) Toy.idle Toy.run_dir ∅) = Ok neg_1e18
  /\ exists eval_type,
       dict_get "eval_type" Toy.idle = Some eval_type /\
       neg_1e18 = init_max_val_v (F := Toy.toy) eval_type.
Proof.
  split; [reflexivity|]. split; [vm_compute; reflexivity|].
  apply (no_training_data_no_epoch (F := Toy.toy) Toy.idle Toy.run_dir ∅
           neg_1e18); [reflexivity | vm_compute; reflexivity].
Defined.

(** ** The epoch loop as a whole *)

Section Loop.
Context `{F : Framework}.

Abbreviation value := (pyval state_dict).
Abbreviation dict := (list (string * value)).

Lemma flt_trans (a b c : pyfloat) :
  flt a b = true -> flt b c = true -> flt a c = true.
Proof.
  destruct a as [x| | |], b as [y| | |], c as [z| | |]; simpl; try done.
  destruct (Qcompare x y) eqn:Hxy; try done.
  destruct (Qcompare y z) eqn:Hyz; try done.
  intros _ _. apply Qlt_alt in Hxy, Hyz.
  by rewrite (proj1 (Qlt_alt x z) (Qlt_trans _ _ _ Hxy Hyz)).
Qed.

Lemma better_trans (eval_type : value) (a b c : pyfloat) :
  better eval_type a b = true -> better eval_type b c = true ->
  better eval_type a c = true.
Proof.
  unfold better. destruct (str_eq eval_type "ber"); intros H1 H2.
  - by eapply flt_trans.
  - by eapply flt_trans.
Qed.

(** An iteration changes no entry of the configuration but the two
    specs, however it ends. *)
Lemma epoch_body_keeps_entries save_path train_loader val_loader epoch_start
    epoch_max epoch_val max_val_v epoch (w : world) :
  config_frame (genv w)
    (genv (snd (epoch_body save_path train_loader val_loader epoch_start
                  epoch_max epoch_val max_val_v epoch w))).
Proof.
  apply (preserves_epoch_body config_frame).
  - apply config_frame_refl.
  - apply config_frame_trans.
  - by intros e ev _ k.
  - by intros e name obj k.
  - intros e k d sd Hk _. by apply config_frame_spec.
Qed.

(** The tracker after a completed iteration. *)
Lemma epoch_body_tracker save_path train_loader val_loader epoch_start
    epoch_max epoch_val max_val_v epoch (w : world) v w' eval_type :
  dict_get "eval_type" (config (genv w)) = Some eval_type ->
  epoch_body save_path train_loader val_loader epoch_start epoch_max
    epoch_val max_val_v epoch w = (Ok v, w') ->
  v = max_val_v \/ better eval_type v max_val_v = true.
Proof.
  intros Het H.
  apply epoch_body_inv in H as (loss & w1 & b & Htrain & _ & _ & _ & H).
  pose proof (train_genv
    (option_map (fun l => loader_pass l epoch) train_loader) w) as Hgenv.
  rewrite Htrain in Hgenv. simpl in Hgenv.
  cbv zeta in H. destruct b; [|left; by destruct H].
  destruct H as (r & et & _ & Het' & -> & _).
  rewrite config_after_last in Het' by done. simpl in Het'.
  rewrite Hgenv, Het in Het'. injection Het' as <-.
  unfold improved, active_metric, better, fgt.
  destruct (str_eq eval_type "ber"); simpl.
  - destruct (flt (result3 r) max_val_v) eqn:E; auto.
  - destruct (flt max_val_v (result1 r)) eqn:E; auto.
Qed.

(** X18.  Over a run of the epoch loop the tracker only improves: when
    the loop completes, the tracker is the value it started with or a
    value strictly better for the evaluation type (lower for ['ber'],
    higher otherwise). *)
Theorem tracker_only_improves save_path train_loader val_loader epoch_start
    epoch_max epoch_val (epochs : list Z) eval_type max_val_v (w : world) v :
  dict_get "eval_type" (config (genv w)) = Some eval_type ->
  fst (foldM (epoch_body save_path train_loader val_loader epoch_start
                epoch_max epoch_val) epochs max_val_v w) = Ok v ->
  v = max_val_v \/ better eval_type v max_val_v = true.
Proof.
  intros Het0 H0.
  destruct (foldM (epoch_body save_path train_loader val_loader epoch_start
                     epoch_max epoch_val) epochs max_val_v w)
    as [r0 w0'] eqn:H0'.
  simpl in H0. subst r0.
  revert max_val_v w v w0' Het0 H0'.
  induction epochs as [|epoch epochs IH]; intros mv w v w' Het H.
  - left. by inversion H.
  - cbn [foldM] in H. apply bind_ok_inv in H as (mv1 & w1 & H1 & H2).
    pose proof (epoch_body_keeps_entries save_path train_loader val_loader
                  epoch_start epoch_max epoch_val mv epoch w) as Hframe.
    rewrite H1 in Hframe. simpl in Hframe.
    specialize (Hframe "eval_type" ltac:(done) ltac:(done)).
    rewrite Het in Hframe.
    destruct (epoch_body_tracker _ _ _ _ _ _ _ _ _ _ _ _ Het H1) as [->|Hb1].
    + by eapply IH.
    + destruct (IH mv1 w1 v w' Hframe H2) as [->|Hb2]; [by right|].
      right. by eapply better_trans.
Qed.

Lemma count_app (f : event -> bool) (l1 l2 : list event) :
  count f (l1 ++ l2) = (count f l1 + count f l2)%nat.
Proof. unfold count. by rewrite List.filter_app, length_app. Qed.

(** What a completed iteration sends out, counted. *)
Lemma epoch_body_counts save_path train_loader val_loader epoch_start
    epoch_max epoch_val max_val_v epoch (w : world) v w' :
  epoch_body save_path train_loader val_loader epoch_start epoch_max
    epoch_val max_val_v epoch w = (Ok v, w') ->
  exists new,
    out (genv w') = (out (genv w) ++ new)%list /\
    count (writes_to (ckpt_path save_path "last")) new = 1%nat /\
    count is_log new = (if validated epoch_val epoch then 1 else 0)%nat /\
    count is_flush new = count is_log new /\
    (count (writes_to (ckpt_path save_path "best")) new
     <= count is_log new)%nat.
Proof.
  intros H.
  apply epoch_body_inv in H as (loss & w1 & b & _ & _ & _ & Hval & H).
  cbv zeta in H. unfold validated. rewrite Hval.
  assert (Hbl := ckpt_path_best_not_last save_path).
  assert (Hlb : String.eqb (ckpt_path save_path "last")
                  (ckpt_path save_path "best") = false).
  { rewrite String.eqb_sym. exact Hbl. }
  destruct b.
  - destruct H as (r & et & _ & _ & _ & Hout).
    eexists. split; [exact Hout|].
    rewrite !count_app. unfold best_events.
    destruct (improved et r max_val_v); unfold count; simpl;
      rewrite ?String.eqb_refl, ?Hbl, ?Hlb; simpl; repeat split; lia.
  - destruct H as (_ & _ & Hout).
    eexists. split; [exact Hout|].
    unfold count. simpl. rewrite ?String.eqb_refl, ?Hlb. simpl.
    repeat split; lia.
Qed.

(** X19.  A run of the epoch loop that completes has written
    [model_last.pth] once per epoch, and has logged one line, followed by
    one flush, per validation epoch and none besides; [model_best.pth] was
    written at most as many times as lines were logged. *)
Theorem loop_counts save_path train_loader val_loader epoch_start
    epoch_max epoch_val (epochs : list Z) max_val_v (w : world) v :
  fst (foldM (epoch_body save_path train_loader val_loader epoch_start
                epoch_max epoch_val) epochs max_val_v w) = Ok v ->
  exists new,
    out (genv (snd (foldM (epoch_body save_path train_loader val_loader
                             epoch_start epoch_max epoch_val)
                      epochs max_val_v w)))
      = (out (genv w) ++ new)%list /\
    count (writes_to (ckpt_path save_path "last")) new = length epochs /\
    count is_log new = length (List.filter (validated epoch_val) epochs) /\
    count is_flush new = count is_log new /\
    (count (writes_to (ckpt_path save_path "best")) new
     <= count is_log new)%nat.
Proof.
  intros H0.
  destruct (foldM (epoch_body save_path train_loader val_loader epoch_start
                     epoch_max epoch_val) epochs max_val_v w)
    as [r0 w0'] eqn:H0'.
  simpl in H0. subst r0. simpl.
  revert max_val_v w v w0' H0'.
  induction epochs as [|epoch epochs IH]; intros mv w v w' H.
  - inversion H. exists []. rewrite app_nil_r. by repeat split.
  - cbn [foldM] in H. apply bind_ok_inv in H as (mv1 & w1 & H1 & H2).
    apply epoch_body_counts in H1
      as (new1 & Hout1 & Hlast1 & Hlog1 & Hflush1 & Hbest1).
    apply IH in H2 as (new2 & Hout2 & Hlast2 & Hlog2 & Hflush2 & Hbest2).
    exists (new1 ++ new2)%list.
    split; [by rewrite Hout2, Hout1, <- app_assoc|].
    rewrite !count_app. cbn [List.filter length].
    destruct (validated epoch_val epoch); simpl length; repeat split; lia.
Qed.



Lemma main_persists_config (config_ : dict) save_path disk :
  fs (snd (main config_ save_path disk)) !! path_join save_path "config.yaml"
    = Some (YamlFile config_).
Proof.
  unfold main.
  pose proof (main_setup_env save_path (Env config_ disk [])) as Hs.
  destruct (main_setup save_path (Env config_ disk [])) as [[x|err] e1];
    simpl in Hs; destruct Hs as (Hfs & _).
  - destruct x as [[tl vl] [[[m o] es] s]].
    pose proof (main_loop_frame save_path tl vl es (World e1 m o s))
      as (_ & _ & HF).
    destruct (main_loop save_path tl vl es (World e1 m o s)) as [r w'].
    simpl in *. apply HF. rewrite Hfs. apply lookup_insert_eq.
  - simpl. rewrite Hfs. apply lookup_insert_eq.
Qed.

(** X21.  The script fails with FileNotFoundError, having done nothing,
    when the configuration file does not exist; when it holds a
    configuration, the run leaves that configuration, verbatim, in
    [config.yaml] of the run directory, however the run ends, and that
    dump is the first thing the run does. *)
Theorem script_persists_config (a : args) (disk : gmap string file) :
  (disk !! arg_config a = None ->
   script a disk = (Raise (FileNotFoundError (arg_config a)), (disk, [])))
  /\ (forall doc,
        disk !! arg_config a = Some (YamlFile doc) ->
        fst (snd (script a disk))
          !! path_join (save_path_of a) "config.yaml" = Some (YamlFile doc)
        /\ exists rest,
             snd (snd (script a disk))
               = EvWrite (path_join (save_path_of a) "config.yaml")
                   (YamlFile doc) :: rest).
Proof.
  unfold script. split; [by intros ->|].
  intros doc ->.
  pose proof (main_persists_config doc (save_path_of a) disk) as Hfile.
  destruct (main_loads doc (save_path_of a) disk) as (pre & tail & Hl & _).
  destruct (main doc (save_path_of a) disk) as [r e]. simpl in *.
  split; [done|]. rewrite Hl. by eexists.
Qed.
End Loop.

Lemma tracker_only_improves_witness :
  dict_get "eval_type" (config (genv Toy.start)) = Some (PStr "f1")
  /\ fst (foldM (epoch_body (F := Toy.toy) Toy.run_dir Toy.train_loader
                   Toy.val_loader 1 (PInt 3) (PInt 2))
             [1; 2; 3] neg_1e18 Toy.start) = Ok (Fin 6)
  /\ (Fin 6 = neg_1e18 \/
      better (F := Toy.toy) (PStr "f1") (Fin 6) neg_1e18 = true).
Proof.
  split; [reflexivity|]. split; [vm_compute; reflexivity|].
  apply (tracker_only_improves (F := Toy.toy) Toy.run_dir Toy.train_loader
           Toy.val_loader 1 (PInt 3) (PInt 2) [1; 2; 3] (PStr "f1")
           neg_1e18 Toy.start (Fin 6));
    [reflexivity | vm_compute; reflexivity].
Defined.

Lemma loop_counts_witness :
  fst (foldM (epoch_body (F := Toy.toy) Toy.run_dir Toy.train_loader
                Toy.val_loader 1 (PInt 3) (PInt 2))
         [1; 2; 3] neg_1e18 Toy.start) = Ok (Fin 6)
  /\ exists new,
       out (genv (snd (foldM (epoch_body (F := Toy.toy) Toy.run_dir
                                Toy.train_loader Toy.val_loader 1 (PInt 3)
                                (PInt 2))
                         [1; 2; 3] neg_1e18 Toy.start)))
         = (out (genv Toy.start) ++ new)%list /\
       count (F := Toy.toy) (writes_to (ckpt_path Toy.run_dir "last")) new
         = 3%nat.
Proof.
  split; [vm_compute; reflexivity|].
  destruct (loop_counts (F := Toy.toy) Toy.run_dir Toy.train_loader
              Toy.val_loader 1 (PInt 3) (PInt 2) [1; 2; 3] neg_1e18 Toy.start
              (Fin 6))
    as (new & Hout & Hlast & _); [vm_compute; reflexivity|].
  exists new. split; [exact Hout | exact Hlast].
Defined.


Lemma script_persists_config_witness :
  ({[ "configs/demo.yaml" :=
        YamlFile (F := Toy.toy) (Toy.cfg (PInt 2) (PStr "f1")) ]}
     : gmap string (file (F := Toy.toy))) !! arg_config default_args
    = Some (YamlFile (F := Toy.toy) (Toy.cfg (PInt 2) (PStr "f1")))
  /\ fst (snd (script (F := Toy.toy) default_args
                 {[ "configs/demo.yaml" :=
                      YamlFile (F := Toy.toy) (Toy.cfg (PInt 2) (PStr "f1")) ]}))
       !! "./save/_demo/config.yaml"
       = Some (YamlFile (F := Toy.toy) (Toy.cfg (PInt 2) (PStr "f1"))).
Proof.
  split; [reflexivity|].
  destruct (script_persists_config (F := Toy.toy) default_args
              {[ "configs/demo.yaml" :=
                   YamlFile (F := Toy.toy) (Toy.cfg (PInt 2) (PStr "f1")) ]})
    as [_ H].
  destruct (H (Toy.cfg (PInt 2) (PStr "f1")) eq_refl) as [Hfile _].
  exact Hfile.
Defined.
